(** * The image-generation adapter (Supabase edge function [generate-image])

    A shallow embedding of the request handler passed to [serve] in
    [supabase/functions/generate-image/index.ts] and of its four-path
    revision, whose handler looks for the image in several response
    shapes, together with the properties the specification states about
    them.

    The handler is JavaScript: it reads properties of untyped JSON, tests
    values for truthiness, throws, catches, logs and performs one [fetch].
    The embedding keeps these as they are:
    - JSON data is the type [value]; property reads, optional chaining,
      [typeof], [Array.isArray] and truthiness are functions on it;
    - the handler body runs in a small monad [M] that records the console
      output and the outbound [fetch] in a trace and can throw;
    - the surrounding [try]/[catch] turns a thrown exception into the
      status-500 response. *)

From Stdlib Require Import String Ascii List ZArith Bool Lia DecimalString.
Import ListNotations.
Local Open Scope string_scope.
Local Open Scope Z_scope.
Set Warnings "-register-all".

(** ** JavaScript values and the primitives the handler uses *)

Module Js.

(** Numbers only ever reach the handler as JSON data that it tests for
    truthiness or passes on; they are kept as integers.  The fields of an
    object are those of the parsed value, one per key.  Strings are
    sequences of 8-bit characters. *)
Inductive value : Type :=
| VUndefined
| VNull
| VBool (b : bool)
| VNum (n : Z)
| VStr (s : string)
| VArr (items : list value)
| VObj (fields : list (string * value)).

(** What the handler can catch.  [TypeError base prop] is the engine's
    error for using property [prop] of [base]: reading it when [base] is
    [null] or [undefined], calling it when it is not a function; its
    message text is the engine's.  [Error m] is an
    [Error] instance with message [m]: the ones the handler constructs and
    the ones its environment rejects with.  [Thrown v] is a thrown value
    that is not an [Error] instance. *)
Inductive exn : Type :=
| Error (message : string)
| TypeError (base : value) (prop : string)
| Thrown (v : value).

(** The text of an error message: a known string, or the text the engine
    gives to a [TypeError]. *)
Inductive text : Type :=
| Str (s : string)
| EngineText (base : value) (prop : string).

Definition result (A : Type) : Type := (exn + A)%type.

(** [!!v] *)
Definition truthy (v : value) : bool :=
  match v with
  | VUndefined | VNull => false
  | VBool b => b
  | VNum n => negb (n =? 0)
  | VStr s => negb (s =? "")%string
  | VArr _ | VObj _ => true
  end.

(** [typeof v === "string"] *)
Definition is_string (v : value) : bool :=
  match v with VStr _ => true | _ => false end.

(** [Array.isArray(v)] *)
Definition is_array (v : value) : bool :=
  match v with VArr _ => true | _ => false end.

(** [v == null], the test of optional chaining *)
Definition nullish (v : value) : bool :=
  match v with VUndefined | VNull => true | _ => false end.

(** [v === "s"] *)
Definition is_the_string (s : string) (v : value) : bool :=
  match v with VStr t => (t =? s)%string | _ => false end.

Fixpoint lookup (k : string) (fields : list (string * value)) : value :=
  match fields with
  | [] => VUndefined
  | (k', v) :: rest => if (k' =? k)%string then v else lookup k rest
  end.

(** Reading the named property of a value that is neither [null] nor
    [undefined].  The handler reads [prompt], [editImageBase64], [choices],
    [message], [images], [image_url], [url], [content] and [type]; no
    built-in prototype defines any of them, so only an object's own field
    can answer. *)
Definition field (name : string) (v : value) : value :=
  match v with
  | VObj fields => lookup name fields
  | _ => VUndefined
  end.

(** Reading index [0] of a value that is neither [null] nor [undefined]:
    the first element of an array, the first character of a string, the
    field ["0"] of an object. *)
Definition first (v : value) : value :=
  match v with
  | VArr (x :: _) => x
  | VStr (String c _) => VStr (String c "")
  | VObj fields => lookup "0" fields
  | _ => VUndefined
  end.

(** [v.name] *)
Definition dot (name : string) (v : value) : result value :=
  if nullish v then inl (TypeError v name) else inr (field name v).

(** [v[0]] *)
Definition dot0 (v : value) : result value :=
  if nullish v then inl (TypeError v "0") else inr (first v).

(** [v?.name] *)
Definition opt (name : string) (v : value) : value :=
  if nullish v then VUndefined else field name v.

(** [v?.[0]] *)
Definition opt0 (v : value) : value :=
  if nullish v then VUndefined else first v.

(** [items.find(pred)]: the first element on which the callback answers
    true; the callback may throw, which ends the scan. *)
Fixpoint find (pred : value -> result bool) (items : list value)
  : result value :=
  match items with
  | [] => inr VUndefined
  | c :: rest =>
      match pred c with
      | inl e => inl e
      | inr true => inr c
      | inr false => find pred rest
      end
  end.

(** [`${n}`] for an integer *)
Definition decimal (n : Z) : string := NilZero.string_of_int (Z.to_int n).

End Js.
Import Js.

(** ** The regular expression of path 4

    [content.match(/data:image\/[^;]+;base64,[A-Za-z0-9+/=]+/)] is run by a
    backtracking matcher for patterns that are a sequence of character
    classes, each taken once or one-or-more times (greedy).  Every class
    of the pattern is decided by one ASCII character, so the match on the
    encoded string is the encoding of the match. *)

Module Regex.

Inductive piece : Type :=
| Once (cls : ascii -> bool)
| Plus (cls : ascii -> bool).

Definition pattern : Type := list piece.

(** After the first character of a [cls+]: take more while possible, and
    give characters back until the continuation [k] matches. *)
Fixpoint more (cls : ascii -> bool) (k : string -> option string)
  (s : string) : option string :=
  match s with
  | String c s' =>
      if cls c then
        match more cls k s' with
        | Some m => Some (String c m)
        | None => k s
        end
      else k s
  | EmptyString => k s
  end.

(** The text matched by pattern [p] at the start of [s]. *)
Fixpoint match_here (p : pattern) (s : string) : option string :=
  match p with
  | [] => Some ""
  | Once cls :: p' =>
      match s with
      | String c s' =>
          if cls c then option_map (String c) (match_here p' s') else None
      | EmptyString => None
      end
  | Plus cls :: p' =>
      match s with
      | String c s' =>
          if cls c then option_map (String c) (more cls (match_here p') s')
          else None
      | EmptyString => None
      end
  end.

(** [s.match(p)] without the [g] flag: the match at the leftmost position
    that has one, [None] for [null]. *)
Fixpoint search (p : pattern) (s : string) : option string :=
  match match_here p s with
  | Some m => Some m
  | None =>
      match s with
      | String _ s' => search p s'
      | EmptyString => None
      end
  end.

Fixpoint literal (s : string) : pattern :=
  match s with
  | EmptyString => []
  | String c s' => Once (Ascii.eqb c) :: literal s'
  end.

Definition between (lo hi c : ascii) : bool :=
  (nat_of_ascii lo <=? nat_of_ascii c)%nat && (nat_of_ascii c <=? nat_of_ascii hi)%nat.

(** [[^;]] *)
Definition not_semicolon (c : ascii) : bool := negb (Ascii.eqb c ";").

(** [[A-Za-z0-9+/=]] *)
Definition base64_char (c : ascii) : bool :=
  between "A" "Z" c || between "a" "z" c || between "0" "9" c
  || Ascii.eqb c "+" || Ascii.eqb c "/" || Ascii.eqb c "=".

(** [/data:image\/[^;]+;base64,[A-Za-z0-9+/=]+/] *)
Definition data_uri : pattern :=
  (literal "data:image/" ++ [Plus not_semicolon] ++ literal ";base64,"
   ++ [Plus base64_char])%list.

End Regex.

(** ** Requests, responses and the handler's effects *)

Module Http.

(** The incoming request: [req.method] and the outcome of [await req.json()]. *)
Record Request : Type := {
  method : string;
  req_json : result value
}.

(** The object given to [JSON.stringify] for the outbound body. *)
Record ChatRequest : Type := {
  model : string;
  messages : value;
  modalities : list string
}.

(** The second argument of [fetch]. *)
Record RequestInit : Type := {
  init_method : string;
  init_headers : list (string * string);
  init_body : ChatRequest
}.

(** The provider's answer: [response.status] and the outcomes of
    [await response.text()] and [await response.json()]. *)
Record FetchResponse : Type := {
  status : Z;
  text_body : result string;
  json_body : result value
}.

(** [response.ok] *)
Definition ok (r : FetchResponse) : bool :=
  (200 <=? status r) && (status r <=? 299).

(** The bodies the handler serialises: [null], [{ error }],
    [{ error, success }] and [{ imageUrl, textContent, success }]. *)
Inductive body : Type :=
| NoBody
| ErrorOnly (error : text)
| Failure (error : text) (success : bool)
| Success (imageUrl textContent : value) (success : bool).

(** [new Response(body, { status, headers })] *)
Record Response : Type := {
  res_status : Z;
  res_headers : list (string * string);
  res_body : body
}.

(** What the process is given: the environment variable and the network.
    [fetch url init] is the outcome of the awaited call. *)
Record Env : Type := {
  LOVABLE_API_KEY : option string;
  fetch : string -> RequestInit -> result FetchResponse
}.

(** An argument of [console.log] or [console.error].  [LJson v] stands for
    [JSON.stringify(v, null, 2)] and [LKeys v] for [Object.keys(v)]. *)
Inductive logged : Type :=
| LStr (s : string)
| LBool (b : bool)
| LNum (n : Z)
| LValue (v : value)
| LJson (v : value)
| LKeys (v : value)
| LExn (e : exn).

Inductive event : Type :=
| ConsoleLog (args : list logged)
| ConsoleError (args : list logged)
| Fetch (url : string) (init : RequestInit).

End Http.
Import Http.

(** ** The monad of the handler body: a trace of effects and a result *)

Definition M (A : Type) : Type := (list event * result A)%type.

Definition ret {A} (a : A) : M A := ([], inr a).

Definition throw {A} (e : exn) : M A := ([], inl e).

Definition bind {A B} (m : M A) (f : A -> M B) : M B :=
  match m with
  | (t, inl e) => (t, inl e)
  | (t, inr a) => let (t', r) := f a in ((t ++ t')%list, r)
  end.

Definition lift {A} (r : result A) : M A := ([], r).

Definition emit (ev : event) : M unit := ([ev], inr tt).

Definition console_log (args : list logged) : M unit := emit (ConsoleLog args).

Definition console_error (args : list logged) : M unit :=
  emit (ConsoleError args).

Definition bind_result {A B} (r : result A) (f : A -> result B) : result B :=
  match r with
  | inl e => inl e
  | inr a => f a
  end.

Declare Scope handler_scope.
Delimit Scope handler_scope with handler.
Notation "x <- m ;; k" := (bind m (fun x => k))
  (at level 61, m at next level, right associativity) : handler_scope.
Notation "m ;; k" := (bind m (fun _ => k))
  (at level 61, right associativity) : handler_scope.
Notation "'let?' x := r 'in' k" := (bind_result r (fun x => k))
  (at level 61, x name, r at next level, right associativity).
Local Open Scope handler_scope.

(** ** The part of the handler the two revisions share (lines 3 to 74) *)

Definition corsHeaders : list (string * string) :=
  [ ("Access-Control-Allow-Origin", "*");
    ("Access-Control-Allow-Headers",
     "authorization, x-client-info, apikey, content-type") ].

(** [{ ...corsHeaders, "Content-Type": "application/json" }] *)
Definition jsonHeaders : list (string * string) :=
  (corsHeaders ++ [("Content-Type", "application/json")])%list.

Definition gateway_url : string :=
  "https://ai.gateway.lovable.dev/v1/chat/completions".

(** [!LOVABLE_API_KEY] is false *)
Definition configured (key : option string) : bool :=
  match key with
  | Some k => negb (k =? "")%string
  | None => false
  end.

Definition key_text (key : option string) : string :=
  match key with
  | Some k => k
  | None => "undefined"
  end.

(** Lines 28 to 41. *)
Definition build_messages (prompt editImageBase64 : value) : value :=
  if truthy editImageBase64 then
    VArr [ VObj [ ("role", VStr "user");
                  ("content",
                   VArr [ VObj [("type", VStr "text"); ("text", prompt)];
                          VObj [ ("type", VStr "image_url");
                                 ("image_url",
                                  VObj [("url", editImageBase64)]) ] ]) ] ]
  else
    VArr [ VObj [("role", VStr "user"); ("content", prompt)] ].

(** Lines 43 to 54: the arguments of the one [fetch]. *)
Definition gateway_init (key : option string) (msgs : value) : RequestInit :=
  {| init_method := "POST";
     init_headers := [ ("Authorization", "Bearer " ++ key_text key);
                       ("Content-Type", "application/json") ];
     init_body := {| model := "google/gemini-2.5-flash-image-preview";
                     messages := msgs;
                     modalities := ["image"; "text"] |} |}.

Definition do_fetch (env : Env) (url : string) (init : RequestInit)
  : M FetchResponse :=
  emit (Fetch url init) ;; lift (fetch env url init).

Definition rate_limit_response : Response :=
  {| res_status := 429;
     res_headers := jsonHeaders;
     res_body := ErrorOnly (Str "Rate limit exceeded. Please try again later.") |}.

Definition payment_response : Response :=
  {| res_status := 402;
     res_headers := jsonHeaders;
     res_body :=
       ErrorOnly (Str "Payment required. Please add credits to your workspace.") |}.

(** Lines 56 to 74: the provider's answer is either turned into a response
    returned early (429 and 402), thrown as an error, or parsed. *)
Definition check_status (response : FetchResponse) : M (Response + value) :=
  if negb (ok response) then
    if status response =? 429 then ret (inl rate_limit_response)
    else if status response =? 402 then ret (inl payment_response)
    else
      errorText <- lift (text_body response) ;;
      console_error [ LStr "AI gateway error:"; LNum (status response);
                      LStr errorText ] ;;
      throw (Error ("AI gateway error: " ++ decimal (status response)))
  else
    data <- lift (json_body response) ;;
    ret (inr data).

Definition configuration_message : string := "LOVABLE_API_KEY is not configured".

Definition validation_message : string :=
  "Prompt is required and must be a string".

(** Lines 14 to 74 of the [try] block: either a response returned early
    or the parsed provider data. *)
Definition call_gateway (env : Env) (req : Request) : M (Response + value) :=
  parsed <- lift (req_json req) ;;
  prompt <- lift (dot "prompt" parsed) ;;
  editImageBase64 <- lift (dot "editImageBase64" parsed) ;;
  let key := LOVABLE_API_KEY env in
  if negb (configured key) then throw (Error configuration_message)
  else if negb (truthy prompt) || negb (is_string prompt) then
    throw (Error validation_message)
  else
    console_log [LStr "Generating image with prompt:"; LValue prompt] ;;
    console_log [LStr "Edit mode:"; LBool (truthy editImageBase64)] ;;
    let msgs := build_messages prompt editImageBase64 in
    response <- do_fetch env gateway_url (gateway_init key msgs) ;;
    check_status response.

(** [error instanceof Error ? error.message : "Unknown error occurred"] *)
Definition error_message (e : exn) : text :=
  match e with
  | Error m => Str m
  | TypeError base prop => EngineText base prop
  | Thrown _ => Str "Unknown error occurred"
  end.

(** The [catch] block. *)
Definition catch_response (e : exn) : Response :=
  {| res_status := 500;
     res_headers := jsonHeaders;
     res_body := Failure (error_message e) false |}.

Definition success_response (imageUrl textContent : value) : Response :=
  {| res_status := 200;
     res_headers := jsonHeaders;
     res_body := Success imageUrl textContent true |}.

Definition preflight_response : Response :=
  {| res_status := 200; res_headers := corsHeaders; res_body := NoBody |}.

(** The handler around a [try] body: the preflight answer, the [try] and
    the [catch]. *)
Definition with_catch (req : Request) (try_body : M Response)
  : list event * Response :=
  if (method req =? "OPTIONS")%string then ([], preflight_response)
  else
    match try_body with
    | (t, inr resp) => (t, resp)
    | (t, inl e) =>
        ((t ++ [ConsoleError [LStr "Error in generate-image function:"; LExn e]])%list,
         catch_response e)
    end.

(** [data.choices?.[0]?.message] *)
Definition message_of (data : value) : result value :=
  let? choices := dot "choices" data in
  inr (opt "message" (opt0 choices)).

(** [data.choices[0].message] *)
Definition message_strict (data : value) : result value :=
  let? choices := dot "choices" data in
  let? choice := dot0 choices in
  dot "message" choice.

(** [data.choices?.[0]?.message?.images?.[0]?.image_url?.url] *)
Definition images_url (data : value) : result value :=
  let? message := message_of data in
  inr (opt "url" (opt "image_url" (opt0 (opt "images" message)))).

(** [data.choices?.[0]?.message?.content] *)
Definition content_of (data : value) : result value :=
  let? message := message_of data in
  inr (opt "content" message).

(** ** The four-path revision of the handler (lines 74 to 136) *)

Module FourPath.

(** [data.choices[0].message.images[0].image_url.url] *)
Definition images_url_strict (data : value) : result value :=
  let? message := message_strict data in
  let? images := dot "images" message in
  let? image := dot0 images in
  let? image_url := dot "image_url" image in
  dot "url" image_url.

(** [data.choices[0].message.image_url.url] *)
Definition direct_url_strict (data : value) : result value :=
  let? message := message_strict data in
  let? image_url := dot "image_url" message in
  dot "url" image_url.

(** [data.choices[0].message.content] *)
Definition content_strict (data : value) : result value :=
  let? message := message_strict data in
  dot "content" message.

(** [(c) => c.type === "image_url" || c.type === "image"] *)
Definition is_image_entry (c : value) : result bool :=
  let? type := dot "type" c in
  if is_the_string "image_url" type then inr true
  else
    let? type' := dot "type" c in
    inr (is_the_string "image" type').

(** [content.find(...)] for a value read from the response *)
Definition find_in (pred : value -> result bool) (content : value)
  : result value :=
  match content with
  | VArr items => find pred items
  | _ => inl (TypeError content "find")
  end.

(** [content.match(...)] for a value read from the response; [None] is
    [null], [Some m] the match array whose element [0] is [m]. *)
Definition match_in (content : value) : result (option string) :=
  match content with
  | VStr s => inr (Regex.search Regex.data_uri s)
  | _ => inl (TypeError content "match")
  end.

(** Path 1 (lines 80 to 84), from the current [imageUrl] to the next. *)
Definition path1 (data imageUrl : value) : M value :=
  found <- lift (images_url data) ;;
  if truthy found then
    url <- lift (images_url_strict data) ;;
    console_log [LStr "Found image via path 1 (images array)"] ;;
    ret url
  else ret imageUrl.

(** Path 2 (lines 86 to 90). *)
Definition path2 (data imageUrl : value) : M value :=
  if negb (truthy imageUrl) then
    message <- lift (message_of data) ;;
    if truthy (opt "url" (opt "image_url" message)) then
      url <- lift (direct_url_strict data) ;;
      console_log [LStr "Found image via path 2 (direct image_url)"] ;;
      ret url
    else ret imageUrl
  else ret imageUrl.

(** Path 3 (lines 92 to 104). *)
Definition path3 (data imageUrl : value) : M value :=
  if negb (truthy imageUrl) then
    content <- lift (content_of data) ;;
    if is_array content then
      entries <- lift (content_strict data) ;;
      imageContent <- lift (find_in is_image_entry entries) ;;
      if truthy (opt "url" (opt "image_url" imageContent)) then
        image_url <- lift (dot "image_url" imageContent) ;;
        url <- lift (dot "url" image_url) ;;
        console_log [LStr "Found image via path 3 (content array)"] ;;
        ret url
      else if truthy (opt "url" imageContent) then
        url <- lift (dot "url" imageContent) ;;
        console_log [LStr "Found image via path 3b (content array direct url)"] ;;
        ret url
      else ret imageUrl
    else ret imageUrl
  else ret imageUrl.

(** Path 4 (lines 106 to 114). *)
Definition path4 (data imageUrl : value) : M value :=
  if negb (truthy imageUrl) then
    typed <- lift (content_of data) ;;
    if is_string typed then
      content <- lift (content_strict data) ;;
      base64Match <- lift (match_in content) ;;
      match base64Match with
      | Some m =>
          console_log [LStr "Found image via path 4 (base64 in content)"] ;;
          ret (VStr m)
      | None => ret imageUrl
      end
    else ret imageUrl
  else ret imageUrl.

(** Lines 77 to 114: [let imageUrl = null] and the four updates. *)
Definition find_image (data : value) : M value :=
  let imageUrl := VNull in
  imageUrl <- path1 data imageUrl ;;
  imageUrl <- path2 data imageUrl ;;
  imageUrl <- path3 data imageUrl ;;
  path4 data imageUrl.

(** Lines 116 to 118. *)
Definition text_content (data : value) : M value :=
  typed <- lift (content_of data) ;;
  if is_string typed then lift (content_strict data) else ret (VStr "").

Definition no_image_message : string :=
  "No image was generated. The AI model might be experiencing issues.".

(** Lines 120 to 125. *)
Definition report_no_image (data : value) : M Response :=
  console_error [ LStr "No image found in response. Response structure:";
                  LKeys data ] ;;
  choices <- lift (dot "choices" data) ;;
  (if truthy (opt0 choices) then
     choice <- lift (dot0 choices) ;;
     console_error [LStr "Choices structure:"; LKeys choice]
   else console_error [LStr "Choices structure:"; LStr "no choices"]) ;;
  message <- lift (message_of data) ;;
  (if truthy message then
     message' <- lift (message_strict data) ;;
     console_error [LStr "Message structure:"; LKeys message']
   else console_error [LStr "Message structure:"; LStr "no message"]) ;;
  throw (Error no_image_message).

(** Lines 75 to 136: from the parsed provider data to the response. *)
Definition respond (data : value) : M Response :=
  console_log [LStr "Full AI response:"; LJson data] ;;
  imageUrl <- find_image data ;;
  textContent <- text_content data ;;
  if negb (truthy imageUrl) then report_no_image data
  else
    console_log [LStr "Successfully extracted image URL"] ;;
    ret (success_response imageUrl textContent).

Definition try_body (env : Env) (req : Request) : M Response :=
  r <- call_gateway env req ;;
  match r with
  | inl early => ret early
  | inr data => respond data
  end.

(** The handler given to [serve]. *)
Definition serve (env : Env) (req : Request) : list event * Response :=
  with_catch req (try_body env req).

End FourPath.

(** ** The handler of [supabase/functions/generate-image/index.ts]
       (lines 74 to 91) *)

Module IndexTs.

Definition no_image_message : string := "No image was generated".

(** [v || ""] *)
Definition or_empty (v : value) : value :=
  if truthy v then v else VStr "".

Definition respond (data : value) : M Response :=
  console_log [LStr "AI response received"] ;;
  imageUrl <- lift (images_url data) ;;
  content <- lift (content_of data) ;;
  let textContent := or_empty content in
  if negb (truthy imageUrl) then throw (Error no_image_message)
  else ret (success_response imageUrl textContent).

Definition try_body (env : Env) (req : Request) : M Response :=
  r <- call_gateway env req ;;
  match r with
  | inl early => ret early
  | inr data => respond data
  end.

Definition serve (env : Env) (req : Request) : list event * Response :=
  with_catch req (try_body env req).

End IndexTs.

(** ** What each path reads, as a function of the data

    The references that paths 1 to 4 (lines 80 to 114) read from the
    provider data, without the variable [imageUrl] and the log, and their
    composition in the order of the paths.  A read that raises in the
    handler raises here. *)

Module Policy.

(** Path 1 (line 81): [message.images[0].image_url.url]. *)
Definition strategy1 (data : value) : result value := images_url data.

(** Path 2 (line 87): [message.image_url.url]. *)
Definition strategy2 (data : value) : result value :=
  let? message := message_of data in
  inr (opt "url" (opt "image_url" message)).

(** The test of the scan of path 3 (line 95): [c.type] is read, which
    raises on [null], and compared with the two tags. *)
Definition tagged (c : value) : result bool :=
  let? type := dot "type" c in
  inr (is_the_string "image_url" type || is_the_string "image" type).

(** Path 3 (lines 93 to 103): the first entry of the content list that
    passes the test, read as [image_url.url], else as [url]. *)
Definition strategy3 (data : value) : result value :=
  let? content := content_of data in
  match content with
  | VArr items =>
      let? entry := find tagged items in
      inr (if truthy (opt "url" (opt "image_url" entry))
           then opt "url" (opt "image_url" entry)
           else opt "url" entry)
  | _ => inr VUndefined
  end.

(** Path 4 (lines 107 to 113): the match of the pattern in the content
    string. *)
Definition strategy4 (data : value) : result value :=
  let? content := content_of data in
  match content with
  | VStr s =>
      inr (match Regex.search Regex.data_uri s with
           | Some m => VStr m
           | None => VNull
           end)
  | _ => inr VUndefined
  end.

Definition strategies : list (value -> result value) :=
  [strategy1; strategy2; strategy3; strategy4].

(** The first of the reads, in order, whose reference is truthy. *)
Fixpoint first_nonempty (ss : list (value -> result value)) (data : value)
  : result (option value) :=
  match ss with
  | [] => inr None
  | s :: rest =>
      let? v := s data in
      if truthy v then inr (Some v) else first_nonempty rest data
  end.

End Policy.

(** ** The extraction policy in the specification's words

    Four strategies, each looking at one shape of the provider data, tried
    in order until one yields a non-empty (truthy) reference.  They are
    written on the data alone: a missing part is [undefined], and an entry
    of a content list is tagged as an image when its [type] is
    [image_url] or [image]. *)

Module Spec.

(** The message of the first choice. *)
Definition message (data : value) : value :=
  opt "message" (opt0 (opt "choices" data)).

(** The content of that message. *)
Definition content (data : value) : value := opt "content" (message data).

(** 1. The image-list field on the first choice's message. *)
Definition strategy1 (data : value) : value :=
  opt "url" (opt "image_url" (opt0 (opt "images" (message data)))).

(** 2. The direct image-reference field on the message. *)
Definition strategy2 (data : value) : value :=
  opt "url" (opt "image_url" (message data)).

Definition tagged_as_image (entry : value) : bool :=
  match opt "type" entry with
  | VStr tag => (tag =? "image_url")%string || (tag =? "image")%string
  | _ => false
  end.

(** The reference of an entry, in either of its two sub-shapes. *)
Definition reference (entry : value) : value :=
  if truthy (opt "url" (opt "image_url" entry))
  then opt "url" (opt "image_url" entry)
  else opt "url" entry.

(** 3. A content list on the message: the reference of the first entry
    tagged as an image. *)
Definition strategy3 (data : value) : value :=
  match content data with
  | VArr items =>
      match List.find tagged_as_image items with
      | Some entry => reference entry
      | None => VUndefined
      end
  | _ => VUndefined
  end.

(** 4. A content string on the message, searched for an inline base64
    image data URI. *)
Definition strategy4 (data : value) : value :=
  match content data with
  | VStr s =>
      match Regex.search Regex.data_uri s with
      | Some m => VStr m
      | None => VNull
      end
  | _ => VUndefined
  end.

Definition strategies : list (value -> value) :=
  [strategy1; strategy2; strategy3; strategy4].

(** The first strategy, in order, whose reference is non-empty. *)
Fixpoint first_nonempty (ss : list (value -> value)) (data : value)
  : option value :=
  match ss with
  | [] => None
  | s :: rest =>
      if truthy (s data) then Some (s data) else first_nonempty rest data
  end.

End Spec.

(** The provider data is neither [null] nor [undefined] and its content
    list, if it has one, holds no such entry. *)
Definition readable (data : value) : bool :=
  negb (nullish data)
  && match Spec.content data with
     | VArr items => forallb (fun entry => negb (nullish entry)) items
     | _ => true
     end.

(** The messages of the [fetch] calls recorded in a trace. *)
Fixpoint sent_messages (t : list event) : list value :=
  match t with
  | [] => []
  | Fetch _ init :: rest => messages (init_body init) :: sent_messages rest
  | _ :: rest => sent_messages rest
  end.

(** The number of [fetch] calls recorded in a trace. *)
Definition fetch_count (t : list event) : nat := List.length (sent_messages t).

(** The prompt a request carries: the [prompt] field of its parsed body,
    [undefined] when there is none. *)
Definition prompt_of (req : Request) : value :=
  match req_json req with
  | inr parsed => opt "prompt" parsed
  | inl _ => VUndefined
  end.

(** The edit target a request carries. *)
Definition edit_image_of (req : Request) : value :=
  match req_json req with
  | inr parsed => opt "editImageBase64" parsed
  | inl _ => VUndefined
  end.

(** The body of the request parsed to a value other than [null]. *)
Definition has_body (req : Request) : bool :=
  match req_json req with
  | inr parsed => negb (nullish parsed)
  | inl _ => false
  end.

(** The request is one the handler forwards: not the preflight, a parsed
    body other than [null], the credential configured and a non-empty
    string prompt. *)
Definition forwards (env : Env) (req : Request) : bool :=
  negb (method req =? "OPTIONS")%string
  && has_body req
  && configured (LOVABLE_API_KEY env)
  && truthy (prompt_of req) && is_string (prompt_of req).

(** The second argument of the [fetch] made for a forwarded request. *)
Definition forwarded_init (env : Env) (req : Request) : RequestInit :=
  gateway_init (LOVABLE_API_KEY env)
    (build_messages (prompt_of req) (edit_image_of req)).

(** The provider's answer to a forwarded request, if there is one. *)
Definition provider_response (env : Env) (req : Request)
  : option FetchResponse :=
  if forwards env req then
    match fetch env gateway_url (forwarded_init env req) with
    | inr response => Some response
    | inl _ => None
    end
  else None.

(** The payloads in the specification's words: a single user message whose
    content is the plain prompt, and a single user message whose content is
    a list of one text entry followed by one image entry. *)
Definition plain_payload (prompt : value) : value :=
  VArr [VObj [("role", VStr "user"); ("content", prompt)]].

Definition text_entry (prompt : value) : value :=
  VObj [("type", VStr "text"); ("text", prompt)].

Definition image_entry (image : value) : value :=
  VObj [("type", VStr "image_url"); ("image_url", VObj [("url", image)])].

Definition edit_payload (prompt image : value) : value :=
  VArr [VObj [ ("role", VStr "user");
               ("content", VArr [text_entry prompt; image_entry image]) ]].

(** The two revisions of the handler. *)
Definition revisions : list (Env -> Request -> list event * Response) :=
  [FourPath.serve; IndexTs.serve].

(** The request gets as far as the prompt check: it is not the preflight,
    its body parsed to a value other than [null] and the credential is
    configured. *)
Definition reaches_prompt_check (env : Env) (req : Request) : bool :=
  negb (method req =? "OPTIONS")%string
  && has_body req
  && configured (LOVABLE_API_KEY env).

(** A computation that makes no [fetch]. *)
Definition quiet {A} (m : M A) : Prop := sent_messages (fst m) = [].

(** The response the handler gives for the outcome of its [try] block. *)
Definition settle (r : result Response) : Response :=
  match r with
  | inr resp => resp
  | inl e => catch_response e
  end.

(** ** Vocabulary of the statements *)

(** Every character of [s] is in the class [cls]. *)
Fixpoint all_chars (cls : ascii -> bool) (s : string) : bool :=
  match s with
  | EmptyString => true
  | String c s' => cls c && all_chars cls s'
  end.

(** [s] begins with a character of the class [cls]. *)
Definition starts_in (cls : ascii -> bool) (s : string) : bool :=
  match s with
  | EmptyString => false
  | String c _ => cls c
  end.

(** The position of the first occurrence of [needle] in [s]. *)
Fixpoint first_occurrence (needle s : string) : option nat :=
  if String.prefix needle s then Some 0%nat
  else
    match s with
    | EmptyString => None
    | String _ s' => option_map S (first_occurrence needle s')
    end.

(** [needle] occurs in [s]. *)
Definition contains (needle s : string) : bool :=
  match first_occurrence needle s with
  | Some _ => true
  | None => false
  end.

(** [data:image/<subtype>;base64,<payload>] *)
Definition data_uri_text (subtype payload : string) : string :=
  "data:image/" ++ subtype ++ ";base64," ++ payload.

(** The content string, or the empty string when the content is not one. *)
Definition string_content (content : value) : value :=
  match content with
  | VStr s => VStr s
  | _ => VStr ""
  end.

Definition answer (st : Z) (txt : string) (data : value) : FetchResponse :=
  {| status := st; text_body := inr txt; json_body := inr data |}.

(** Sample inputs: an environment with a credential whose provider answers
    every call with the given status, text and JSON data, and one without a
    credential. *)
Definition env_answering (st : Z) (txt : string) (data : value) : Env :=
  {| LOVABLE_API_KEY := Some "secret";
     fetch := fun _ _ => inr (answer st txt data) |}.

Definition env_unconfigured : Env :=
  {| LOVABLE_API_KEY := None;
     fetch := fun _ _ => inl (Error "network unreachable") |}.

Definition post (fields : list (string * value)) : Request :=
  {| method := "POST"; req_json := inr (VObj fields) |}.

(** Provider data with one choice whose message has the given fields. *)
Definition one_message (fields : list (string * value)) : value :=
  VObj [("choices", VArr [VObj [("message", VObj fields)]])].

Definition images_of (url : string) : value :=
  VArr [VObj [("image_url", VObj [("url", VStr url)])]].

(** The content of the first choice's message, [undefined] when the data
    has none. *)
Definition content_value (data : value) : value :=
  match content_of data with
  | inr content => content
  | inl _ => VUndefined
  end.

(** A populated image list next to a content string that holds a data URI. *)
Definition data_list_and_uri : value :=
  one_message [ ("content", VStr "Here it is: data:image/png;base64,AAAA.");
                ("images", images_of "https://x/img.png") ].

(** Only a content string that holds a data URI. *)
Definition data_uri_only : value :=
  one_message [("content", VStr "![x](data:image/png;base64,iVBOR/w0+KGgo=) done")].

(** Only a content string that holds a data URI with a media-type
    parameter. *)
Definition data_uri_with_parameter : value :=
  one_message
    [("content", VStr "data:image/svg+xml;charset=utf-8;base64,PHN2Zz48L3N2Zz4=")].

(** A content list whose only entry is [null]. *)
Definition data_null_entry : value :=
  one_message [("content", VArr [VNull])].

(** A message with text only. *)
Definition data_text_only : value :=
  one_message [("content", VStr "I cannot draw that.")].

Definition a_red_circle : Request := post [("prompt", VStr "a red circle")].

Definition an_edit : Request :=
  post [ ("prompt", VStr "make it blue");
         ("editImageBase64", VStr "data:image/png;base64,AAAA") ].

Definition an_empty_edit : Request :=
  post [("prompt", VStr "make it blue"); ("editImageBase64", VStr "")].

Definition no_prompt : Request := post [("editImageBase64", VNull)].

Definition empty_prompt : Request := post [("prompt", VStr "")].

(** The [fetch] calls recorded in a trace, with their arguments. *)
Fixpoint fetch_events (t : list event) : list (string * RequestInit) :=
  match t with
  | [] => []
  | Fetch url init :: rest => (url, init) :: fetch_events rest
  | _ :: rest => fetch_events rest
  end.

(** The [console.error] calls recorded in a trace. *)
Fixpoint console_errors (t : list event) : list (list logged) :=
  match t with
  | [] => []
  | ConsoleError args :: rest => args :: console_errors rest
  | _ :: rest => console_errors rest
  end.

(** An environment with a credential whose network call is rejected. *)
Definition env_offline : Env :=
  {| LOVABLE_API_KEY := Some "secret";
     fetch := fun _ _ => inl (Error "network unreachable") |}.

(** An environment whose credential is the empty string. *)
Definition env_empty_key (data : value) : Env :=
  {| LOVABLE_API_KEY := Some "";
     fetch := fun _ _ => inr (answer 200 "" data) |}.

(** A content list with a text entry, an image entry without a reference
    and an image entry with one. *)
Definition data_hidden_entry : value :=
  one_message
    [("content",
      VArr [ text_entry (VStr "done");
             VObj [("type", VStr "image")];
             image_entry (VStr "https://x/late.png") ])].

(** A content list with a text entry and an image entry tagged
    [image_url]. *)
Definition data_listed_entry : value :=
  one_message
    [("content",
      VArr [text_entry (VStr "done"); image_entry (VStr "https://x/a.png")])].

(** A message with a direct image reference only. *)
Definition data_direct_url : value :=
  one_message [("image_url", VObj [("url", VStr "https://x/direct.png")])].

(** A content list with a text entry and an image entry in the second
    sub-shape. *)
Definition data_direct_entry : value :=
  one_message
    [("content",
      VArr [ text_entry (VStr "done");
             VObj [("type", VStr "image"); ("url", VStr "https://x/b.png")] ])].

(** The entry is one the scan of path 3 passes over. *)
Definition passed_over (c : value) : bool :=
  negb (nullish c) && negb (Spec.tagged_as_image c).

(** ** The client: [generateImage] of [ImageGenerator.tsx] and
       [deleteImage] of the gallery

    The two functions run against the component's current props and state
    and against the backend: the function call, the record store and the
    string built-ins they use.  Calls to state setters, callbacks, [toast]
    and the backend are recorded in a trace. *)

Module Client.

(** What is shown as a toast description or thrown as a message: a value,
    or the text the engine gives to a [TypeError]. *)
Inductive shown : Type :=
| Shown (v : value)
| EngineShown (base : value) (prop : string).

(** [LogError label what] is [console.error(label, what)]; an error value
    reported by the backend is logged as [Thrown]. *)
Inductive effect : Type :=
| Toast (title : string) (description : shown) (destructive : bool)
| SetIsGenerating (b : bool)
| SetGeneratedImage (v : value)
| SetLastPrompt (s : string)
| SetPrompt (s : string)
| Invoke (name : string) (options : value)
| Insert (table : string) (row : value)
| Delete (table : string) (id : string)
| SetDeletingId (id : option string)
| SetImages (images : list value)
| LogError (label : string) (what : exn)
| OnImageGenerated (imageUrl : value) (prompt : string)
| OnClearEdit.

(** The backend and the built-ins: [String.prototype.trim], [String(v)]
    for a value that is not a string, [supabase.functions.invoke] (its
    [data] and [error]), and the [error] of an insert and of a delete on
    the record store. *)
Record Backend : Type := {
  trim : string -> string;
  string_of_other : value -> string;
  invoke : string -> value -> result (value * value);
  insert : string -> value -> result value;
  delete : string -> string -> result value
}.

(** The props and state [generateImage] closes over. *)
Record Generator : Type := {
  prompt : string;
  user : value;
  editImage : value;
  onImageGenerated : bool;
  onClearEdit : bool
}.

Definition C (A : Type) : Type := (list effect * result A)%type.

Definition cret {A} (a : A) : C A := ([], inr a).

Definition cthrow {A} (e : exn) : C A := ([], inl e).

Definition cbind {A B} (m : C A) (f : A -> C B) : C B :=
  match m with
  | (t, inl e) => (t, inl e)
  | (t, inr a) => let (t', r) := f a in ((t ++ t')%list, r)
  end.

Definition clift {A} (r : result A) : C A := ([], r).

Definition effect_of (ev : effect) : C unit := ([ev], inr tt).

(** [try { body } catch (error) { handler } finally { final }] *)
Definition try_catch_finally {A} (body : C A) (handler : exn -> C A)
  (final : C unit) : C A :=
  let (t, r) := body in
  let (t', r') := match r with
                  | inr a => ([], inr a)
                  | inl e => handler e
                  end in
  let (t'', f) := final in
  ((t ++ t' ++ t'')%list,
   match f with
   | inl e => inl e
   | inr _ => r'
   end).

Declare Scope client_scope.
Notation "x <- m ;; k" := (cbind m (fun x => k))
  (at level 61, m at next level, right associativity) : client_scope.
Notation "m ;; k" := (cbind m (fun _ => k))
  (at level 61, right associativity) : client_scope.
Local Open Scope client_scope.

(** [String(v)] *)
Definition js_string (w : Backend) (v : value) : string :=
  match v with
  | VStr s => s
  | _ => string_of_other w v
  end.

(** [v || "s"] *)
Definition or_else (v : value) (s : string) : value :=
  if truthy v then v else VStr s.

(** [error.message || "s"] for a caught [error] *)
Definition message_or (e : exn) (s : string) : C shown :=
  match e with
  | Error m => cret (Shown (or_else (VStr m) s))
  | TypeError base prop => cret (EngineShown base prop)
  | Thrown v =>
      message <- clift (dot "message" v) ;;
      cret (Shown (or_else message s))
  end.

(** Lines 53 to 57. *)
Definition request_body (g : Generator) : value :=
  VObj ([("prompt", VStr (prompt g))]
        ++ if truthy (editImage g)
           then [("editImageBase64", field "imageUrl" (editImage g))]
           else [])%list.

(** Lines 53 to 95: the [try] block. *)
Definition generate_try (w : Backend) (g : Generator) : C unit :=
  let requestBody := request_body g in
  effect_of (Invoke "generate-image" (VObj [("body", requestBody)])) ;;
  answer <- clift (invoke w "generate-image" (VObj [("body", requestBody)])) ;;
  let (data, error) := (answer : value * value) in
  if truthy error then cthrow (Thrown error)
  else
    success <- clift (dot "success" data) ;;
    if negb (truthy success) then
      reason <- clift (dot "error" data) ;;
      cthrow (Error (js_string w (or_else reason "Rasm yaratishda xatolik")))
    else
      imageUrl <- clift (dot "imageUrl" data) ;;
      effect_of (SetGeneratedImage imageUrl) ;;
      effect_of (SetLastPrompt (prompt g)) ;;
      let row := VObj [ ("user_id", field "id" (user g));
                        ("prompt", VStr (prompt g));
                        ("image_url", imageUrl) ] in
      effect_of (Insert "generated_images" row) ;;
      saveError <- clift (insert w "generated_images" row) ;;
      (if truthy saveError
       then effect_of (LogError "Error saving image:" (Thrown saveError))
       else cret tt) ;;
      (if onImageGenerated g
       then effect_of (OnImageGenerated imageUrl (prompt g))
       else cret tt) ;;
      effect_of (Toast "Muvaffaqiyat!"
                   (Shown (VStr "Rasm yaratildi va saqlandi")) false) ;;
      effect_of (SetPrompt "") ;;
      if onClearEdit g then effect_of OnClearEdit else cret tt.

(** Lines 96 to 102: the [catch] block. *)
Definition generate_catch (e : exn) : C unit :=
  effect_of (LogError "Error generating image:" e) ;;
  description <- message_or e "Rasm yaratishda xatolik yuz berdi" ;;
  effect_of (Toast "Xatolik" description true).

(** Lines 31 to 106. *)
Definition generateImage (w : Backend) (g : Generator) : C unit :=
  if negb (truthy (VStr (trim w (prompt g)))) then
    effect_of (Toast "Xatolik" (Shown (VStr "Iltimos, prompt kiriting")) true)
  else if negb (truthy (user g)) then
    effect_of (Toast "Xatolik" (Shown (VStr "Iltimos, tizimga kiring")) true)
  else
    effect_of (SetIsGenerating true) ;;
    try_catch_finally (generate_try w g) generate_catch
      (effect_of (SetIsGenerating false)).

(** [images.filter((img) => img.id !== id)] *)
Fixpoint without (id : string) (images : list value)
  : result (list value) :=
  match images with
  | [] => inr []
  | img :: rest =>
      let? img_id := dot "id" img in
      let? kept := without id rest in
      inr (if is_the_string id img_id then kept else img :: kept)
  end.

(** [deleteImage] of the gallery (lines 83 to 110), against the images the
    component holds. *)
Definition deleteImage (w : Backend) (images : list value) (id : string)
  : C unit :=
  effect_of (SetDeletingId (Some id)) ;;
  try_catch_finally
    (effect_of (Delete "generated_images" id) ;;
     error <- clift (delete w "generated_images" id) ;;
     if truthy error then cthrow (Thrown error)
     else
       kept <- clift (without id images) ;;
       effect_of (SetImages kept) ;;
       effect_of (Toast "Muvaffaqiyat!" (Shown (VStr "Rasm o'chirildi")) false))
    (fun e =>
       effect_of (LogError "Error deleting image:" e) ;;
       effect_of (Toast "Xatolik"
                    (Shown (VStr "Rasmni o'chirishda xatolik yuz berdi")) true))
    (effect_of (SetDeletingId None)).

(** The calls to the function, the rows inserted and the lists of images
    set, as recorded in a trace. *)
Fixpoint invocations (t : list effect) : list (string * value) :=
  match t with
  | [] => []
  | Invoke name options :: rest => (name, options) :: invocations rest
  | _ :: rest => invocations rest
  end.

Fixpoint insertions (t : list effect) : list (string * value) :=
  match t with
  | [] => []
  | Insert table row :: rest => (table, row) :: insertions rest
  | _ :: rest => insertions rest
  end.

Fixpoint image_lists (t : list effect) : list (list value) :=
  match t with
  | [] => []
  | SetImages images :: rest => images :: image_lists rest
  | _ :: rest => image_lists rest
  end.

(** The values given to [setIsGenerating], in order. *)
Fixpoint generating_flags (t : list effect) : list bool :=
  match t with
  | [] => []
  | SetIsGenerating b :: rest => b :: generating_flags rest
  | _ :: rest => generating_flags rest
  end.

(** The row [generateImage] inserts for the image at [imageUrl]. *)
Definition row_for (g : Generator) (imageUrl : value) : value :=
  VObj [ ("user_id", field "id" (user g));
         ("prompt", VStr (prompt g));
         ("image_url", imageUrl) ].

(** The request the handler receives when the body the client built
    arrives as it was sent. *)
Definition as_request (g : Generator) : Request :=
  {| method := "POST"; req_json := inr (request_body g) |}.

(** Sample backend and component states; the sample [trim] strips
    spaces. *)
Fixpoint strip_leading (s : string) : string :=
  match s with
  | String " " s' => strip_leading s'
  | _ => s
  end.

Fixpoint strip_trailing (s : string) : string :=
  match s with
  | EmptyString => EmptyString
  | String c s' =>
      match strip_trailing s' with
      | EmptyString => if Ascii.eqb c " " then EmptyString else String c EmptyString
      | kept => String c kept
      end
  end.

Definition backend_answering (data error saveError : value) : Backend :=
  {| trim := fun s => strip_trailing (strip_leading s);
     string_of_other := fun _ => "[object Object]";
     invoke := fun _ _ => inr (data, error);
     insert := fun _ _ => inr saveError;
     delete := fun _ _ => inr saveError |}.

Definition signed_in : value := VObj [("id", VStr "user-1")].

Definition typing (text : string) (who : value) (edit : value) : Generator :=
  {| prompt := text; user := who; editImage := edit;
     onImageGenerated := true; onClearEdit := true |}.

Definition generated (url : string) : value :=
  VObj [("imageUrl", VStr url); ("textContent", VStr ""); ("success", VBool true)].

Definition stored (id : string) : value :=
  VObj [("id", VStr id); ("prompt", VStr "p"); ("image_url", VStr "u")].

End Client.

Example decimal_503 : decimal 503 = "503".
Proof. reflexivity. Qed.

Example search_markdown :
  Regex.search Regex.data_uri "![x](data:image/png;base64,iVBOR/w0+KGgo=) done"
  = Some "data:image/png;base64,iVBOR/w0+KGgo=".
Proof. reflexivity. Qed.

Example search_parameters :
  Regex.search Regex.data_uri "data:image/png;charset=utf-8;base64,AAAA" = None.
Proof. reflexivity. Qed.

Example search_plain_text :
  Regex.search Regex.data_uri "Here is your picture of a red circle." = None.
Proof. reflexivity. Qed.

(** ** The monad *)

Lemma snd_bind {A B} (m : M A) (f : A -> M B) :
  snd (bind m f) = bind_result (snd m) (fun a => snd (f a)).
Proof.
  destruct m as [t [e | a]]; simpl; [reflexivity |].
  destruct (f a); reflexivity.
Qed.

Lemma fst_bind_ok {A B} (m : M A) (f : A -> M B) (a : A) :
  snd m = inr a -> fst (bind m f) = (fst m ++ fst (f a))%list.
Proof.
  destruct m as [t [e | a']]; simpl; intros H; [discriminate |].
  injection H as ->. destruct (f a); reflexivity.
Qed.

Lemma fst_bind_fail {A B} (m : M A) (f : A -> M B) (e : exn) :
  snd m = inl e -> fst (bind m f) = fst m.
Proof.
  destruct m as [t [e' | a']]; simpl; intros H; [reflexivity | discriminate].
Qed.

Lemma bind_lift {A B} (r : result A) (f : A -> M B) :
  bind (lift r) f = match r with inl e => ([], inl e) | inr a => f a end.
Proof.
  destruct r as [e | a]; simpl; [reflexivity |].
  destruct (f a); reflexivity.
Qed.

(** ** Optional chaining and strict reads *)

Lemma truthy_not_nullish v : truthy v = true -> nullish v = false.
Proof. destruct v; simpl; congruence. Qed.

Lemma opt_not_nullish name v : nullish (opt name v) = false -> nullish v = false.
Proof. unfold opt. destruct (nullish v); simpl; congruence. Qed.

Lemma opt0_not_nullish v : nullish (opt0 v) = false -> nullish v = false.
Proof. unfold opt0. destruct (nullish v); simpl; congruence. Qed.

Lemma dot_opt name v : nullish v = false -> dot name v = inr (opt name v).
Proof. unfold dot, opt. intros ->. reflexivity. Qed.

Lemma dot0_opt0 v : nullish v = false -> dot0 v = inr (opt0 v).
Proof. unfold dot0, opt0. intros ->. reflexivity. Qed.

Lemma message_strict_of data m :
  message_of data = inr m -> nullish m = false -> message_strict data = inr m.
Proof.
  unfold message_of, message_strict.
  destruct (dot "choices" data) as [e | choices]; simpl; [discriminate |].
  intros H Hm. injection H as <-.
  pose proof (opt_not_nullish _ _ Hm) as H0.
  pose proof (opt0_not_nullish _ H0) as Hc.
  rewrite (dot0_opt0 _ Hc). simpl. apply dot_opt, H0.
Qed.

Lemma images_url_strict_of data u :
  images_url data = inr u -> truthy u = true ->
  FourPath.images_url_strict data = inr u.
Proof.
  unfold images_url, FourPath.images_url_strict.
  destruct (message_of data) as [e | m] eqn:Hm; simpl; [discriminate |].
  intros H Hu. injection H as <-.
  pose proof (truthy_not_nullish _ Hu) as H1.
  pose proof (opt_not_nullish _ _ H1) as H2.
  pose proof (opt_not_nullish _ _ H2) as H3.
  pose proof (opt0_not_nullish _ H3) as H4.
  pose proof (opt_not_nullish _ _ H4) as H5.
  rewrite (message_strict_of _ _ Hm H5). simpl.
  rewrite (dot_opt _ _ H5). simpl.
  rewrite (dot0_opt0 _ H4). simpl.
  rewrite (dot_opt _ _ H3). simpl.
  apply dot_opt, H2.
Qed.

Lemma direct_url_strict_of data m :
  message_of data = inr m -> truthy (opt "url" (opt "image_url" m)) = true ->
  FourPath.direct_url_strict data = inr (opt "url" (opt "image_url" m)).
Proof.
  unfold FourPath.direct_url_strict. intros Hm Hu.
  pose proof (truthy_not_nullish _ Hu) as H1.
  pose proof (opt_not_nullish _ _ H1) as H2.
  pose proof (opt_not_nullish _ _ H2) as H3.
  rewrite (message_strict_of _ _ Hm H3). simpl.
  rewrite (dot_opt _ _ H3). simpl.
  apply dot_opt, H2.
Qed.

Lemma content_strict_of data c :
  content_of data = inr c -> nullish c = false ->
  FourPath.content_strict data = inr c.
Proof.
  unfold content_of, FourPath.content_strict.
  destruct (message_of data) as [e | m] eqn:Hm; simpl; [discriminate |].
  intros H Hc. injection H as <-.
  pose proof (opt_not_nullish _ _ Hc) as H1.
  rewrite (message_strict_of _ _ Hm H1). simpl.
  apply dot_opt, H1.
Qed.

(** ** The matcher *)

Lemma search_eq p s :
  Regex.search p s =
  match Regex.match_here p s with
  | Some m => Some m
  | None =>
      match s with
      | String _ s' => Regex.search p s'
      | EmptyString => None
      end
  end.
Proof. destruct s; reflexivity. Qed.

Lemma more_is_prefix cls k :
  (forall s m, k s = Some m -> exists r, s = m ++ r) ->
  forall s m, Regex.more cls k s = Some m -> exists r, s = m ++ r.
Proof.
  intros Hk. induction s as [| c s IH]; simpl; intros m H.
  - apply Hk, H.
  - destruct (cls c).
    + destruct (Regex.more cls k s) as [m' |] eqn:Hm.
      * injection H as <-. destruct (IH _ eq_refl) as [r ->].
        exists r. reflexivity.
      * apply Hk, H.
    + apply Hk, H.
Qed.

Lemma match_here_is_prefix p :
  forall s m, Regex.match_here p s = Some m -> exists r, s = m ++ r.
Proof.
  induction p as [| [cls | cls] p IH]; simpl; intros s m H.
  - injection H as <-. exists s. reflexivity.
  - destruct s as [| c s]; [discriminate |].
    destruct (cls c); [| discriminate].
    destruct (Regex.match_here p s) as [m' |] eqn:Hm; [| discriminate].
    injection H as <-. destruct (IH _ _ Hm) as [r ->].
    exists r. reflexivity.
  - destruct s as [| c s]; [discriminate |].
    destruct (cls c); [| discriminate].
    destruct (Regex.more cls (Regex.match_here p) s) as [m' |] eqn:Hm;
      [| discriminate].
    injection H as <-.
    destruct (more_is_prefix cls _ IH _ _ Hm) as [r ->].
    exists r. reflexivity.
Qed.

Lemma search_is_substring p :
  forall s m, Regex.search p s = Some m ->
  exists before after, s = before ++ m ++ after.
Proof.
  induction s as [| c s IH]; intros m; rewrite search_eq.
  - destruct (Regex.match_here p "") as [m' |] eqn:Hm; [| discriminate].
    intros H. injection H as <-.
    destruct (match_here_is_prefix _ _ _ Hm) as [r Hr].
    exists "", r. exact Hr.
  - destruct (Regex.match_here p (String c s)) as [m' |] eqn:Hm.
    + intros H. injection H as <-.
      destruct (match_here_is_prefix _ _ _ Hm) as [r Hr].
      exists "", r. exact Hr.
    + intros H. destruct (IH _ H) as [before [after ->]].
      exists (String c before), after. reflexivity.
Qed.

Lemma match_here_literal l p s :
  Regex.match_here (Regex.literal l ++ p)%list (l ++ s)
  = option_map (append l) (Regex.match_here p s).
Proof.
  induction l as [| c l IH]; simpl.
  - destruct (Regex.match_here p s); reflexivity.
  - rewrite Ascii.eqb_refl, IH.
    destruct (Regex.match_here p s); reflexivity.
Qed.

Lemma match_here_needs_literal l p :
  forall s m, Regex.match_here (Regex.literal l ++ p)%list s = Some m ->
  String.prefix l s = true.
Proof.
  induction l as [| c l IH]; simpl; intros s m H.
  - destruct s; reflexivity.
  - destruct s as [| c' s]; [discriminate |].
    destruct (Ascii.eqb c c') eqn:Hc; [| discriminate].
    apply Ascii.eqb_eq in Hc. subst c'.
    destruct (Regex.match_here (Regex.literal l ++ p)%list s) as [m' |] eqn:Hm;
      [| discriminate].
    cbn [String.prefix].
    destruct (ascii_dec c c) as [_ | n]; [| contradiction].
    eapply IH, Hm.
Qed.

Lemma more_greedy cls k body rest m :
  all_chars cls body = true -> starts_in cls rest = false ->
  k rest = Some m ->
  Regex.more cls k (body ++ rest) = Some (body ++ m).
Proof.
  intros Hb Hr Hk. induction body as [| c body IH]; simpl in *.
  - destruct rest as [| c r]; simpl in *; [exact Hk |].
    rewrite Hr. exact Hk.
  - apply andb_true_iff in Hb as [Hc Hb]. rewrite Hc, (IH Hb). reflexivity.
Qed.

Lemma append_empty (s : string) : s ++ "" = s.
Proof. induction s as [| c s IH]; simpl; [| rewrite IH]; reflexivity. Qed.

Lemma append_assoc (a b c : string) : (a ++ b) ++ c = a ++ b ++ c.
Proof. induction a as [| x a IH]; simpl; [| rewrite IH]; reflexivity. Qed.

Lemma length_append (a b : string) :
  String.length (a ++ b) = (String.length a + String.length b)%nat.
Proof. induction a as [| x a IH]; simpl; [| rewrite IH]; reflexivity. Qed.

(** A [data:image/<subtype>;base64,<payload>] text at the start of a string,
    not followed by another payload character, is matched whole. *)
Lemma match_here_data_uri subtype payload after :
  subtype <> "" -> all_chars Regex.not_semicolon subtype = true ->
  payload <> "" -> all_chars Regex.base64_char payload = true ->
  starts_in Regex.base64_char after = false ->
  Regex.match_here Regex.data_uri (data_uri_text subtype payload ++ after)
  = Some (data_uri_text subtype payload).
Proof.
  intros Hs Hsc Hp Hpc Ha.
  unfold Regex.data_uri, data_uri_text.
  rewrite !append_assoc, match_here_literal.
  destruct subtype as [| c subtype]; [contradiction |].
  simpl in Hsc. apply andb_true_iff in Hsc as [Hc Hsc].
  change (Regex.match_here ([Regex.Plus Regex.not_semicolon]
            ++ Regex.literal ";base64," ++ [Regex.Plus Regex.base64_char])%list
            (String c subtype ++ ";base64," ++ payload ++ after))
    with (if Regex.not_semicolon c
          then option_map (String c)
                 (Regex.more Regex.not_semicolon
                    (Regex.match_here
                       (Regex.literal ";base64," ++ [Regex.Plus Regex.base64_char])%list)
                    (subtype ++ ";base64," ++ payload ++ after))
          else None).
  rewrite Hc.
  rewrite (more_greedy _ _ subtype _ (";base64," ++ payload) Hsc).
  - reflexivity.
  - reflexivity.
  - rewrite match_here_literal.
    destruct payload as [| d payload]; [contradiction |].
    simpl in Hpc. apply andb_true_iff in Hpc as [Hd Hpc].
    change (Regex.match_here [Regex.Plus Regex.base64_char]
              (String d payload ++ after))
      with (if Regex.base64_char d
            then option_map (String d)
                   (Regex.more Regex.base64_char (Regex.match_here [])
                      (payload ++ after))
            else None).
    rewrite Hd.
    rewrite (more_greedy Regex.base64_char (Regex.match_here []) payload
               after "" Hpc Ha eq_refl).
    rewrite append_empty. reflexivity.
Qed.

(** The search returns the match at the first occurrence of the pattern's
    leading literal when there is a match there. *)
Lemma search_at_first_occurrence before s m :
  first_occurrence "data:image/" (before ++ s) = Some (String.length before) ->
  Regex.match_here Regex.data_uri s = Some m ->
  Regex.search Regex.data_uri (before ++ s) = Some m.
Proof.
  intros Hocc Hm. induction before as [| c before IH].
  - simpl. rewrite search_eq, Hm. reflexivity.
  - change (String c before ++ s) with (String c (before ++ s)) in *.
    rewrite search_eq.
    cbn [first_occurrence String.length] in Hocc.
    destruct (String.prefix "data:image/" (String c (before ++ s))) eqn:Hp;
      [discriminate |].
    destruct (Regex.match_here Regex.data_uri (String c (before ++ s)))
      as [m' |] eqn:Hm'.
    + apply (match_here_needs_literal "data:image/") in Hm'. congruence.
    + apply IH.
      destruct (first_occurrence "data:image/" (before ++ s)); simpl in Hocc;
        congruence.
Qed.

Lemma match_starts_with_literal l p :
  forall s m, Regex.match_here (Regex.literal l ++ p)%list s = Some m ->
  String.prefix l m = true.
Proof.
  induction l as [| c l IH]; simpl; intros s m H.
  - destruct m; reflexivity.
  - destruct s as [| c' s]; [discriminate |].
    destruct (Ascii.eqb c c') eqn:Hc; [| discriminate].
    apply Ascii.eqb_eq in Hc. subst c'.
    destruct (Regex.match_here (Regex.literal l ++ p)%list s) as [m' |] eqn:Hm;
      [| discriminate].
    injection H as <-. cbn [String.prefix].
    destruct (ascii_dec c c) as [_ | n]; [| contradiction].
    eapply IH, Hm.
Qed.

(** A match of the pattern is never empty. *)
Lemma search_data_uri_nonempty s m :
  Regex.search Regex.data_uri s = Some m -> m <> "".
Proof.
  induction s as [| c s IH]; rewrite search_eq.
  - simpl. discriminate.
  - destruct (Regex.match_here Regex.data_uri (String c s)) as [m' |] eqn:Hm.
    + intros H. injection H as <-.
      apply (match_starts_with_literal "data:image/") in Hm.
      intros ->. discriminate.
    + exact IH.
Qed.

(** ** The four paths against the four strategies *)

Lemma snd_lift {A} (r : result A) : snd (lift r) = r.
Proof. reflexivity. Qed.

Ltac run :=
  repeat (rewrite snd_bind || rewrite snd_lift); cbn [snd bind_result ret
    throw console_log console_error emit].

Lemma path1_snd data i :
  snd (FourPath.path1 data i)
  = let? v := Policy.strategy1 data in inr (if truthy v then v else i).
Proof.
  unfold FourPath.path1, Policy.strategy1. run.
  destruct (images_url data) as [e | v] eqn:Hv; cbn [bind_result]; [reflexivity |].
  destruct (truthy v) eqn:Ht; [| reflexivity].
  run. rewrite (images_url_strict_of _ _ Hv Ht). reflexivity.
Qed.

Lemma path2_snd data i :
  snd (FourPath.path2 data i)
  = if truthy i then inr i
    else let? v := Policy.strategy2 data in inr (if truthy v then v else i).
Proof.
  unfold FourPath.path2, Policy.strategy2.
  destruct (truthy i); cbn [negb]; [reflexivity |]. run.
  destruct (message_of data) as [e | m] eqn:Hm; cbn [bind_result]; [reflexivity |].
  destruct (truthy (opt "url" (opt "image_url" m))) eqn:Ht; [| reflexivity].
  run. rewrite (direct_url_strict_of _ _ Hm Ht). reflexivity.
Qed.

Lemma find_ext (p q : value -> result bool) items :
  (forall c, p c = q c) -> find p items = find q items.
Proof.
  intros H. induction items as [| c items IH]; simpl; [reflexivity |].
  rewrite H, IH. reflexivity.
Qed.

Lemma is_image_entry_tagged c : FourPath.is_image_entry c = Policy.tagged c.
Proof.
  unfold FourPath.is_image_entry, Policy.tagged.
  destruct (dot "type" c) as [e | type]; cbn [bind_result]; [reflexivity |].
  destruct (is_the_string "image_url" type); reflexivity.
Qed.

Lemma path3_snd data i :
  snd (FourPath.path3 data i)
  = if truthy i then inr i
    else let? v := Policy.strategy3 data in inr (if truthy v then v else i).
Proof.
  unfold FourPath.path3, Policy.strategy3.
  destruct (truthy i); cbn [negb]; [reflexivity |]. run.
  destruct (content_of data) as [e | c] eqn:Hc; cbn [bind_result]; [reflexivity |].
  destruct c as [| | b | n | s | items | fields]; cbn [is_array];
    try reflexivity.
  run. rewrite (content_strict_of _ _ Hc eq_refl). cbn [bind_result FourPath.find_in].
  rewrite (find_ext _ _ items is_image_entry_tagged).
  destruct (find Policy.tagged items) as [e | entry];
    cbn [bind_result]; [reflexivity |].
  rewrite bind_lift.
  destruct (truthy (opt "url" (opt "image_url" entry))) eqn:Ht.
  - run.
    pose proof (truthy_not_nullish _ Ht) as H1.
    pose proof (opt_not_nullish _ _ H1) as H2.
    pose proof (opt_not_nullish _ _ H2) as H3.
    rewrite (dot_opt _ _ H3). run.
    rewrite (dot_opt _ _ H2). run. rewrite Ht. reflexivity.
  - destruct (truthy (opt "url" entry)) eqn:Hu; [| reflexivity].
    run.
    pose proof (truthy_not_nullish _ Hu) as H1.
    pose proof (opt_not_nullish _ _ H1) as H2.
    rewrite (dot_opt _ _ H2). reflexivity.
Qed.

Lemma path4_snd data i :
  snd (FourPath.path4 data i)
  = if truthy i then inr i
    else let? v := Policy.strategy4 data in inr (if truthy v then v else i).
Proof.
  unfold FourPath.path4, Policy.strategy4.
  destruct (truthy i); cbn [negb]; [reflexivity |]. run.
  destruct (content_of data) as [e | c] eqn:Hc; cbn [bind_result]; [reflexivity |].
  destruct c as [| | b | n | s | items | fields]; cbn [is_string];
    try reflexivity.
  run. rewrite (content_strict_of _ _ Hc eq_refl).
  cbn [bind_result FourPath.match_in].
  destruct (Regex.search Regex.data_uri s) as [m |] eqn:Hs; [| reflexivity].
  run. pose proof (search_data_uri_nonempty _ _ Hs) as Hne.
  cbn [truthy]. destruct (String.eqb_spec m ""); [contradiction | reflexivity].
Qed.

(** The variable [imageUrl] after the four paths is the first non-empty
    reference of the ordered strategies, or still [null]. *)
Lemma find_image_policy data :
  snd (FourPath.find_image data)
  = let? found := Policy.first_nonempty Policy.strategies data in
    inr (match found with Some v => v | None => VNull end).
Proof.
  unfold FourPath.find_image, Policy.strategies.
  cbn [Policy.first_nonempty].
  rewrite snd_bind, path1_snd.
  destruct (Policy.strategy1 data) as [e | v1]; cbn [bind_result]; [reflexivity |].
  rewrite snd_bind, path2_snd.
  destruct (truthy v1) eqn:H1.
  { rewrite H1. cbn [bind_result].
    rewrite snd_bind, path3_snd, H1. cbn [bind_result].
    rewrite path4_snd, H1. reflexivity. }
  cbn [truthy].
  destruct (Policy.strategy2 data) as [e | v2]; cbn [bind_result]; [reflexivity |].
  rewrite snd_bind, path3_snd.
  destruct (truthy v2) eqn:H2.
  { rewrite H2. cbn [bind_result]. rewrite path4_snd, H2. reflexivity. }
  cbn [truthy].
  destruct (Policy.strategy3 data) as [e | v3]; cbn [bind_result]; [reflexivity |].
  rewrite path4_snd.
  destruct (truthy v3) eqn:H3; [rewrite H3; reflexivity |].
  cbn [truthy].
  destruct (Policy.strategy4 data) as [e | v4]; cbn [bind_result]; [reflexivity |].
  destruct (truthy v4); reflexivity.
Qed.

(** ** From the provider data to the response *)

Lemma message_of_ok data : nullish data = false -> exists m, message_of data = inr m.
Proof.
  intros H. unfold message_of. rewrite (dot_opt _ _ H). simpl. eauto.
Qed.

Lemma message_of_inv data m : message_of data = inr m -> nullish data = false.
Proof.
  unfold message_of, dot. destruct (nullish data); simpl; congruence.
Qed.

Lemma first_nonempty_inv data found :
  Policy.first_nonempty Policy.strategies data = inr found ->
  nullish data = false.
Proof.
  unfold Policy.strategies, Policy.strategy1, images_url.
  cbn [Policy.first_nonempty].
  destruct (message_of data) as [e | m] eqn:Hm; cbn [bind_result];
    [discriminate |].
  intros _. eapply message_of_inv, Hm.
Qed.

Lemma text_content_snd data :
  snd (FourPath.text_content data)
  = let? content := content_of data in inr (string_content content).
Proof.
  unfold FourPath.text_content. run.
  destruct (content_of data) as [e | c] eqn:Hc; cbn [bind_result]; [reflexivity |].
  destruct c; cbn [is_string string_content]; try reflexivity.
  apply (content_strict_of _ _ Hc eq_refl).
Qed.

Lemma report_no_image_snd data :
  nullish data = false ->
  snd (FourPath.report_no_image data) = inl (Error FourPath.no_image_message).
Proof.
  intros Hd. unfold FourPath.report_no_image. run.
  rewrite (dot_opt _ _ Hd). cbn [bind_result]. run.
  match goal with
  | |- bind_result ?X _ = _ => assert (Hchoice : X = inr tt)
  end.
  { destruct (truthy (opt0 (opt "choices" data))) eqn:Ht; [| reflexivity].
    run. pose proof (truthy_not_nullish _ Ht) as H1.
    rewrite (dot0_opt0 _ (opt0_not_nullish _ H1)). reflexivity. }
  rewrite Hchoice. cbn [bind_result]. run.
  destruct (message_of data) as [e | m] eqn:Hm; cbn [bind_result].
  { destruct (message_of_ok _ Hd) as [m Hm']. congruence. }
  run.
  destruct (truthy m) eqn:Ht.
  - run. rewrite (message_strict_of _ _ Hm (truthy_not_nullish _ Ht)).
    reflexivity.
  - reflexivity.
Qed.

(** The outcome of the four-path [try] block on provider data [data]. *)
Lemma respond_snd data :
  snd (FourPath.respond data)
  = let? found := Policy.first_nonempty Policy.strategies data in
    let? content := content_of data in
    match found with
    | Some v => if truthy v then inr (success_response v (string_content content))
                else inl (Error FourPath.no_image_message)
    | None => inl (Error FourPath.no_image_message)
    end.
Proof.
  unfold FourPath.respond. run. rewrite find_image_policy.
  destruct (Policy.first_nonempty Policy.strategies data) as [e | found] eqn:Hf;
    cbn [bind_result]; [reflexivity |].
  pose proof (first_nonempty_inv _ _ Hf) as Hd.
  run. rewrite text_content_snd.
  destruct (content_of data) as [e | c]; cbn [bind_result]; [reflexivity |].
  destruct found as [v |].
  - destruct (truthy v); cbn [negb]; [reflexivity |].
    apply report_no_image_snd, Hd.
  - cbn [truthy negb]. apply report_no_image_snd, Hd.
Qed.

Lemma first_nonempty_truthy ss data v :
  Policy.first_nonempty ss data = inr (Some v) -> truthy v = true.
Proof.
  induction ss as [| s ss IH]; cbn [Policy.first_nonempty]; [discriminate |].
  destruct (s data) as [e | w]; cbn [bind_result]; [discriminate |].
  destruct (truthy w) eqn:Hw; [| exact IH].
  intros H. injection H as <-. exact Hw.
Qed.

Lemma content_of_ok data : nullish data = false -> exists c, content_of data = inr c.
Proof.
  intros H. unfold content_of. destruct (message_of_ok _ H) as [m ->].
  simpl. eauto.
Qed.

(** ** From the request to the response *)

Lemma with_catch_snd req (body : M Response) :
  (method req =? "OPTIONS")%string = false ->
  snd (with_catch req body) = settle (snd body).
Proof.
  unfold with_catch. intros ->. destruct body as [t [e | r]]; reflexivity.
Qed.

Lemma with_catch_fst_fetches req (body : M Response) :
  sent_messages (fst (with_catch req body))
  = if (method req =? "OPTIONS")%string then [] else sent_messages (fst body).
Proof.
  unfold with_catch. destruct (method req =? "OPTIONS")%string; [reflexivity |].
  destruct body as [t [e | r]]; cbn [fst]; [| reflexivity].
  induction t as [| [args | args | url init] t IH]; simpl;
    [reflexivity | exact IH | exact IH | rewrite IH; reflexivity].
Qed.

(** A forwarded request runs the shared part up to the one [fetch]. *)
Lemma call_gateway_forwarded env req :
  forwards env req = true ->
  call_gateway env req
  = (console_log [LStr "Generating image with prompt:"; LValue (prompt_of req)] ;;
     console_log [LStr "Edit mode:"; LBool (truthy (edit_image_of req))] ;;
     response <- do_fetch env gateway_url (forwarded_init env req) ;;
     check_status response).
Proof.
  unfold forwards, has_body, forwarded_init, prompt_of, edit_image_of,
    call_gateway.
  destruct (method req =? "OPTIONS")%string; [discriminate |].
  destruct (req_json req) as [e | parsed]; [discriminate |].
  rewrite bind_lift. unfold dot, opt.
  destruct (nullish parsed); [discriminate |].
  cbn [negb andb]. rewrite !bind_lift.
  destruct (configured (LOVABLE_API_KEY env)); [| discriminate].
  destruct (truthy (field "prompt" parsed)); [| discriminate].
  destruct (is_string (field "prompt" parsed)); [| discriminate].
  reflexivity.
Qed.

(** Any other request ends the shared part with an error and no effect. *)
Lemma call_gateway_refused env req :
  forwards env req = false -> (method req =? "OPTIONS")%string = false ->
  exists e, call_gateway env req = ([], inl e).
Proof.
  unfold forwards, has_body, prompt_of, call_gateway. intros H Hm.
  rewrite Hm in H.
  destruct (req_json req) as [e | parsed]; [eexists; reflexivity |].
  rewrite bind_lift. unfold dot, opt in *.
  destruct (nullish parsed); [eexists; reflexivity |].
  cbn [negb andb] in H. rewrite !bind_lift.
  destruct (configured (LOVABLE_API_KEY env)); [| eexists; reflexivity].
  destruct (truthy (field "prompt" parsed)); [| eexists; reflexivity].
  destruct (is_string (field "prompt" parsed)); [discriminate |].
  eexists; reflexivity.
Qed.

Lemma provider_response_forwards env req r :
  provider_response env req = Some r ->
  forwards env req = true
  /\ fetch env gateway_url (forwarded_init env req) = inr r.
Proof.
  unfold provider_response. destruct (forwards env req); [| discriminate].
  destruct (fetch env gateway_url (forwarded_init env req)); [discriminate |].
  intros H. injection H as ->. split; reflexivity.
Qed.

Lemma forwards_method env req :
  forwards env req = true -> (method req =? "OPTIONS")%string = false.
Proof.
  unfold forwards. destruct (method req =? "OPTIONS")%string;
    [discriminate | reflexivity].
Qed.

Lemma call_gateway_answered env req r :
  provider_response env req = Some r ->
  snd (call_gateway env req) = snd (check_status r).
Proof.
  intros H. destruct (provider_response_forwards _ _ _ H) as [Hf Hr].
  rewrite (call_gateway_forwarded _ _ Hf). run.
  unfold do_fetch. run. rewrite Hr. reflexivity.
Qed.

Lemma check_status_ok r data :
  ok r = true -> json_body r = inr data ->
  snd (check_status r) = inr (inr data).
Proof.
  intros Hok Hd. unfold check_status. rewrite Hok. cbn [negb]. run.
  rewrite Hd. reflexivity.
Qed.

Lemma four_path_answered env req r data :
  provider_response env req = Some r ->
  ok r = true -> json_body r = inr data ->
  snd (FourPath.serve env req) = settle (snd (FourPath.respond data)).
Proof.
  intros H Hok Hd. unfold FourPath.serve, FourPath.try_body.
  destruct (provider_response_forwards _ _ _ H) as [Hf _].
  rewrite (with_catch_snd _ _ (forwards_method _ _ Hf)), snd_bind.
  rewrite (call_gateway_answered _ _ _ H), (check_status_ok _ _ Hok Hd).
  reflexivity.
Qed.

Lemma index_ts_answered env req r data :
  provider_response env req = Some r ->
  ok r = true -> json_body r = inr data ->
  snd (IndexTs.serve env req) = settle (snd (IndexTs.respond data)).
Proof.
  intros H Hok Hd. unfold IndexTs.serve, IndexTs.try_body.
  destruct (provider_response_forwards _ _ _ H) as [Hf _].
  rewrite (with_catch_snd _ _ (forwards_method _ _ Hf)), snd_bind.
  rewrite (call_gateway_answered _ _ _ H), (check_status_ok _ _ Hok Hd).
  reflexivity.
Qed.

(** ** The outbound calls of a run *)

Lemma sent_messages_app t t' :
  sent_messages (t ++ t') = (sent_messages t ++ sent_messages t')%list.
Proof.
  induction t as [| [args | args | url init] t IH]; simpl;
    [reflexivity | exact IH | exact IH | rewrite IH; reflexivity].
Qed.

Lemma sent_messages_bind {A B} (m : M A) (f : A -> M B) :
  sent_messages (fst (bind m f))
  = (sent_messages (fst m)
     ++ match snd m with
        | inr a => sent_messages (fst (f a))
        | inl _ => []
        end)%list.
Proof.
  destruct m as [t [e | a]]; simpl.
  - rewrite app_nil_r. reflexivity.
  - destruct (f a) as [t' r']. simpl. apply sent_messages_app.
Qed.

Lemma quiet_bind {A B} (m : M A) (f : A -> M B) :
  quiet m -> (forall a, quiet (f a)) -> quiet (bind m f).
Proof.
  unfold quiet. intros Hm Hf. rewrite sent_messages_bind, Hm.
  destruct (snd m); [reflexivity | apply Hf].
Qed.

Lemma quiet_ret {A} (a : A) : quiet (ret a).
Proof. reflexivity. Qed.

Lemma quiet_throw {A} (e : exn) : quiet (@throw A e).
Proof. reflexivity. Qed.

Lemma quiet_lift {A} (r : result A) : quiet (lift r).
Proof. reflexivity. Qed.

Lemma quiet_console_log args : quiet (console_log args).
Proof. reflexivity. Qed.

Lemma quiet_console_error args : quiet (console_error args).
Proof. reflexivity. Qed.

Ltac quiet_steps :=
  repeat first
    [ apply quiet_ret | apply quiet_throw | apply quiet_lift
    | apply quiet_console_log | apply quiet_console_error
    | apply quiet_bind; [| intros ?]
    | match goal with
      | |- quiet (if ?b then _ else _) => destruct b
      | |- quiet (match ?x with _ => _ end) => destruct x
      end ].

Lemma quiet_check_status r : quiet (check_status r).
Proof. unfold check_status. quiet_steps. Qed.

Lemma quiet_four_path_respond data : quiet (FourPath.respond data).
Proof.
  unfold FourPath.respond, FourPath.find_image, FourPath.path1, FourPath.path2,
    FourPath.path3, FourPath.path4, FourPath.text_content,
    FourPath.report_no_image.
  quiet_steps.
Qed.

Lemma quiet_index_ts_respond data : quiet (IndexTs.respond data).
Proof. unfold IndexTs.respond. quiet_steps. Qed.

Lemma call_gateway_sent env req :
  (method req =? "OPTIONS")%string = false ->
  sent_messages (fst (call_gateway env req))
  = if forwards env req
    then [build_messages (prompt_of req) (edit_image_of req)]
    else [].
Proof.
  intros Hm. destruct (forwards env req) eqn:Hf.
  - rewrite (call_gateway_forwarded _ _ Hf).
    rewrite !sent_messages_bind. cbn [console_log emit fst snd sent_messages app].
    unfold do_fetch. rewrite sent_messages_bind.
    cbn [emit fst snd sent_messages app lift].
    destruct (fetch env gateway_url (forwarded_init env req)) as [e | r];
      [reflexivity |].
    cbn [bind emit lift snd]. rewrite quiet_check_status. reflexivity.
  - destruct (call_gateway_refused _ _ Hf Hm) as [e ->]. reflexivity.
Qed.

(** The messages of the outbound calls of a whole run: one call for a
    forwarded request, none otherwise. *)
Lemma four_path_sent env req :
  sent_messages (fst (FourPath.serve env req))
  = if forwards env req
    then [build_messages (prompt_of req) (edit_image_of req)]
    else [].
Proof.
  unfold FourPath.serve. rewrite with_catch_fst_fetches.
  destruct (method req =? "OPTIONS")%string eqn:Hm.
  { unfold forwards. rewrite Hm. reflexivity. }
  unfold FourPath.try_body. rewrite sent_messages_bind, (call_gateway_sent _ _ Hm).
  destruct (snd (call_gateway env req)) as [e | [early | data]];
    rewrite ?quiet_ret, ?quiet_four_path_respond, app_nil_r; reflexivity.
Qed.

Lemma index_ts_sent env req :
  sent_messages (fst (IndexTs.serve env req))
  = if forwards env req
    then [build_messages (prompt_of req) (edit_image_of req)]
    else [].
Proof.
  unfold IndexTs.serve. rewrite with_catch_fst_fetches.
  destruct (method req =? "OPTIONS")%string eqn:Hm.
  { unfold forwards. rewrite Hm. reflexivity. }
  unfold IndexTs.try_body. rewrite sent_messages_bind, (call_gateway_sent _ _ Hm).
  destruct (snd (call_gateway env req)) as [e | [early | data]];
    rewrite ?quiet_ret, ?quiet_index_ts_respond, app_nil_r; reflexivity.
Qed.

(** ** The statements *)

Lemma index_ts_respond_snd data :
  snd (IndexTs.respond data)
  = let? imageUrl := images_url data in
    let? content := content_of data in
    if truthy imageUrl
    then inr (success_response imageUrl (IndexTs.or_empty content))
    else inl (Error IndexTs.no_image_message).
Proof.
  unfold IndexTs.respond. run.
  destruct (images_url data) as [e | u]; cbn [bind_result]; [reflexivity |].
  run. destruct (content_of data) as [e | c]; cbn [bind_result]; [reflexivity |].
  destruct (truthy u); reflexivity.
Qed.

(** ** The reads of the paths against the strategies of the specification *)

Lemma message_of_spec data :
  nullish data = false -> message_of data = inr (Spec.message data).
Proof.
  intros H. unfold message_of, Spec.message. rewrite (dot_opt _ _ H).
  reflexivity.
Qed.

Lemma content_of_spec data :
  nullish data = false -> content_of data = inr (Spec.content data).
Proof.
  intros H. unfold content_of, Spec.content. rewrite (message_of_spec _ H).
  reflexivity.
Qed.

Lemma content_value_spec data :
  nullish data = false -> content_value data = Spec.content data.
Proof.
  intros H. unfold content_value. rewrite (content_of_spec _ H). reflexivity.
Qed.

Lemma spec_message_not_nullish data :
  nullish (Spec.message data) = false -> nullish data = false.
Proof.
  unfold Spec.message. intros H.
  apply opt_not_nullish in H. apply opt0_not_nullish in H.
  apply opt_not_nullish in H. exact H.
Qed.

Lemma spec_content_not_nullish data :
  nullish (Spec.content data) = false -> nullish data = false.
Proof.
  unfold Spec.content. intros H.
  apply opt_not_nullish in H. apply spec_message_not_nullish, H.
Qed.

Lemma strategy1_spec data :
  nullish data = false -> Policy.strategy1 data = inr (Spec.strategy1 data).
Proof.
  intros H. unfold Policy.strategy1, images_url, Spec.strategy1.
  rewrite (message_of_spec _ H). reflexivity.
Qed.

Lemma strategy2_spec data :
  nullish data = false -> Policy.strategy2 data = inr (Spec.strategy2 data).
Proof.
  intros H. unfold Policy.strategy2, Spec.strategy2.
  rewrite (message_of_spec _ H). reflexivity.
Qed.

Lemma strategy4_spec data :
  nullish data = false -> Policy.strategy4 data = inr (Spec.strategy4 data).
Proof.
  intros H. unfold Policy.strategy4, Spec.strategy4.
  rewrite (content_of_spec _ H). cbn [bind_result].
  destruct (Spec.content data); reflexivity.
Qed.

Lemma tagged_spec c :
  nullish c = false -> Policy.tagged c = inr (Spec.tagged_as_image c).
Proof.
  intros H. unfold Policy.tagged, Spec.tagged_as_image.
  rewrite (dot_opt _ _ H). cbn [bind_result].
  destruct (opt "type" c); reflexivity.
Qed.

Lemma find_tagged_spec items :
  forallb (fun entry => negb (nullish entry)) items = true ->
  find Policy.tagged items
  = inr (match List.find Spec.tagged_as_image items with
         | Some entry => entry
         | None => VUndefined
         end).
Proof.
  induction items as [| c items IH]; simpl; [reflexivity |].
  intros H. apply andb_true_iff in H as [Hc H].
  apply negb_true_iff in Hc. rewrite (tagged_spec _ Hc).
  destruct (Spec.tagged_as_image c); [reflexivity | apply IH, H].
Qed.

Lemma readable_not_nullish data : readable data = true -> nullish data = false.
Proof.
  unfold readable. intros H. apply andb_true_iff in H as [H _].
  apply negb_true_iff, H.
Qed.

Lemma strategy3_spec data :
  readable data = true -> Policy.strategy3 data = inr (Spec.strategy3 data).
Proof.
  intros H. pose proof (readable_not_nullish _ H) as Hd.
  unfold readable in H. apply andb_true_iff in H as [_ H].
  unfold Policy.strategy3, Spec.strategy3.
  rewrite (content_of_spec _ Hd). cbn [bind_result].
  destruct (Spec.content data); try reflexivity.
  rewrite (find_tagged_spec _ H). cbn [bind_result].
  destruct (List.find Spec.tagged_as_image items); reflexivity.
Qed.

Lemma first_nonempty_spec ps ss data :
  Forall2 (fun p s => p data = inr (s data)) ps ss ->
  Policy.first_nonempty ps data = inr (Spec.first_nonempty ss data).
Proof.
  induction 1 as [| p s ps ss Hp _ IH]; [reflexivity |].
  cbn [Policy.first_nonempty Spec.first_nonempty].
  rewrite Hp. cbn [bind_result].
  destruct (truthy (s data)); [reflexivity | exact IH].
Qed.

Lemma policy_spec data :
  readable data = true ->
  Policy.first_nonempty Policy.strategies data
  = inr (Spec.first_nonempty Spec.strategies data).
Proof.
  intros H. pose proof (readable_not_nullish _ H) as Hd.
  apply first_nonempty_spec.
  repeat constructor;
    [ apply strategy1_spec, Hd | apply strategy2_spec, Hd
    | apply strategy3_spec, H | apply strategy4_spec, Hd ].
Qed.

Lemma policy_spec_123 data :
  readable data = true ->
  Policy.first_nonempty
    [Policy.strategy1; Policy.strategy2; Policy.strategy3] data
  = inr (Spec.first_nonempty
           [Spec.strategy1; Spec.strategy2; Spec.strategy3] data).
Proof.
  intros H. pose proof (readable_not_nullish _ H) as Hd.
  apply first_nonempty_spec.
  repeat constructor;
    [ apply strategy1_spec, Hd | apply strategy2_spec, Hd
    | apply strategy3_spec, H ].
Qed.

Lemma readable_string_content data s :
  Spec.content data = VStr s -> readable data = true.
Proof.
  intros H. unfold readable. rewrite H.
  rewrite (spec_content_not_nullish data); [reflexivity |].
  rewrite H. reflexivity.
Qed.

(** The response of the handler of [index.ts] to a 2xx answer. *)
Lemma index_ts_returns env req r data :
  provider_response env req = Some r ->
  ok r = true ->
  json_body r = inr data ->
  nullish data = false ->
  snd (IndexTs.serve env req)
  = if truthy (Spec.strategy1 data)
    then {| res_status := 200;
            res_headers := jsonHeaders;
            res_body :=
              Success (Spec.strategy1 data)
                (if truthy (Spec.content data)
                 then Spec.content data else VStr "")
                true |}
    else {| res_status := 500;
            res_headers := jsonHeaders;
            res_body := Failure (Str "No image was generated") false |}.
Proof.
  intros H Hok Hd Hn.
  rewrite (index_ts_answered _ _ _ _ H Hok Hd), index_ts_respond_snd.
  pose proof (strategy1_spec _ Hn) as H1. unfold Policy.strategy1 in H1.
  rewrite H1, (content_of_spec _ Hn). cbn [bind_result].
  destruct (truthy (Spec.strategy1 data)); reflexivity.
Qed.

(** The response to a 2xx answer on whose data the policy yields [v]. *)
Lemma four_path_returns_policy env req r data v :
  provider_response env req = Some r ->
  ok r = true ->
  json_body r = inr data ->
  Policy.first_nonempty Policy.strategies data = inr (Some v) ->
  snd (FourPath.serve env req)
  = success_response v (string_content (content_value data)).
Proof.
  intros H Hok Hd Hf.
  rewrite (four_path_answered _ _ _ _ H Hok Hd), respond_snd, Hf.
  cbn [bind_result]. unfold content_value.
  destruct (content_of_ok _ (first_nonempty_inv _ _ Hf)) as [c ->].
  cbn [bind_result]. rewrite (first_nonempty_truthy _ _ _ Hf). reflexivity.
Qed.

(** The response to a 2xx answer on whose data the policy yields nothing. *)
Lemma four_path_returns_no_image env req r data :
  provider_response env req = Some r ->
  ok r = true ->
  json_body r = inr data ->
  Policy.first_nonempty Policy.strategies data = inr None ->
  snd (FourPath.serve env req)
  = catch_response (Error FourPath.no_image_message).
Proof.
  intros H Hok Hd Hf.
  rewrite (four_path_answered _ _ _ _ H Hok Hd), respond_snd, Hf.
  cbn [bind_result].
  destruct (content_of_ok _ (first_nonempty_inv _ _ Hf)) as [c ->].
  reflexivity.
Qed.

(** When strategies 1 to 3 yield nothing the policy is strategy 4. *)
Lemma policy_falls_to_strategy4 data :
  Policy.first_nonempty
    [Policy.strategy1; Policy.strategy2; Policy.strategy3] data = inr None ->
  Policy.first_nonempty Policy.strategies data
  = (let? v := Policy.strategy4 data in
     inr (if truthy v then Some v else None)).
Proof.
  unfold Policy.strategies. cbn [Policy.first_nonempty].
  destruct (Policy.strategy1 data) as [e | v1]; cbn [bind_result]; [discriminate |].
  destruct (truthy v1); [discriminate |].
  destruct (Policy.strategy2 data) as [e | v2]; cbn [bind_result]; [discriminate |].
  destruct (truthy v2); [discriminate |].
  destruct (Policy.strategy3 data) as [e | v3]; cbn [bind_result]; [discriminate |].
  destruct (truthy v3); [discriminate |].
  intros _. destruct (Policy.strategy4 data) as [e | v4]; cbn [bind_result];
    [reflexivity |].
  destruct (truthy v4); reflexivity.
Qed.

(** C1, as amended.  On the data of a 2xx answer that is neither [null]
    nor [undefined] and whose content list holds no such entry: the
    four-path handler tries
    the four strategies in their fixed order and answers with the first
    non-empty reference as [imageUrl] (status 200, [success: true]); the
    handler of [index.ts] tries the image list only, answers with its
    reference when that is non-empty and with its no-image failure
    otherwise.  In both, a populated image list wins over a data URI in
    the content string. *)
Theorem C1_first_nonempty_reference_in_fixed_order env req r data :
  provider_response env req = Some r ->
  ok r = true ->
  json_body r = inr data ->
  readable data = true ->
  snd (FourPath.find_image data)
  = inr (match Spec.first_nonempty Spec.strategies data with
         | Some v => v
         | None => VNull
         end)
  /\ (forall v,
        Spec.first_nonempty Spec.strategies data = Some v ->
        snd (FourPath.serve env req)
        = {| res_status := 200;
             res_headers := jsonHeaders;
             res_body := Success v (string_content (Spec.content data)) true |})
  /\ snd (IndexTs.serve env req)
     = (if truthy (Spec.strategy1 data)
        then {| res_status := 200;
                res_headers := jsonHeaders;
                res_body :=
                  Success (Spec.strategy1 data)
                    (if truthy (Spec.content data)
                     then Spec.content data else VStr "")
                    true |}
        else {| res_status := 500;
                res_headers := jsonHeaders;
                res_body := Failure (Str "No image was generated") false |})
  /\ (forall s m,
        truthy (Spec.strategy1 data) = true ->
        Spec.content data = VStr s ->
        Regex.search Regex.data_uri s = Some m ->
        res_body (snd (FourPath.serve env req))
        = Success (Spec.strategy1 data) (VStr s) true
        /\ res_body (snd (IndexTs.serve env req))
           = Success (Spec.strategy1 data) (VStr s) true).
Proof.
  intros H Hok Hd Hr. pose proof (readable_not_nullish _ Hr) as Hn.
  assert (Hfour : forall v,
             Spec.first_nonempty Spec.strategies data = Some v ->
             snd (FourPath.serve env req)
             = {| res_status := 200;
                  res_headers := jsonHeaders;
                  res_body :=
                    Success v (string_content (Spec.content data)) true |}).
  { intros v Hv. rewrite <- (content_value_spec _ Hn).
    apply (four_path_returns_policy _ _ _ _ _ H Hok Hd).
    rewrite (policy_spec _ Hr), Hv. reflexivity. }
  split.
  { rewrite find_image_policy, (policy_spec _ Hr). reflexivity. }
  split; [exact Hfour |].
  split; [apply (index_ts_returns _ _ _ _ H Hok Hd Hn) |].
  intros s m Hu Hc Hm. split.
  - rewrite (Hfour (Spec.strategy1 data)).
    + cbn [res_body]. rewrite Hc. reflexivity.
    + unfold Spec.strategies. cbn [Spec.first_nonempty]. rewrite Hu.
      reflexivity.
  - rewrite (index_ts_returns _ _ _ _ H Hok Hd Hn), Hu, Hc. cbn [res_body].
    destruct (truthy (VStr s)) eqn:Hs; [reflexivity |].
    destruct s; [reflexivity | discriminate].
Qed.

Lemma C1_witness :
  res_body (snd (FourPath.serve (env_answering 200 "" data_list_and_uri)
                   a_red_circle))
  = Success (VStr "https://x/img.png")
      (VStr "Here it is: data:image/png;base64,AAAA.") true
  /\ res_body (snd (IndexTs.serve (env_answering 200 "" data_list_and_uri)
                      a_red_circle))
     = Success (VStr "https://x/img.png")
         (VStr "Here it is: data:image/png;base64,AAAA.") true.
Proof.
  exact (proj2 (proj2 (proj2
           (C1_first_nonempty_reference_in_fixed_order
              (env_answering 200 "" data_list_and_uri) a_red_circle
              (answer 200 "" data_list_and_uri) data_list_and_uri
              eq_refl eq_refl eq_refl eq_refl)))
           "Here it is: data:image/png;base64,AAAA."
           "data:image/png;base64,AAAA" eq_refl eq_refl eq_refl).
Defined.

(** C1 as stated fails on the handler of [index.ts]: the first non-empty
    reference of the data is the direct image reference of strategy 2, and
    the handler answers with its no-image failure. *)
Lemma C1_counterexample :
  Spec.first_nonempty Spec.strategies data_direct_url
  = Some (VStr "https://x/direct.png")
  /\ snd (IndexTs.serve (env_answering 200 "" data_direct_url) a_red_circle)
     = {| res_status := 500;
          res_headers := jsonHeaders;
          res_body := Failure (Str "No image was generated") false |}
  /\ res_body (snd (FourPath.serve (env_answering 200 "" data_direct_url)
                      a_red_circle))
     = Success (VStr "https://x/direct.png") (VStr "") true.
Proof. repeat split. Qed.

Lemma revisions_sent serve env req :
  In serve revisions ->
  sent_messages (fst (serve env req))
  = if forwards env req
    then [build_messages (prompt_of req) (edit_image_of req)]
    else [].
Proof.
  intros [<- | [<- | []]]; [apply four_path_sent | apply index_ts_sent].
Qed.

(** C2, as amended.  A forwarded request makes one outbound call.  Its
    messages are the single user message with the plain prompt when the
    edit target is absent or falsy, and the single user message with the
    list of one text entry followed by one image entry when the edit target
    is truthy. *)
Theorem C2_payload_by_edit_target serve env req :
  In serve revisions ->
  forwards env req = true ->
  (exists s, prompt_of req = VStr s /\ s <> "")
  /\ (truthy (edit_image_of req) = false ->
      sent_messages (fst (serve env req)) = [plain_payload (prompt_of req)])
  /\ (truthy (edit_image_of req) = true ->
      sent_messages (fst (serve env req))
      = [edit_payload (prompt_of req) (edit_image_of req)]).
Proof.
  intros Hs Hf. rewrite (revisions_sent _ _ _ Hs), Hf.
  unfold build_messages. split; [| split].
  - unfold forwards in Hf.
    apply andb_true_iff in Hf as [Hf Hstr].
    apply andb_true_iff in Hf as [_ Htruthy].
    destruct (prompt_of req) as [| | b | n | s | items | fields];
      try discriminate.
    exists s. split; [reflexivity |]. intros ->. discriminate.
  - intros ->. reflexivity.
  - intros ->. reflexivity.
Qed.

Lemma C2_witness :
  sent_messages (fst (FourPath.serve (env_answering 200 "" data_uri_only) a_red_circle))
  = [plain_payload (VStr "a red circle")]
  /\ sent_messages (fst (IndexTs.serve (env_answering 200 "" data_uri_only) an_edit))
     = [edit_payload (VStr "make it blue") (VStr "data:image/png;base64,AAAA")].
Proof.
  split.
  - exact (proj1 (proj2 (C2_payload_by_edit_target FourPath.serve
             (env_answering 200 "" data_uri_only) a_red_circle
             (or_introl eq_refl) eq_refl)) eq_refl).
  - exact (proj2 (proj2 (C2_payload_by_edit_target IndexTs.serve
             (env_answering 200 "" data_uri_only) an_edit
             (or_intror (or_introl eq_refl)) eq_refl)) eq_refl).
Defined.

(** C2 as stated fails: an edit target that is present but empty gets the
    plain payload, not the content list. *)
Lemma C2_counterexample :
  edit_image_of an_empty_edit = VStr ""
  /\ sent_messages
       (fst (FourPath.serve (env_answering 200 "" data_uri_only) an_empty_edit))
     = [plain_payload (VStr "make it blue")]
  /\ sent_messages
       (fst (FourPath.serve (env_answering 200 "" data_uri_only) an_empty_edit))
     <> [edit_payload (VStr "make it blue") (VStr "")].
Proof.
  split; [reflexivity |]. split; [reflexivity |].
  rewrite four_path_sent. discriminate.
Qed.

(** C3, as amended.  When strategies 1 to 3 find nothing and the content
    string holds a text [data:image/<subtype>;base64,<payload>] (a subtype
    without [;], a payload of base64 characters) that begins at the first
    [data:image/] of the string and is not followed by another payload
    character, the four-path handler answers with status 200 and exactly
    that text as [imageUrl]; the handler of [index.ts], which does not
    search the content, answers with its no-image failure. *)
Theorem C3_data_uri_returned_verbatim
  env req r data before subtype payload after :
  provider_response env req = Some r ->
  ok r = true ->
  json_body r = inr data ->
  Spec.first_nonempty
    [Spec.strategy1; Spec.strategy2; Spec.strategy3] data = None ->
  Spec.content data
  = VStr (before ++ data_uri_text subtype payload ++ after) ->
  subtype <> "" -> all_chars Regex.not_semicolon subtype = true ->
  payload <> "" -> all_chars Regex.base64_char payload = true ->
  starts_in Regex.base64_char after = false ->
  first_occurrence "data:image/"
    (before ++ data_uri_text subtype payload ++ after)
  = Some (String.length before) ->
  snd (FourPath.serve env req)
  = {| res_status := 200;
       res_headers := jsonHeaders;
       res_body :=
         Success (VStr (data_uri_text subtype payload))
           (VStr (before ++ data_uri_text subtype payload ++ after)) true |}
  /\ snd (IndexTs.serve env req)
     = {| res_status := 500;
          res_headers := jsonHeaders;
          res_body := Failure (Str "No image was generated") false |}.
Proof.
  intros H Hok Hd H123 Hc Hs Hsc Hp Hpc Ha Hocc.
  pose proof (readable_string_content _ _ Hc) as Hr.
  pose proof (readable_not_nullish _ Hr) as Hn.
  pose proof (match_here_data_uri _ _ _ Hs Hsc Hp Hpc Ha) as Hm.
  pose proof (search_at_first_occurrence _ _ _ Hocc Hm) as Hsearch.
  split.
  - rewrite (four_path_returns_policy _ _ _ _
               (VStr (data_uri_text subtype payload)) H Hok Hd).
    + rewrite (content_value_spec _ Hn), Hc. reflexivity.
    + rewrite policy_falls_to_strategy4
        by (rewrite (policy_spec_123 _ Hr), H123; reflexivity).
      rewrite (strategy4_spec _ Hn). unfold Spec.strategy4.
      rewrite Hc, Hsearch. reflexivity.
  - rewrite (index_ts_returns _ _ _ _ H Hok Hd Hn).
    revert H123. cbn [Spec.first_nonempty].
    destruct (truthy (Spec.strategy1 data)); [discriminate | reflexivity].
Qed.

Lemma C3_witness :
  snd (FourPath.serve (env_answering 200 "" data_uri_only) a_red_circle)
  = {| res_status := 200;
       res_headers := jsonHeaders;
       res_body :=
         Success (VStr "data:image/png;base64,iVBOR/w0+KGgo=")
           (VStr "![x](data:image/png;base64,iVBOR/w0+KGgo=) done") true |}
  /\ snd (IndexTs.serve (env_answering 200 "" data_uri_only) a_red_circle)
     = {| res_status := 500;
          res_headers := jsonHeaders;
          res_body := Failure (Str "No image was generated") false |}.
Proof.
  apply (C3_data_uri_returned_verbatim
           (env_answering 200 "" data_uri_only) a_red_circle
           (answer 200 "" data_uri_only) data_uri_only
           "![x](" "png" "iVBOR/w0+KGgo=" ") done");
    first [reflexivity | discriminate].
Defined.

(** C3 as stated fails: a base64 image data URI that carries a media-type
    parameter is the only image reference of the data, and the handler
    answers with the no-image failure. *)
Lemma C3_counterexample :
  Policy.first_nonempty
    [Policy.strategy1; Policy.strategy2; Policy.strategy3]
    data_uri_with_parameter = inr None
  /\ content_of data_uri_with_parameter
     = inr (VStr "data:image/svg+xml;charset=utf-8;base64,PHN2Zz48L3N2Zz4=")
  /\ snd (FourPath.serve (env_answering 200 "" data_uri_with_parameter)
            a_red_circle)
     = catch_response (Error FourPath.no_image_message).
Proof. repeat split. Qed.

(** When the strategies run to the end on the data of a 2xx answer and
    none yields a non-empty reference, the handler answers with the
    status-500 failure whose error is its no-image message, in both
    revisions; the body is [{ error, success: false }] and holds no
    [imageUrl]. *)
Lemma no_reference_fails_with_no_image env req r data :
  provider_response env req = Some r ->
  ok r = true ->
  json_body r = inr data ->
  Policy.first_nonempty Policy.strategies data = inr None ->
  snd (FourPath.serve env req)
  = {| res_status := 500;
       res_headers := jsonHeaders;
       res_body := Failure (Str FourPath.no_image_message) false |}
  /\ snd (IndexTs.serve env req)
     = {| res_status := 500;
          res_headers := jsonHeaders;
          res_body := Failure (Str IndexTs.no_image_message) false |}.
Proof.
  intros H Hok Hd Hf. split.
  - apply (four_path_returns_no_image _ _ _ _ H Hok Hd Hf).
  - rewrite (index_ts_answered _ _ _ _ H Hok Hd), index_ts_respond_snd.
    destruct (content_of_ok _ (first_nonempty_inv _ _ Hf)) as [c Hc].
    revert Hf. unfold Policy.strategies, Policy.strategy1.
    cbn [Policy.first_nonempty].
    destruct (images_url data) as [e | u]; cbn [bind_result]; [discriminate |].
    rewrite Hc. cbn [bind_result].
    destruct (truthy u); [discriminate | reflexivity].
Qed.

Example text_only_fails_with_no_image :
  snd (FourPath.serve (env_answering 200 "" data_text_only) a_red_circle)
  = catch_response (Error FourPath.no_image_message)
  /\ snd (IndexTs.serve (env_answering 200 "" data_text_only) a_red_circle)
     = catch_response (Error IndexTs.no_image_message).
Proof.
  exact (no_reference_fails_with_no_image
           (env_answering 200 "" data_text_only) a_red_circle
           (answer 200 "" data_text_only) data_text_only
           eq_refl eq_refl eq_refl eq_refl).
Qed.

(** C4.  The four-path handler on a 2xx answer whose content list holds the
    entry [null]: no strategy yields a reference (the scan of strategy 3
    reads [c.type] of [null] and raises), and the failure the handler
    answers with carries the engine's [TypeError] text, not the no-image
    message. *)
Theorem C4_null_content_entry_raises_type_error :
  Policy.first_nonempty Policy.strategies data_null_entry
  = inl (TypeError VNull "type")
  /\ snd (FourPath.serve (env_answering 200 "" data_null_entry) a_red_circle)
     = {| res_status := 500;
          res_headers := jsonHeaders;
          res_body := Failure (EngineText VNull "type") false |}
  /\ snd (FourPath.serve (env_answering 200 "" data_null_entry) a_red_circle)
     <> {| res_status := 500;
           res_headers := jsonHeaders;
           res_body := Failure (Str FourPath.no_image_message) false |}.
Proof.
  split; [reflexivity |]. split; [reflexivity |].
  change (snd (FourPath.serve (env_answering 200 "" data_null_entry)
                 a_red_circle))
    with (catch_response (TypeError VNull "type")).
  discriminate.
Qed.

(** The same happens in both revisions when the body of the 2xx answer is
    the JSON value [null]: [data.choices] raises. *)
Example null_body_raises_type_error :
  snd (FourPath.serve (env_answering 200 "" VNull) a_red_circle)
  = catch_response (TypeError VNull "choices")
  /\ snd (IndexTs.serve (env_answering 200 "" VNull) a_red_circle)
     = catch_response (TypeError VNull "choices").
Proof. split; reflexivity. Qed.

(** The handler of [index.ts] reads the image list only: a data URI in the
    content string is not found, and a content list is passed through as
    [textContent]. *)
Example index_ts_has_no_path_4 :
  snd (IndexTs.serve (env_answering 200 "" data_uri_only) a_red_circle)
  = catch_response (Error IndexTs.no_image_message).
Proof. reflexivity. Qed.

Example index_ts_passes_a_content_list_through :
  res_body
    (snd (IndexTs.serve
            (env_answering 200 ""
               (one_message [ ("content", VArr [text_entry (VStr "done")]);
                              ("images", images_of "https://x/img.png") ]))
            a_red_circle))
  = Success (VStr "https://x/img.png") (VArr [text_entry (VStr "done")]) true.
Proof. reflexivity. Qed.

(** ** The shared part: statuses, validation *)

Lemma revision_snd serve env req :
  In serve revisions ->
  (method req =? "OPTIONS")%string = false ->
  (forall e, snd (call_gateway env req) = inl e ->
             snd (serve env req) = catch_response e)
  /\ (forall early, snd (call_gateway env req) = inr (inl early) ->
                    snd (serve env req) = early).
Proof.
  intros [<- | [<- | []]] Hm; split; intros x Hx;
    unfold FourPath.serve, FourPath.try_body, IndexTs.serve, IndexTs.try_body;
    rewrite (with_catch_snd _ _ Hm), snd_bind, Hx; reflexivity.
Qed.

Lemma revision_fst_failed serve env req e :
  In serve revisions ->
  (method req =? "OPTIONS")%string = false ->
  snd (call_gateway env req) = inl e ->
  fst (serve env req)
  = (fst (call_gateway env req)
     ++ [ConsoleError [LStr "Error in generate-image function:"; LExn e]])%list.
Proof.
  intros [<- | [<- | []]] Hm He;
    unfold FourPath.serve, FourPath.try_body, IndexTs.serve, IndexTs.try_body,
      with_catch; rewrite Hm;
    destruct (call_gateway env req) as [t [e' | x]]; simpl in *;
    try discriminate; injection He as ->; reflexivity.
Qed.

Lemma check_status_error r body :
  ok r = false -> status r <> 429 -> status r <> 402 ->
  text_body r = inr body ->
  check_status r
  = ([ConsoleError [LStr "AI gateway error:"; LNum (status r); LStr body]],
     inl (Error ("AI gateway error: " ++ decimal (status r)))).
Proof.
  intros Hok H429 H402 Hb. unfold check_status. rewrite Hok. cbn [negb].
  destruct (Z.eqb_spec (status r) 429); [contradiction |].
  destruct (Z.eqb_spec (status r) 402); [contradiction |].
  rewrite Hb. reflexivity.
Qed.

Lemma call_gateway_fst_answered env req r :
  provider_response env req = Some r ->
  fst (call_gateway env req)
  = ([ ConsoleLog [LStr "Generating image with prompt:"; LValue (prompt_of req)];
       ConsoleLog [LStr "Edit mode:"; LBool (truthy (edit_image_of req))];
       Fetch gateway_url (forwarded_init env req) ]
     ++ fst (check_status r))%list.
Proof.
  intros H. destruct (provider_response_forwards _ _ _ H) as [Hf Hr].
  rewrite (call_gateway_forwarded _ _ Hf).
  unfold do_fetch, console_log, emit, lift, bind. rewrite Hr.
  destruct (check_status r) as [t x]. reflexivity.
Qed.

Lemma revision_early_returns serve env req r :
  In serve revisions ->
  provider_response env req = Some r ->
  (status r = 429 -> snd (serve env req) = rate_limit_response)
  /\ (status r = 402 -> snd (serve env req) = payment_response).
Proof.
  intros Hs H.
  destruct (provider_response_forwards _ _ _ H) as [Hf _].
  pose proof (forwards_method _ _ Hf) as Hm.
  destruct (revision_snd _ env req Hs Hm) as [_ Hearly].
  pose proof (call_gateway_answered _ _ _ H) as Hsnd.
  split; intros Hst; apply Hearly; rewrite Hsnd; unfold check_status, ok;
    rewrite Hst; reflexivity.
Qed.

(** C5, as amended.  A provider answer that is not a success is mapped by
    its status: 429 to the rate-limit failure with status 429, 402 to the
    payment failure with status 402.  For any other status, when the
    provider's response body can be read, the answer is the failure with
    status 500 whose error text carries the provider's status code; the
    body is written to the console with that status and is not part of the
    error payload.  When the body cannot be read, the answer is the
    status-500 failure that carries the reader's error, and the status
    code is not reported. *)
Theorem C5_status_mapping serve env req r :
  In serve revisions ->
  provider_response env req = Some r ->
  ok r = false ->
  (status r = 429 ->
   snd (serve env req)
   = {| res_status := 429;
        res_headers := jsonHeaders;
        res_body := ErrorOnly (Str "Rate limit exceeded. Please try again later.") |})
  /\ (status r = 402 ->
      snd (serve env req)
      = {| res_status := 402;
           res_headers := jsonHeaders;
           res_body :=
             ErrorOnly
               (Str "Payment required. Please add credits to your workspace.") |})
  /\ (status r <> 429 -> status r <> 402 ->
      forall body, text_body r = inr body ->
      snd (serve env req)
      = {| res_status := 500;
           res_headers := jsonHeaders;
           res_body :=
             Failure (Str ("AI gateway error: " ++ decimal (status r))) false |}
      /\ In (ConsoleError [LStr "AI gateway error:"; LNum (status r); LStr body])
            (fst (serve env req)))
  /\ (status r <> 429 -> status r <> 402 ->
      forall e, text_body r = inl e ->
      snd (serve env req)
      = {| res_status := 500;
           res_headers := jsonHeaders;
           res_body := Failure (error_message e) false |}).
Proof.
  intros Hs H Hok.
  destruct (provider_response_forwards _ _ _ H) as [Hf _].
  pose proof (forwards_method _ _ Hf) as Hm.
  destruct (revision_snd _ env req Hs Hm) as [Hfail Hearly].
  pose proof (call_gateway_answered _ _ _ H) as Hsnd.
  split; [apply (revision_early_returns _ _ _ _ Hs H) |].
  split; [apply (revision_early_returns _ _ _ _ Hs H) |].
  split.
  - intros H429 H402 body Hb.
    pose proof (check_status_error _ _ Hok H429 H402 Hb) as Hc.
    assert (Hthrown : snd (call_gateway env req)
                      = inl (Error ("AI gateway error: " ++ decimal (status r)))).
    { rewrite Hsnd, Hc. reflexivity. }
    split; [apply (Hfail _ Hthrown) |].
    rewrite (revision_fst_failed _ _ _ _ Hs Hm Hthrown).
    rewrite (call_gateway_fst_answered _ _ _ H), Hc.
    cbn [fst app]. simpl. tauto.
  - intros H429 H402 e He.
    change {| res_status := 500;
              res_headers := jsonHeaders;
              res_body := Failure (error_message e) false |}
      with (catch_response e).
    apply Hfail. rewrite Hsnd. unfold check_status. rewrite Hok. cbn [negb].
    destruct (Z.eqb_spec (status r) 429); [contradiction |].
    destruct (Z.eqb_spec (status r) 402); [contradiction |].
    run. rewrite He. reflexivity.
Qed.

Lemma C5_witness :
  snd (FourPath.serve (env_answering 429 "slow down" VNull) a_red_circle)
  = {| res_status := 429;
       res_headers := jsonHeaders;
       res_body := ErrorOnly (Str "Rate limit exceeded. Please try again later.") |}
  /\ snd (IndexTs.serve (env_answering 402 "pay" VNull) a_red_circle)
     = {| res_status := 402;
          res_headers := jsonHeaders;
          res_body :=
            ErrorOnly
              (Str "Payment required. Please add credits to your workspace.") |}
  /\ snd (FourPath.serve (env_answering 503 "upstream exploded" VNull)
            a_red_circle)
     = {| res_status := 500;
          res_headers := jsonHeaders;
          res_body := Failure (Str "AI gateway error: 503") false |}
  /\ In (ConsoleError [LStr "AI gateway error:"; LNum 503;
                       LStr "upstream exploded"])
        (fst (FourPath.serve (env_answering 503 "upstream exploded" VNull)
                a_red_circle)).
Proof.
  split; [| split].
  - exact (proj1 (C5_status_mapping FourPath.serve
                    (env_answering 429 "slow down" VNull) a_red_circle
                    (answer 429 "slow down" VNull)
                    (or_introl eq_refl) eq_refl eq_refl) eq_refl).
  - exact (proj1 (proj2 (C5_status_mapping IndexTs.serve
                           (env_answering 402 "pay" VNull) a_red_circle
                           (answer 402 "pay" VNull)
                           (or_intror (or_introl eq_refl)) eq_refl eq_refl))
             eq_refl).
  - apply (proj1 (proj2 (proj2 (C5_status_mapping FourPath.serve
                                  (env_answering 503 "upstream exploded" VNull)
                                  a_red_circle
                                  (answer 503 "upstream exploded" VNull)
                                  (or_introl eq_refl) eq_refl eq_refl)))).
    + simpl. lia.
    + simpl. lia.
    + reflexivity.
Defined.

(** C5 as stated fails: for status 503 the error payload carries the status
    code and not the provider's response body. *)
Lemma C5_counterexample :
  res_body (snd (FourPath.serve (env_answering 503 "upstream exploded" VNull)
                   a_red_circle))
  = Failure (Str "AI gateway error: 503") false
  /\ contains "503" "AI gateway error: 503" = true
  /\ contains "upstream exploded" "AI gateway error: 503" = false.
Proof. repeat split. Qed.

(** C6.  The failure responses with status 429 and 402 have the body
    [{ error }]: they hold no [success] field, unlike the body
    [{ error, success: false }] of the [catch] block. *)
Theorem C6_rate_limit_and_payment_bodies_lack_success serve env req r :
  In serve revisions ->
  provider_response env req = Some r ->
  status r = 429 \/ status r = 402 ->
  exists message,
    snd (serve env req)
    = {| res_status := status r;
         res_headers := jsonHeaders;
         res_body := ErrorOnly (Str message) |}.
Proof.
  intros Hs H Hstatus.
  destruct (revision_early_returns _ _ _ _ Hs H) as [H429 H402].
  destruct Hstatus as [Hst | Hst].
  - eexists. rewrite (H429 Hst), Hst. reflexivity.
  - eexists. rewrite (H402 Hst), Hst. reflexivity.
Qed.

Lemma C6_witness :
  exists message,
    snd (FourPath.serve (env_answering 429 "slow down" VNull) a_red_circle)
    = {| res_status := 429;
         res_headers := jsonHeaders;
         res_body := ErrorOnly (Str message) |}.
Proof.
  apply (C6_rate_limit_and_payment_bodies_lack_success FourPath.serve
           (env_answering 429 "slow down" VNull) a_red_circle
           (answer 429 "slow down" VNull) (or_introl eq_refl) eq_refl).
  left. reflexivity.
Defined.

Lemma call_gateway_rejected env req :
  has_body req = true ->
  truthy (prompt_of req) && is_string (prompt_of req) = false ->
  call_gateway env req
  = ([], inl (Error (if configured (LOVABLE_API_KEY env)
                     then validation_message
                     else configuration_message))).
Proof.
  unfold has_body, prompt_of, call_gateway.
  destruct (req_json req) as [e | parsed]; [discriminate |].
  rewrite bind_lift. unfold dot, opt.
  destruct (nullish parsed); [discriminate |]. intros _ Hp.
  rewrite !bind_lift.
  destruct (configured (LOVABLE_API_KEY env)); [| reflexivity].
  cbn [negb].
  destruct (truthy (field "prompt" parsed));
    destruct (is_string (field "prompt" parsed));
    try discriminate; reflexivity.
Qed.

Lemma no_prompt_not_forwarded env req :
  truthy (prompt_of req) && is_string (prompt_of req) = false ->
  forwards env req = false.
Proof.
  unfold forwards. intros H. rewrite <- andb_assoc, H. apply andb_false_r.
Qed.

Lemma revision_rejects serve env req :
  In serve revisions ->
  truthy (prompt_of req) && is_string (prompt_of req) = false ->
  fetch_count (fst (serve env req)) = 0%nat
  /\ (reaches_prompt_check env req = true ->
      snd (serve env req) = catch_response (Error validation_message)).
Proof.
  intros Hs Hp. split.
  - unfold fetch_count.
    rewrite (revisions_sent _ _ _ Hs), (no_prompt_not_forwarded _ _ Hp).
    reflexivity.
  - unfold reaches_prompt_check. intros Hr.
    apply andb_true_iff in Hr as [Hr Hkey].
    apply andb_true_iff in Hr as [Hm Hb].
    apply negb_true_iff in Hm.
    destruct (revision_snd _ env req Hs Hm) as [Hfail _].
    apply Hfail. rewrite (call_gateway_rejected _ _ Hb Hp), Hkey. reflexivity.
Qed.

(** C7, as amended.  A request whose prompt is missing or not a string
    makes no call to the provider; when it gets as far as the prompt check
    (it is not the preflight, its body parsed to a value other than [null]
    and the credential is configured) the handler answers with the
    status-500 failure whose error is the validation message. *)
Theorem C7_invalid_prompt_is_rejected_before_fetch serve env req :
  In serve revisions ->
  is_string (prompt_of req) = false ->
  fetch_count (fst (serve env req)) = 0%nat
  /\ (reaches_prompt_check env req = true ->
      snd (serve env req)
      = {| res_status := 500;
           res_headers := jsonHeaders;
           res_body := Failure (Str "Prompt is required and must be a string") false |}).
Proof.
  intros Hs Hp. apply (revision_rejects _ _ _ Hs).
  rewrite Hp. apply andb_false_r.
Qed.

Lemma C7_witness :
  fetch_count (fst (FourPath.serve (env_answering 200 "" data_uri_only) no_prompt))
  = 0%nat
  /\ snd (FourPath.serve (env_answering 200 "" data_uri_only) no_prompt)
     = catch_response (Error validation_message).
Proof.
  pose proof (C7_invalid_prompt_is_rejected_before_fetch FourPath.serve
                (env_answering 200 "" data_uri_only) no_prompt
                (or_introl eq_refl) eq_refl) as [Hnone Hfail].
  split; [exact Hnone | exact (Hfail eq_refl)].
Defined.

(** C7 as stated fails: without the credential a request with no prompt is
    answered with the configuration failure, not the validation failure. *)
Lemma C7_counterexample :
  is_string (prompt_of no_prompt) = false
  /\ snd (FourPath.serve env_unconfigured no_prompt)
     = {| res_status := 500;
          res_headers := jsonHeaders;
          res_body := Failure (Str "LOVABLE_API_KEY is not configured") false |}
  /\ snd (FourPath.serve env_unconfigured no_prompt)
     <> catch_response (Error validation_message).
Proof.
  split; [reflexivity |]. split; [reflexivity |].
  change (snd (FourPath.serve env_unconfigured no_prompt))
    with (catch_response (Error configuration_message)).
  discriminate.
Qed.

(** C8, as amended.  In a success response of the four-path handler
    [textContent] is a string: the content of the first choice's message
    when that content is a string, whichever path supplied the image, and
    the empty string otherwise; it is never read from a content list or
    from the image list.  In a success response of the handler of
    [index.ts] [textContent] is the content itself when it is truthy (a
    content list is passed on as it is) and the empty string otherwise. *)
Theorem C8_text_content_is_the_string_content env req r data :
  provider_response env req = Some r ->
  ok r = true ->
  json_body r = inr data ->
  (forall imageUrl textContent success,
     res_body (snd (FourPath.serve env req))
     = Success imageUrl textContent success ->
     textContent = string_content (content_value data)
     /\ (forall s, content_value data = VStr s -> textContent = VStr s)
     /\ (is_string (content_value data) = false -> textContent = VStr ""))
  /\ (forall imageUrl textContent success,
        res_body (snd (IndexTs.serve env req))
        = Success imageUrl textContent success ->
        textContent = (if truthy (content_value data)
                       then content_value data else VStr "")).
Proof.
  intros H Hok Hd. split.
  - intros imageUrl textContent success Hbody.
    assert (Htext : textContent = string_content (content_value data)).
    { revert Hbody.
      rewrite (four_path_answered _ _ _ _ H Hok Hd), respond_snd.
      unfold content_value.
      destruct (Policy.first_nonempty Policy.strategies data) as [e | found];
        cbn [bind_result settle]; [discriminate |].
      destruct (content_of data) as [e | c]; cbn [bind_result settle];
        [discriminate |].
      destruct found as [v |]; [| discriminate].
      destruct (truthy v); [| discriminate].
      cbn [settle success_response res_body]. congruence. }
    split; [exact Htext |]. split.
    + intros s Hs. rewrite Htext, Hs. reflexivity.
    + intros Hs. rewrite Htext. destruct (content_value data); try reflexivity.
      discriminate.
  - intros imageUrl textContent success.
    rewrite (index_ts_answered _ _ _ _ H Hok Hd), index_ts_respond_snd.
    unfold content_value.
    destruct (images_url data) as [e | u]; cbn [bind_result settle];
      [discriminate |].
    destruct (content_of data) as [e | c]; cbn [bind_result settle];
      [discriminate |].
    destruct (truthy u); cbn [settle]; [| discriminate].
    unfold success_response, IndexTs.or_empty. cbn [res_body]. congruence.
Qed.

Lemma C8_witness :
  VStr "Here it is: data:image/png;base64,AAAA."
  = string_content (content_value data_list_and_uri)
  /\ VArr [text_entry (VStr "done")]
     = (if truthy (content_value
                     (one_message
                        [ ("content", VArr [text_entry (VStr "done")]);
                          ("images", images_of "https://x/img.png") ]))
        then content_value
               (one_message
                  [ ("content", VArr [text_entry (VStr "done")]);
                    ("images", images_of "https://x/img.png") ])
        else VStr "").
Proof.
  split.
  - exact (proj1 (proj1 (C8_text_content_is_the_string_content
                           (env_answering 200 "" data_list_and_uri) a_red_circle
                           (answer 200 "" data_list_and_uri) data_list_and_uri
                           eq_refl eq_refl eq_refl)
                    (VStr "https://x/img.png")
                    (VStr "Here it is: data:image/png;base64,AAAA.") true
                    eq_refl)).
  - exact (proj2 (C8_text_content_is_the_string_content
                    (env_answering 200 ""
                       (one_message
                          [ ("content", VArr [text_entry (VStr "done")]);
                            ("images", images_of "https://x/img.png") ]))
                    a_red_circle
                    (answer 200 ""
                       (one_message
                          [ ("content", VArr [text_entry (VStr "done")]);
                            ("images", images_of "https://x/img.png") ]))
                    (one_message
                       [ ("content", VArr [text_entry (VStr "done")]);
                         ("images", images_of "https://x/img.png") ])
                    eq_refl eq_refl eq_refl)
             (VStr "https://x/img.png") (VArr [text_entry (VStr "done")]) true
             eq_refl).
Defined.

(** C8 as stated fails: the image comes from the image list and
    [textContent] is the content string, not the empty string. *)
Lemma C8_counterexample :
  Policy.first_nonempty [Policy.strategy1] data_list_and_uri
  = inr (Some (VStr "https://x/img.png"))
  /\ res_body (snd (FourPath.serve (env_answering 200 "" data_list_and_uri)
                      a_red_circle))
     = Success (VStr "https://x/img.png")
         (VStr "Here it is: data:image/png;base64,AAAA.") true
  /\ VStr "Here it is: data:image/png;base64,AAAA." <> VStr "".
Proof. split; [reflexivity |]. split; [reflexivity | discriminate]. Qed.

(** C9.  A request whose prompt is the empty string is treated as one
    whose prompt is missing: it makes no call to the provider, it fails the
    prompt check with the validation message when it gets that far, and
    its whole outcome is the outcome of the same request without a
    prompt. *)
Theorem C9_empty_prompt_is_a_missing_prompt serve env req :
  In serve revisions ->
  prompt_of req = VStr "" ->
  fetch_count (fst (serve env req)) = 0%nat
  /\ (reaches_prompt_check env req = true ->
      snd (serve env req)
      = {| res_status := 500;
           res_headers := jsonHeaders;
           res_body := Failure (Str "Prompt is required and must be a string") false |})
  /\ (forall req',
        method req' = method req ->
        has_body req = true -> has_body req' = true ->
        prompt_of req' = VUndefined ->
        serve env req' = serve env req).
Proof.
  intros Hs Hp.
  assert (Hfalsy : truthy (prompt_of req) && is_string (prompt_of req) = false).
  { rewrite Hp. reflexivity. }
  destruct (revision_rejects _ env req Hs Hfalsy) as [Hnone Hfail].
  split; [exact Hnone |]. split; [exact Hfail |].
  intros req' Hm Hb Hb' Hp'.
  assert (Hsame : call_gateway env req' = call_gateway env req).
  { rewrite (call_gateway_rejected _ _ Hb Hfalsy).
    apply (call_gateway_rejected _ _ Hb'). rewrite Hp'. reflexivity. }
  destruct Hs as [<- | [<- | []]];
    unfold FourPath.serve, FourPath.try_body, IndexTs.serve, IndexTs.try_body,
      with_catch; rewrite Hm, Hsame; reflexivity.
Qed.

Lemma C9_witness :
  fetch_count (fst (IndexTs.serve (env_answering 200 "" data_uri_only) empty_prompt))
  = 0%nat
  /\ snd (IndexTs.serve (env_answering 200 "" data_uri_only) empty_prompt)
     = catch_response (Error validation_message)
  /\ IndexTs.serve (env_answering 200 "" data_uri_only) no_prompt
     = IndexTs.serve (env_answering 200 "" data_uri_only) empty_prompt.
Proof.
  pose proof (C9_empty_prompt_is_a_missing_prompt IndexTs.serve
                (env_answering 200 "" data_uri_only) empty_prompt
                (or_intror (or_introl eq_refl)) eq_refl)
    as [Hnone [Hfail Hsame]].
  split; [exact Hnone |]. split; [exact (Hfail eq_refl) |].
  exact (Hsame no_prompt eq_refl eq_refl eq_refl eq_refl).
Defined.

(** C10.  When strategies 1 to 3 find nothing and the search of the content
    string finds a data URI, the four-path handler answers with status 200
    and a body whose [imageUrl] is the match and whose [textContent] is the
    whole content string, so the [imageUrl] is a substring of the
    [textContent]. *)
Theorem C10_image_is_duplicated_in_text_content env req r data s m :
  provider_response env req = Some r ->
  ok r = true ->
  json_body r = inr data ->
  Spec.first_nonempty
    [Spec.strategy1; Spec.strategy2; Spec.strategy3] data = None ->
  Spec.content data = VStr s ->
  Regex.search Regex.data_uri s = Some m ->
  snd (FourPath.serve env req)
  = {| res_status := 200;
       res_headers := jsonHeaders;
       res_body := Success (VStr m) (VStr s) true |}
  /\ exists before after, s = before ++ m ++ after.
Proof.
  intros H Hok Hd H123 Hc Hsearch.
  pose proof (readable_string_content _ _ Hc) as Hr.
  pose proof (readable_not_nullish _ Hr) as Hn.
  split.
  - rewrite (four_path_returns_policy _ _ _ _ (VStr m) H Hok Hd).
    + rewrite (content_value_spec _ Hn), Hc. reflexivity.
    + rewrite policy_falls_to_strategy4
        by (rewrite (policy_spec_123 _ Hr), H123; reflexivity).
      rewrite (strategy4_spec _ Hn). unfold Spec.strategy4.
      rewrite Hc, Hsearch.
      pose proof (search_data_uri_nonempty _ _ Hsearch) as Hne.
      cbn [bind_result truthy].
      destruct (String.eqb_spec m ""); [contradiction | reflexivity].
  - apply (search_is_substring _ _ _ Hsearch).
Qed.

Lemma C10_witness :
  snd (FourPath.serve (env_answering 200 "" data_uri_only) a_red_circle)
  = {| res_status := 200;
       res_headers := jsonHeaders;
       res_body :=
         Success (VStr "data:image/png;base64,iVBOR/w0+KGgo=")
           (VStr "![x](data:image/png;base64,iVBOR/w0+KGgo=) done") true |}
  /\ exists before after,
       "![x](data:image/png;base64,iVBOR/w0+KGgo=) done"
       = before ++ "data:image/png;base64,iVBOR/w0+KGgo=" ++ after.
Proof.
  exact (C10_image_is_duplicated_in_text_content
           (env_answering 200 "" data_uri_only) a_red_circle
           (answer 200 "" data_uri_only) data_uri_only
           "![x](data:image/png;base64,iVBOR/w0+KGgo=) done"
           "data:image/png;base64,iVBOR/w0+KGgo="
           eq_refl eq_refl eq_refl eq_refl eq_refl eq_refl).
Defined.

(** ** Further properties of the handler *)

Lemma fetch_events_app t t' :
  fetch_events (t ++ t') = (fetch_events t ++ fetch_events t')%list.
Proof.
  induction t as [| [args | args | url init] t IH]; simpl;
    [reflexivity | exact IH | exact IH | rewrite IH; reflexivity].
Qed.

Lemma fetch_events_bind {A B} (m : M A) (f : A -> M B) :
  fetch_events (fst (bind m f))
  = (fetch_events (fst m)
     ++ match snd m with
        | inr a => fetch_events (fst (f a))
        | inl _ => []
        end)%list.
Proof.
  destruct m as [t [e | a]]; simpl.
  - rewrite app_nil_r. reflexivity.
  - destruct (f a) as [t' r']. simpl. apply fetch_events_app.
Qed.

Lemma sent_messages_of_fetch_events t :
  sent_messages t
  = map (fun call => messages (init_body (snd call))) (fetch_events t).
Proof.
  induction t as [| [args | args | url init] t IH]; simpl;
    [reflexivity | exact IH | exact IH | rewrite IH; reflexivity].
Qed.

Lemma quiet_fetch_events {A} (m : M A) : quiet m -> fetch_events (fst m) = [].
Proof.
  unfold quiet. rewrite sent_messages_of_fetch_events.
  destruct (fetch_events (fst m)); [reflexivity | discriminate].
Qed.

Lemma with_catch_fetch_events req (body : M Response) :
  fetch_events (fst (with_catch req body))
  = if (method req =? "OPTIONS")%string then [] else fetch_events (fst body).
Proof.
  unfold with_catch. destruct (method req =? "OPTIONS")%string; [reflexivity |].
  destruct body as [t [e | r]]; cbn [fst]; [| reflexivity].
  rewrite fetch_events_app. simpl. apply app_nil_r.
Qed.

Lemma call_gateway_fetch_events env req :
  (method req =? "OPTIONS")%string = false ->
  fetch_events (fst (call_gateway env req))
  = if forwards env req then [(gateway_url, forwarded_init env req)] else [].
Proof.
  intros Hm. destruct (forwards env req) eqn:Hf.
  - rewrite (call_gateway_forwarded _ _ Hf).
    rewrite !fetch_events_bind. cbn [console_log emit fst snd fetch_events app].
    unfold do_fetch. rewrite fetch_events_bind.
    cbn [emit fst snd fetch_events app lift bind].
    destruct (fetch env gateway_url (forwarded_init env req)) as [e | r];
      [reflexivity |].
    rewrite (quiet_fetch_events _ (quiet_check_status r)). reflexivity.
  - destruct (call_gateway_refused _ _ Hf Hm) as [e ->]. reflexivity.
Qed.

Lemma revisions_fetch_events serve env req :
  In serve revisions ->
  fetch_events (fst (serve env req))
  = if forwards env req then [(gateway_url, forwarded_init env req)] else [].
Proof.
  intros Hs.
  assert (Hquiet : forall r : Response + value,
             fetch_events
               (fst (match r with
                     | inl early => ret early
                     | inr data => FourPath.respond data
                     end)) = []
             /\ fetch_events
                  (fst (match r with
                        | inl early => ret early
                        | inr data => IndexTs.respond data
                        end)) = []).
  { intros [early | data]; split; try reflexivity;
      apply quiet_fetch_events;
      [apply quiet_four_path_respond | apply quiet_index_ts_respond]. }
  destruct (method req =? "OPTIONS")%string eqn:Hm.
  { unfold forwards. rewrite Hm.
    destruct Hs as [<- | [<- | []]];
      unfold FourPath.serve, IndexTs.serve; rewrite with_catch_fetch_events, Hm;
      reflexivity. }
  destruct Hs as [<- | [<- | []]];
    unfold FourPath.serve, FourPath.try_body, IndexTs.serve, IndexTs.try_body;
    rewrite with_catch_fetch_events, Hm, fetch_events_bind,
      (call_gateway_fetch_events _ _ Hm);
    destruct (snd (call_gateway env req)) as [e | r];
    rewrite ?(proj1 (Hquiet _)), ?(proj2 (Hquiet _)), app_nil_r; reflexivity.
Qed.

(** X1.  A run of the handler calls the provider at most once, and exactly
    once when the request is forwarded, whatever the provider answers and
    also when the call itself is rejected: nothing is retried.  The call
    goes to the gateway URL as a POST with the fixed model and modalities,
    the messages built from the prompt and the edit target, and the
    configured, non-empty credential as the bearer token. *)
Theorem X1_one_call_to_the_gateway serve env req :
  In serve revisions ->
  fetch_events (fst (serve env req))
  = (if forwards env req then [(gateway_url, forwarded_init env req)] else [])
  /\ (forwards env req = true ->
      exists key,
        LOVABLE_API_KEY env = Some key /\ key <> ""
        /\ forwarded_init env req
           = {| init_method := "POST";
                init_headers := [ ("Authorization", "Bearer " ++ key);
                                  ("Content-Type", "application/json") ];
                init_body :=
                  {| model := "google/gemini-2.5-flash-image-preview";
                     messages :=
                       build_messages (prompt_of req) (edit_image_of req);
                     modalities := ["image"; "text"] |} |}).
Proof.
  intros Hs. split; [apply (revisions_fetch_events _ _ _ Hs) |].
  unfold forwards, forwarded_init, gateway_init. intros Hf.
  apply andb_true_iff in Hf as [Hf _].
  apply andb_true_iff in Hf as [Hf _].
  apply andb_true_iff in Hf as [_ Hkey].
  destruct (LOVABLE_API_KEY env) as [key |]; [| discriminate].
  exists key. split; [reflexivity |]. split; [| reflexivity].
  intros ->. discriminate.
Qed.

Lemma X1_witness :
  fetch_events (fst (FourPath.serve env_offline an_edit))
  = [(gateway_url, forwarded_init env_offline an_edit)]
  /\ exists key,
       LOVABLE_API_KEY env_offline = Some key /\ key <> ""
       /\ forwarded_init env_offline an_edit
          = {| init_method := "POST";
               init_headers := [ ("Authorization", "Bearer " ++ key);
                                 ("Content-Type", "application/json") ];
               init_body :=
                 {| model := "google/gemini-2.5-flash-image-preview";
                    messages :=
                      build_messages (prompt_of an_edit) (edit_image_of an_edit);
                    modalities := ["image"; "text"] |} |}.
Proof.
  pose proof (X1_one_call_to_the_gateway FourPath.serve env_offline an_edit
                (or_introl eq_refl)) as [Hcalls Hcall].
  split; [exact Hcalls | exact (Hcall eq_refl)].
Defined.

(** The outcomes of the shared part for a request that is not the
    preflight. *)
Lemma call_gateway_outcomes env req :
  (method req =? "OPTIONS")%string = false ->
  (exists e, snd (call_gateway env req) = inl e)
  \/ snd (call_gateway env req) = inr (inl rate_limit_response)
  \/ snd (call_gateway env req) = inr (inl payment_response)
  \/ (exists r data,
        provider_response env req = Some r /\ ok r = true
        /\ json_body r = inr data
        /\ snd (call_gateway env req) = inr (inr data)).
Proof.
  intros Hm. destruct (forwards env req) eqn:Hf.
  - destruct (fetch env gateway_url (forwarded_init env req)) as [e | r] eqn:Hr.
    + left. exists e. rewrite (call_gateway_forwarded _ _ Hf). run.
      unfold do_fetch. run. rewrite Hr. reflexivity.
    + assert (H : provider_response env req = Some r).
      { unfold provider_response. rewrite Hf, Hr. reflexivity. }
      rewrite (call_gateway_answered _ _ _ H). unfold check_status.
      destruct (ok r) eqn:Hok; cbn [negb].
      * run. destruct (json_body r) as [e | data] eqn:Hd; cbn [bind_result].
        -- left. eauto.
        -- right. right. right. exists r, data. auto.
      * destruct (status r =? 429); [right; left; reflexivity |].
        destruct (status r =? 402); [right; right; left; reflexivity |].
        left. run. destruct (text_body r); cbn [bind_result]; run; eauto.
  - left. destruct (call_gateway_refused _ _ Hf Hm) as [e ->].
    exists e. reflexivity.
Qed.

(** The responses of the handler. *)
Lemma response_shapes serve env req :
  In serve revisions ->
  ((method req =? "OPTIONS")%string = true
   /\ snd (serve env req) = preflight_response)
  \/ snd (serve env req) = rate_limit_response
  \/ snd (serve env req) = payment_response
  \/ (exists e, snd (serve env req) = catch_response e)
  \/ (exists imageUrl textContent,
        truthy imageUrl = true
        /\ snd (serve env req) = success_response imageUrl textContent).
Proof.
  intros Hs. destruct (method req =? "OPTIONS")%string eqn:Hm.
  { left. split; [reflexivity |].
    destruct Hs as [<- | [<- | []]];
      unfold FourPath.serve, IndexTs.serve, with_catch; rewrite Hm;
      reflexivity. }
  right. destruct (revision_snd _ env req Hs Hm) as [Hfail Hearly].
  destruct (call_gateway_outcomes env req Hm)
    as [[e He] | [H429 | [H402 | [r [data [H [Hok [Hd _]]]]]]]].
  - right. right. left. exists e. apply Hfail, He.
  - left. apply Hearly, H429.
  - right. left. apply Hearly, H402.
  - right. right.
    destruct Hs as [<- | [<- | []]].
    + rewrite (four_path_answered _ _ _ _ H Hok Hd), respond_snd.
      destruct (Policy.first_nonempty Policy.strategies data) as [e | found];
        cbn [bind_result settle]; [left; eexists; reflexivity |].
      destruct (content_of data) as [e | c]; cbn [bind_result settle];
        [left; eexists; reflexivity |].
      destruct found as [v |]; [| left; eexists; reflexivity].
      destruct (truthy v) eqn:Hv; [| left; eexists; reflexivity].
      right. exists v, (string_content c). auto.
    + rewrite (index_ts_answered _ _ _ _ H Hok Hd), index_ts_respond_snd.
      destruct (images_url data) as [e | u]; cbn [bind_result settle];
        [left; eexists; reflexivity |].
      destruct (content_of data) as [e | c]; cbn [bind_result settle];
        [left; eexists; reflexivity |].
      destruct (truthy u) eqn:Hu; [| left; eexists; reflexivity].
      right. exists u, (IndexTs.or_empty c). auto.
Qed.

(** X2.  Every response of the handler, the preflight answer and the
    failures included, carries the two permissive cross-origin headers; every
    response other than the preflight answer also declares a JSON body. *)
Theorem X2_every_response_carries_the_cors_headers serve env req :
  In serve revisions ->
  In ("Access-Control-Allow-Origin", "*") (res_headers (snd (serve env req)))
  /\ In ("Access-Control-Allow-Headers",
         "authorization, x-client-info, apikey, content-type")
        (res_headers (snd (serve env req)))
  /\ ((method req =? "OPTIONS")%string = false ->
      In ("Content-Type", "application/json")
         (res_headers (snd (serve env req)))).
Proof.
  intros Hs.
  destruct (response_shapes _ env req Hs)
    as [[Hm ->] | [-> | [-> | [[e ->] | [u [t [_ ->]]]]]]];
    cbn; try (repeat split; auto; tauto).
  repeat split; auto. rewrite Hm. discriminate.
Qed.

Lemma X2_witness :
  In ("Content-Type", "application/json")
     (res_headers (snd (IndexTs.serve env_unconfigured no_prompt))).
Proof.
  exact (proj2 (proj2 (X2_every_response_carries_the_cors_headers
                         IndexTs.serve env_unconfigured no_prompt
                         (or_intror (or_introl eq_refl)))) eq_refl).
Defined.

(** X3.  The status of a response decides its body and conversely: status
    200 comes with the empty body (the preflight answer only) or with
    [{ imageUrl, textContent, success: true }] whose [imageUrl] is never
    empty (it is truthy); status 429 and 402 come with [{ error }]; status
    500 comes with [{ error, success: false }]; there is no other status. *)
Theorem X3_status_and_body serve env req :
  In serve revisions ->
  (res_status (snd (serve env req)) = 200
   /\ ((res_body (snd (serve env req)) = NoBody
        /\ (method req =? "OPTIONS")%string = true)
       \/ exists imageUrl textContent,
            res_body (snd (serve env req)) = Success imageUrl textContent true
            /\ truthy imageUrl = true))
  \/ (res_status (snd (serve env req)) = 429
      /\ exists message, res_body (snd (serve env req)) = ErrorOnly message)
  \/ (res_status (snd (serve env req)) = 402
      /\ exists message, res_body (snd (serve env req)) = ErrorOnly message)
  \/ (res_status (snd (serve env req)) = 500
      /\ exists message, res_body (snd (serve env req)) = Failure message false).
Proof.
  intros Hs.
  destruct (response_shapes _ env req Hs)
    as [[Hm ->] | [-> | [-> | [[e ->] | [u [t [Hu ->]]]]]]]; cbn.
  - left. split; [reflexivity |]. left. split; [reflexivity | exact Hm].
  - right. left. eauto.
  - right. right. left. eauto.
  - right. right. right. eauto.
  - left. split; [reflexivity |]. right. eauto.
Qed.

Lemma X3_witness :
  res_status (snd (FourPath.serve (env_answering 200 "" data_uri_only) a_red_circle))
  = 200
  /\ truthy (VStr "data:image/png;base64,iVBOR/w0+KGgo=") = true.
Proof.
  destruct (X3_status_and_body FourPath.serve
              (env_answering 200 "" data_uri_only) a_red_circle
              (or_introl eq_refl))
    as [[H200 _] | [[H _] | [[H _] | [H _]]]];
    [split; [exact H200 | reflexivity] | discriminate H ..].
Defined.

Lemma revision_failed serve env req t e :
  In serve revisions ->
  (method req =? "OPTIONS")%string = false ->
  call_gateway env req = (t, inl e) ->
  serve env req
  = ((t ++ [ConsoleError [LStr "Error in generate-image function:"; LExn e]])%list,
     catch_response e).
Proof.
  intros Hs Hm Hc.
  assert (He : snd (call_gateway env req) = inl e) by (rewrite Hc; reflexivity).
  rewrite (surjective_pairing (serve env req)).
  rewrite (revision_fst_failed _ _ _ _ Hs Hm He).
  rewrite (proj1 (revision_snd _ env req Hs Hm) _ He), Hc. reflexivity.
Qed.

Lemma call_gateway_unconfigured env req :
  has_body req = true ->
  configured (LOVABLE_API_KEY env) = false ->
  call_gateway env req = ([], inl (Error configuration_message)).
Proof.
  unfold has_body, call_gateway.
  destruct (req_json req) as [e | parsed]; [discriminate |].
  rewrite bind_lift. unfold dot.
  destruct (nullish parsed); [discriminate |]. intros _ Hk.
  rewrite !bind_lift, Hk. reflexivity.
Qed.

(** X4.  Without the credential the handler answers every request that has
    a body with the status-500 failure whose error is the configuration
    message, whatever the prompt is; it makes no call and logs nothing but
    that error.  A credential set to the empty string counts as missing. *)
Theorem X4_missing_credential serve env req :
  In serve revisions ->
  (method req =? "OPTIONS")%string = false ->
  has_body req = true ->
  LOVABLE_API_KEY env = None \/ LOVABLE_API_KEY env = Some "" ->
  serve env req
  = ([ConsoleError [ LStr "Error in generate-image function:";
                     LExn (Error "LOVABLE_API_KEY is not configured") ]],
     {| res_status := 500;
        res_headers := jsonHeaders;
        res_body := Failure (Str "LOVABLE_API_KEY is not configured") false |}).
Proof.
  intros Hs Hm Hb Hk.
  apply (revision_failed serve env req [] (Error configuration_message) Hs Hm).
  apply (call_gateway_unconfigured _ _ Hb).
  destruct Hk as [-> | ->]; reflexivity.
Qed.

Lemma X4_witness :
  FourPath.serve (env_empty_key data_uri_only) a_red_circle
  = ([ConsoleError [ LStr "Error in generate-image function:";
                     LExn (Error "LOVABLE_API_KEY is not configured") ]],
     catch_response (Error configuration_message)).
Proof.
  apply (X4_missing_credential FourPath.serve (env_empty_key data_uri_only)
           a_red_circle (or_introl eq_refl) eq_refl eq_refl).
  right. reflexivity.
Defined.

(** X5.  A request whose body cannot be read as JSON, or whose body is the
    JSON value [null], is answered with the status-500 failure that carries
    the error raised: the parser's own error, or the engine's [TypeError]
    for destructuring [null].  No call is made and the credential is not
    consulted. *)
Theorem X5_unreadable_body serve env req :
  In serve revisions ->
  (method req =? "OPTIONS")%string = false ->
  (forall e, req_json req = inl e ->
     serve env req
     = ([ConsoleError [LStr "Error in generate-image function:"; LExn e]],
        {| res_status := 500;
           res_headers := jsonHeaders;
           res_body := Failure (error_message e) false |}))
  /\ (req_json req = inr VNull ->
      serve env req
      = ([ConsoleError [ LStr "Error in generate-image function:";
                         LExn (TypeError VNull "prompt") ]],
         {| res_status := 500;
            res_headers := jsonHeaders;
            res_body := Failure (EngineText VNull "prompt") false |})).
Proof.
  intros Hs Hm. split.
  - intros e He. apply (revision_failed serve env req [] e Hs Hm).
    unfold call_gateway. rewrite He. reflexivity.
  - intros He.
    apply (revision_failed serve env req [] (TypeError VNull "prompt") Hs Hm).
    unfold call_gateway. rewrite He. reflexivity.
Qed.

Lemma X5_witness :
  IndexTs.serve env_unconfigured {| method := "POST"; req_json := inr VNull |}
  = ([ConsoleError [ LStr "Error in generate-image function:";
                     LExn (TypeError VNull "prompt") ]],
     catch_response (TypeError VNull "prompt")).
Proof.
  exact (proj2 (X5_unreadable_body IndexTs.serve env_unconfigured
                  {| method := "POST"; req_json := inr VNull |}
                  (or_intror (or_introl eq_refl)) eq_refl) eq_refl).
Defined.

(** X6.  Failures on the provider's side are answered with status 500 and
    the failure body that carries the message of the error raised, after
    the one call: a rejected call (network failure), a success answer whose
    body is not JSON, and a non-success answer whose body cannot be read;
    in the last case the provider's status code is not reported. *)
Theorem X6_provider_side_errors serve env req e :
  In serve revisions ->
  forwards env req = true ->
  (fetch env gateway_url (forwarded_init env req) = inl e ->
   snd (serve env req)
   = {| res_status := 500;
        res_headers := jsonHeaders;
        res_body := Failure (error_message e) false |})
  /\ (forall r,
        fetch env gateway_url (forwarded_init env req) = inr r ->
        ok r = true -> json_body r = inl e ->
        snd (serve env req)
        = {| res_status := 500;
             res_headers := jsonHeaders;
             res_body := Failure (error_message e) false |})
  /\ (forall r,
        fetch env gateway_url (forwarded_init env req) = inr r ->
        ok r = false -> status r <> 429 -> status r <> 402 ->
        text_body r = inl e ->
        snd (serve env req)
        = {| res_status := 500;
             res_headers := jsonHeaders;
             res_body := Failure (error_message e) false |})
  /\ fetch_count (fst (serve env req)) = 1%nat.
Proof.
  intros Hs Hf. pose proof (forwards_method _ _ Hf) as Hm.
  destruct (revision_snd _ env req Hs Hm) as [Hfail _].
  change {| res_status := 500;
            res_headers := jsonHeaders;
            res_body := Failure (error_message e) false |}
    with (catch_response e).
  assert (Hanswered : forall r,
             fetch env gateway_url (forwarded_init env req) = inr r ->
             snd (call_gateway env req) = snd (check_status r)).
  { intros r Hr. apply call_gateway_answered. unfold provider_response.
    rewrite Hf, Hr. reflexivity. }
  repeat split.
  - intros Hr. apply Hfail. rewrite (call_gateway_forwarded _ _ Hf). run.
    unfold do_fetch. run. rewrite Hr. reflexivity.
  - intros r Hr Hok Hd. apply Hfail. rewrite (Hanswered _ Hr).
    unfold check_status. rewrite Hok. cbn [negb]. run. rewrite Hd. reflexivity.
  - intros r Hr Hok H429 H402 Ht. apply Hfail. rewrite (Hanswered _ Hr).
    unfold check_status. rewrite Hok. cbn [negb].
    destruct (Z.eqb_spec (status r) 429); [contradiction |].
    destruct (Z.eqb_spec (status r) 402); [contradiction |].
    run. rewrite Ht. reflexivity.
  - unfold fetch_count. rewrite (revisions_sent _ _ _ Hs), Hf. reflexivity.
Qed.

Lemma X6_witness :
  snd (FourPath.serve env_offline a_red_circle)
  = {| res_status := 500;
       res_headers := jsonHeaders;
       res_body := Failure (Str "network unreachable") false |}
  /\ fetch_count (fst (FourPath.serve env_offline a_red_circle)) = 1%nat.
Proof.
  pose proof (X6_provider_side_errors FourPath.serve env_offline a_red_circle
                (Error "network unreachable") (or_introl eq_refl) eq_refl)
    as [Hrejected [_ [_ Hone]]].
  split; [exact (Hrejected eq_refl) | exact Hone].
Defined.

(** ** What the matcher accepts *)

Lemma more_inv cls k :
  forall s m, Regex.more cls k s = Some m ->
  exists body rest m',
    s = body ++ rest /\ all_chars cls body = true
    /\ k rest = Some m' /\ m = body ++ m'.
Proof.
  induction s as [| c s IH]; simpl; intros m H.
  - exists "", "", m. auto.
  - destruct (cls c) eqn:Hc.
    + destruct (Regex.more cls k s) as [m1 |] eqn:Hm.
      * injection H as <-.
        destruct (IH _ eq_refl) as [body [rest [m' [-> [Hb [Hk ->]]]]]].
        exists (String c body), rest, m'. simpl. rewrite Hc, Hb. auto.
      * exists "", (String c s), m. auto.
    + exists "", (String c s), m. auto.
Qed.

Lemma more_total cls s : Regex.more cls (Regex.match_here []) s <> None.
Proof.
  change (Regex.match_here []) with (fun _ : string => Some "").
  destruct s as [| c s]; simpl; [discriminate |].
  destruct (cls c); [| discriminate].
  destruct (Regex.more cls (fun _ : string => Some "") s); discriminate.
Qed.

Lemma more_last cls :
  forall s m, Regex.more cls (Regex.match_here []) s = Some m ->
  exists rest,
    s = m ++ rest /\ all_chars cls m = true /\ starts_in cls rest = false.
Proof.
  induction s as [| c s IH]; intros m H.
  - injection H as <-. exists "". auto.
  - cbn [Regex.more] in H. destruct (cls c) eqn:Hc.
    + destruct (Regex.more cls (Regex.match_here []) s) as [m1 |] eqn:Hm.
      * injection H as <-. destruct (IH _ eq_refl) as [rest [-> [Hb Hr]]].
        exists rest. simpl. rewrite Hc, Hb. auto.
      * destruct (more_total _ _ Hm).
    + injection H as <-. exists (String c s). simpl. auto.
Qed.

Lemma match_here_literal_inv l p :
  forall s m, Regex.match_here (Regex.literal l ++ p)%list s = Some m ->
  exists s' m', s = l ++ s' /\ m = l ++ m' /\ Regex.match_here p s' = Some m'.
Proof.
  induction l as [| c l IH]; simpl; intros s m H.
  - exists s, m. auto.
  - destruct s as [| c' s]; [discriminate |].
    destruct (Ascii.eqb c c') eqn:Hc; [| discriminate].
    apply Ascii.eqb_eq in Hc. subst c'.
    destruct (Regex.match_here (Regex.literal l ++ p)%list s) as [m1 |] eqn:Hm;
      [| discriminate].
    injection H as <-. destruct (IH _ _ Hm) as [s' [m' [-> [-> Hp]]]].
    exists s', m'. auto.
Qed.

Lemma all_chars_app cls a b :
  all_chars cls (a ++ b) = all_chars cls a && all_chars cls b.
Proof.
  induction a as [| c a IH]; simpl; [reflexivity |].
  rewrite IH, andb_assoc. reflexivity.
Qed.

(** A match at the start of a string is a text
    [data:image/<subtype>;base64,<payload>] and takes every payload
    character that follows. *)
Lemma match_here_data_uri_inv s m :
  Regex.match_here Regex.data_uri s = Some m ->
  exists subtype payload rest,
    s = m ++ rest /\ m = data_uri_text subtype payload
    /\ subtype <> "" /\ all_chars Regex.not_semicolon subtype = true
    /\ payload <> "" /\ all_chars Regex.base64_char payload = true
    /\ starts_in Regex.base64_char rest = false.
Proof.
  unfold Regex.data_uri. intros H.
  apply match_here_literal_inv in H as [s1 [m1 [-> [-> H]]]].
  change ([Regex.Plus Regex.not_semicolon] ++ Regex.literal ";base64,"
          ++ [Regex.Plus Regex.base64_char])%list
    with (Regex.Plus Regex.not_semicolon
          :: (Regex.literal ";base64," ++ [Regex.Plus Regex.base64_char])%list)
    in H.
  cbn [Regex.match_here] in H.
  destruct s1 as [| c s1]; [discriminate |].
  destruct (Regex.not_semicolon c) eqn:Hc; [| discriminate].
  destruct (Regex.more Regex.not_semicolon _ s1) as [m2 |] eqn:Hm;
    [| discriminate].
  injection H as <-.
  apply more_inv in Hm as [body [rest1 [m3 [-> [Hb [Hk ->]]]]]].
  apply match_here_literal_inv in Hk as [s2 [m4 [-> [-> Hk]]]].
  cbn [Regex.match_here] in Hk.
  destruct s2 as [| d s2]; [discriminate |].
  destruct (Regex.base64_char d) eqn:Hd; [| discriminate].
  destruct (Regex.more Regex.base64_char _ s2) as [m5 |] eqn:Hm5;
    [| discriminate].
  injection Hk as <-.
  apply more_last in Hm5 as [rest [-> [Hb5 Hr]]].
  exists (String c body), (String d m5), rest.
  unfold data_uri_text. simpl. rewrite Hc, Hb, Hd, Hb5.
  repeat split; try discriminate; try assumption.
  rewrite !append_assoc. simpl. rewrite ?append_assoc. reflexivity.
Qed.

(** X7.  Whatever the search of path 4 returns is a text
    [data:image/<subtype>;base64,<payload>] with a non-empty subtype free
    of [;] and a non-empty payload of base64 characters; it occurs in the
    content string and is not followed there by another payload
    character. *)
Theorem X7_every_match_is_a_data_uri s m :
  Regex.search Regex.data_uri s = Some m ->
  exists subtype payload before after,
    s = before ++ m ++ after
    /\ m = data_uri_text subtype payload
    /\ subtype <> "" /\ all_chars Regex.not_semicolon subtype = true
    /\ payload <> "" /\ all_chars Regex.base64_char payload = true
    /\ starts_in Regex.base64_char after = false.
Proof.
  revert m. induction s as [| c s IH]; intros m; rewrite search_eq.
  - simpl. discriminate.
  - destruct (Regex.match_here Regex.data_uri (String c s)) as [m' |] eqn:Hm.
    + intros H. injection H as <-.
      destruct (match_here_data_uri_inv _ _ Hm)
        as [subtype [payload [rest [Hs H]]]].
      exists subtype, payload, "", rest. split; [exact Hs | exact H].
    + intros H.
      destruct (IH _ H) as [subtype [payload [before [after [-> H']]]]].
      exists subtype, payload, (String c before), after.
      split; [reflexivity | exact H'].
Qed.

Lemma X7_witness :
  exists subtype payload before after,
    "![x](data:image/png;base64,iVBOR/w0+KGgo=) done"
    = before ++ "data:image/png;base64,iVBOR/w0+KGgo=" ++ after
    /\ "data:image/png;base64,iVBOR/w0+KGgo=" = data_uri_text subtype payload
    /\ subtype <> "" /\ all_chars Regex.not_semicolon subtype = true
    /\ payload <> "" /\ all_chars Regex.base64_char payload = true
    /\ starts_in Regex.base64_char after = false.
Proof.
  exact (X7_every_match_is_a_data_uri
           "![x](data:image/png;base64,iVBOR/w0+KGgo=) done"
           "data:image/png;base64,iVBOR/w0+KGgo=" eq_refl).
Defined.

Lemma payload_run cls :
  forall s, exists run rest,
    s = run ++ rest /\ all_chars cls run = true /\ starts_in cls rest = false.
Proof.
  induction s as [| c s [run [rest [-> [Hr Hs]]]]].
  - exists "", "". auto.
  - destruct (cls c) eqn:Hc.
    + exists (String c run), rest. simpl. rewrite Hc, Hr. auto.
    + exists "", (String c (run ++ rest)). simpl. auto.
Qed.

Lemma search_finds p s m :
  Regex.match_here p s = Some m ->
  forall before, exists m', Regex.search p (before ++ s) = Some m'.
Proof.
  intros Hm. induction before as [| c before [m' IH]].
  - exists m. simpl. rewrite search_eq, Hm. reflexivity.
  - change (String c before ++ s) with (String c (before ++ s)).
    rewrite search_eq.
    destruct (Regex.match_here p (String c (before ++ s))) as [m1 |];
      [exists m1; reflexivity | exists m'; exact IH].
Qed.

(** X8.  When strategies 1 to 3 find nothing and the content string holds,
    anywhere, a text [data:image/<subtype>;base64,<payload>] (a non-empty
    subtype without [;], a non-empty payload of base64 characters), path 4
    finds a match and the four-path handler answers with status 200, the
    match as [imageUrl] and the content as [textContent]: such a content
    is never answered with the no-image failure. *)
Theorem X8_a_data_uri_in_the_content_is_found
  env req r data before subtype payload after :
  provider_response env req = Some r ->
  ok r = true ->
  json_body r = inr data ->
  Spec.first_nonempty
    [Spec.strategy1; Spec.strategy2; Spec.strategy3] data = None ->
  Spec.content data
  = VStr (before ++ data_uri_text subtype payload ++ after) ->
  subtype <> "" -> all_chars Regex.not_semicolon subtype = true ->
  payload <> "" -> all_chars Regex.base64_char payload = true ->
  exists m,
    Regex.search Regex.data_uri
      (before ++ data_uri_text subtype payload ++ after) = Some m
    /\ snd (FourPath.serve env req)
       = {| res_status := 200;
            res_headers := jsonHeaders;
            res_body :=
              Success (VStr m)
                (VStr (before ++ data_uri_text subtype payload ++ after))
                true |}.
Proof.
  intros H Hok Hd H123 Hc Hs Hsc Hp Hpc.
  pose proof (readable_string_content _ _ Hc) as Hr.
  pose proof (readable_not_nullish _ Hr) as Hn.
  destruct (payload_run Regex.base64_char after) as [run [rest [-> [Hrun Hrest]]]].
  assert (Hm : Regex.match_here Regex.data_uri
                 (data_uri_text subtype payload ++ run ++ rest)
               = Some (data_uri_text subtype (payload ++ run))).
  { replace (data_uri_text subtype payload ++ run ++ rest)
      with (data_uri_text subtype (payload ++ run) ++ rest).
    - apply match_here_data_uri; try assumption.
      + destruct payload; [contradiction | discriminate].
      + rewrite all_chars_app, Hpc, Hrun. reflexivity.
    - unfold data_uri_text. rewrite !append_assoc. reflexivity. }
  destruct (search_finds _ _ _ Hm before) as [m Hsearch].
  exists m. split; [exact Hsearch |].
  rewrite (four_path_returns_policy _ _ _ _ (VStr m) H Hok Hd).
  - rewrite (content_value_spec _ Hn), Hc. reflexivity.
  - rewrite policy_falls_to_strategy4
      by (rewrite (policy_spec_123 _ Hr), H123; reflexivity).
    rewrite (strategy4_spec _ Hn). unfold Spec.strategy4.
    rewrite Hc, Hsearch.
    pose proof (search_data_uri_nonempty _ _ Hsearch) as Hne.
    cbn [bind_result truthy].
    destruct (String.eqb_spec m ""); [contradiction | reflexivity].
Qed.

Lemma X8_witness :
  exists m,
    Regex.search Regex.data_uri ("see data:image/png;base64,AAAA" ++ "BBB=")
    = Some m
    /\ snd (FourPath.serve
              (env_answering 200 ""
                 (one_message
                    [("content", VStr "see data:image/png;base64,AAAABBB=")]))
              a_red_circle)
       = {| res_status := 200;
            res_headers := jsonHeaders;
            res_body :=
              Success (VStr m) (VStr "see data:image/png;base64,AAAABBB=")
                true |}.
Proof.
  apply (X8_a_data_uri_in_the_content_is_found
           (env_answering 200 ""
              (one_message
                 [("content", VStr "see data:image/png;base64,AAAABBB=")]))
           a_red_circle
           (answer 200 ""
              (one_message
                 [("content", VStr "see data:image/png;base64,AAAABBB=")]))
           (one_message [("content", VStr "see data:image/png;base64,AAAABBB=")])
           "see " "png" "AAAA" "BBB=");
    first [reflexivity | discriminate].
Defined.

(** ** Paths 2 and 3 *)

Lemma find_first_tagged skipped entry rest :
  forallb passed_over skipped = true ->
  Spec.tagged_as_image entry = true ->
  find Policy.tagged (skipped ++ entry :: rest) = inr entry.
Proof.
  intros Hs He.
  assert (Hn : nullish entry = false).
  { destruct entry; first [discriminate | reflexivity]. }
  induction skipped as [| c skipped IH]; simpl in *.
  - rewrite (tagged_spec _ Hn), He. reflexivity.
  - apply andb_true_iff in Hs as [Hc Hs]. unfold passed_over in Hc.
    apply andb_true_iff in Hc as [Hcn Hct].
    apply negb_true_iff in Hcn. apply negb_true_iff in Hct.
    rewrite (tagged_spec _ Hcn), Hct. apply IH, Hs.
Qed.

Lemma policy_after_two data :
  Policy.first_nonempty [Policy.strategy1; Policy.strategy2] data = inr None ->
  Policy.first_nonempty Policy.strategies data
  = Policy.first_nonempty [Policy.strategy3; Policy.strategy4] data.
Proof.
  unfold Policy.strategies. cbn [Policy.first_nonempty].
  destruct (Policy.strategy1 data) as [e | v1]; cbn [bind_result]; [discriminate |].
  destruct (truthy v1); [discriminate |].
  destruct (Policy.strategy2 data) as [e | v2]; cbn [bind_result]; [discriminate |].
  destruct (truthy v2); [discriminate | reflexivity].
Qed.

(** X9.  Path 3 of the four-path handler reads the first entry of the
    content list that is tagged as an image ([type] is [image_url] or
    [image]) and no other: when strategies 1 and 2 find nothing and the
    entries before it are neither null nor undefined, the answer has
    status 200 and holds the entry's [image_url.url] when that is
    non-empty, else its [url] when that is non-empty, with the empty string
    as [textContent]; when the first tagged entry has neither, the answer
    is the no-image failure with status 500, even if a later entry holds an
    image. *)
Theorem X9_content_list_first_tagged_entry
  env req r data skipped entry rest :
  provider_response env req = Some r ->
  ok r = true ->
  json_body r = inr data ->
  truthy (Spec.strategy1 data) = false ->
  truthy (Spec.strategy2 data) = false ->
  Spec.content data = VArr (skipped ++ entry :: rest) ->
  forallb passed_over skipped = true ->
  Spec.tagged_as_image entry = true ->
  snd (FourPath.serve env req)
  = if truthy (opt "url" (opt "image_url" entry))
    then {| res_status := 200;
            res_headers := jsonHeaders;
            res_body :=
              Success (opt "url" (opt "image_url" entry)) (VStr "") true |}
    else if truthy (opt "url" entry)
         then {| res_status := 200;
                 res_headers := jsonHeaders;
                 res_body := Success (opt "url" entry) (VStr "") true |}
         else {| res_status := 500;
                 res_headers := jsonHeaders;
                 res_body :=
                   Failure
                     (Str "No image was generated. The AI model might be experiencing issues.")
                     false |}.
Proof.
  intros H Hok Hd H1 H2 Hc Hs He.
  assert (Hn : nullish data = false).
  { apply spec_content_not_nullish. rewrite Hc. reflexivity. }
  assert (H12 : Policy.first_nonempty [Policy.strategy1; Policy.strategy2] data
                = inr None).
  { cbn [Policy.first_nonempty].
    rewrite (strategy1_spec _ Hn), (strategy2_spec _ Hn).
    cbn [bind_result]. rewrite H1, H2. reflexivity. }
  assert (H3 : Policy.strategy3 data
               = inr (if truthy (opt "url" (opt "image_url" entry))
                      then opt "url" (opt "image_url" entry)
                      else opt "url" entry)).
  { unfold Policy.strategy3. rewrite (content_of_spec _ Hn), Hc.
    cbn [bind_result].
    rewrite (find_first_tagged _ _ _ Hs He). reflexivity. }
  assert (H4 : Policy.strategy4 data = inr VUndefined).
  { rewrite (strategy4_spec _ Hn). unfold Spec.strategy4. rewrite Hc.
    reflexivity. }
  pose proof (policy_after_two _ H12) as Hp.
  cbn [Policy.first_nonempty] in Hp. rewrite H3, H4 in Hp.
  cbn [bind_result truthy] in Hp.
  destruct (truthy (opt "url" (opt "image_url" entry))) eqn:Ha.
  - rewrite Ha in Hp.
    rewrite (four_path_returns_policy _ _ _ _ _ H Hok Hd Hp).
    rewrite (content_value_spec _ Hn), Hc. reflexivity.
  - destruct (truthy (opt "url" entry)) eqn:Hb.
    + rewrite (four_path_returns_policy _ _ _ _ _ H Hok Hd Hp).
      rewrite (content_value_spec _ Hn), Hc. reflexivity.
    + apply (four_path_returns_no_image _ _ _ _ H Hok Hd Hp).
Qed.

Lemma X9_witness :
  snd (FourPath.serve (env_answering 200 "" data_listed_entry) a_red_circle)
  = {| res_status := 200;
       res_headers := jsonHeaders;
       res_body := Success (VStr "https://x/a.png") (VStr "") true |}
  /\ snd (FourPath.serve (env_answering 200 "" data_direct_entry) a_red_circle)
     = {| res_status := 200;
          res_headers := jsonHeaders;
          res_body := Success (VStr "https://x/b.png") (VStr "") true |}
  /\ snd (FourPath.serve (env_answering 200 "" data_hidden_entry) a_red_circle)
     = {| res_status := 500;
          res_headers := jsonHeaders;
          res_body :=
            Failure
              (Str "No image was generated. The AI model might be experiencing issues.")
              false |}.
Proof.
  split; [| split].
  - exact (X9_content_list_first_tagged_entry
             (env_answering 200 "" data_listed_entry) a_red_circle
             (answer 200 "" data_listed_entry) data_listed_entry
             [text_entry (VStr "done")] (image_entry (VStr "https://x/a.png"))
             []
             eq_refl eq_refl eq_refl eq_refl eq_refl eq_refl eq_refl eq_refl).
  - exact (X9_content_list_first_tagged_entry
             (env_answering 200 "" data_direct_entry) a_red_circle
             (answer 200 "" data_direct_entry) data_direct_entry
             [text_entry (VStr "done")]
             (VObj [("type", VStr "image"); ("url", VStr "https://x/b.png")])
             []
             eq_refl eq_refl eq_refl eq_refl eq_refl eq_refl eq_refl eq_refl).
  - exact (X9_content_list_first_tagged_entry
             (env_answering 200 "" data_hidden_entry) a_red_circle
             (answer 200 "" data_hidden_entry) data_hidden_entry
             [text_entry (VStr "done")] (VObj [("type", VStr "image")])
             [image_entry (VStr "https://x/late.png")]
             eq_refl eq_refl eq_refl eq_refl eq_refl eq_refl eq_refl eq_refl).
Defined.

(** X10.  When the image list yields nothing and the message holds a direct
    [image_url.url] that is non-empty, the four-path handler answers with
    status 200 and that reference as [imageUrl], whatever the content
    holds: path 2 precedes the content list and the content string.  The
    [textContent] is the content when it is a string and the empty string
    otherwise. *)
Theorem X10_direct_image_reference env req r data :
  provider_response env req = Some r ->
  ok r = true ->
  json_body r = inr data ->
  truthy (Spec.strategy1 data) = false ->
  truthy (Spec.strategy2 data) = true ->
  snd (FourPath.serve env req)
  = {| res_status := 200;
       res_headers := jsonHeaders;
       res_body :=
         Success (Spec.strategy2 data) (string_content (Spec.content data))
           true |}.
Proof.
  intros H Hok Hd H1 H2.
  assert (Hn : nullish data = false).
  { destruct data; first [discriminate | reflexivity]. }
  rewrite (four_path_returns_policy _ _ _ _ (Spec.strategy2 data) H Hok Hd).
  - rewrite (content_value_spec _ Hn). reflexivity.
  - unfold Policy.strategies. cbn [Policy.first_nonempty].
    rewrite (strategy1_spec _ Hn), (strategy2_spec _ Hn).
    cbn [bind_result]. rewrite H1, H2. reflexivity.
Qed.

Lemma X10_witness :
  snd (FourPath.serve
         (env_answering 200 ""
            (one_message
               [ ("image_url", VObj [("url", VStr "https://x/direct.png")]);
                 ("content", VArr [image_entry (VStr "https://x/listed.png")]) ]))
         a_red_circle)
  = {| res_status := 200;
       res_headers := jsonHeaders;
       res_body := Success (VStr "https://x/direct.png") (VStr "") true |}.
Proof.
  exact (X10_direct_image_reference
           (env_answering 200 ""
              (one_message
                 [ ("image_url", VObj [("url", VStr "https://x/direct.png")]);
                   ("content", VArr [image_entry (VStr "https://x/listed.png")]) ]))
           a_red_circle
           (answer 200 ""
              (one_message
                 [ ("image_url", VObj [("url", VStr "https://x/direct.png")]);
                   ("content", VArr [image_entry (VStr "https://x/listed.png")]) ]))
           (one_message
              [ ("image_url", VObj [("url", VStr "https://x/direct.png")]);
                ("content", VArr [image_entry (VStr "https://x/listed.png")]) ])
           eq_refl eq_refl eq_refl eq_refl eq_refl).
Defined.

(** X11.  The four-path revision extends the handler of [index.ts]:
    whenever the latter answers with a success, the former answers with a
    success that holds the same [imageUrl].  The two [textContent] are the
    content under [|| ""] and the content when it is a string; the whole
    responses are equal exactly when the content is a string or falsy. *)
Theorem X11_four_path_extends_index_ts env req r data imageUrl textContent :
  provider_response env req = Some r ->
  ok r = true ->
  json_body r = inr data ->
  snd (IndexTs.serve env req) = success_response imageUrl textContent ->
  textContent = IndexTs.or_empty (content_value data)
  /\ snd (FourPath.serve env req)
     = success_response imageUrl (string_content (content_value data))
  /\ (snd (FourPath.serve env req) = snd (IndexTs.serve env req)
      <-> is_string (content_value data) || negb (truthy (content_value data))
          = true).
Proof.
  intros H Hok Hd Hi.
  assert (Hfacts : images_url data = inr imageUrl /\ truthy imageUrl = true
                   /\ textContent = IndexTs.or_empty (content_value data)).
  { revert Hi.
    rewrite (index_ts_answered _ _ _ _ H Hok Hd), index_ts_respond_snd.
    unfold content_value.
    destruct (images_url data) as [e | u]; cbn [bind_result settle];
      [discriminate |].
    destruct (content_of data) as [e | c]; cbn [bind_result settle];
      [discriminate |].
    destruct (truthy u) eqn:Hu; cbn [settle]; [| discriminate].
    unfold success_response. intros Heq. injection Heq as -> ->. auto. }
  destruct Hfacts as [Hu [Ht ->]].
  assert (Hfour : snd (FourPath.serve env req)
                  = success_response imageUrl
                      (string_content (content_value data))).
  { apply (four_path_returns_policy _ _ _ _ _ H Hok Hd).
    unfold Policy.strategies, Policy.strategy1. cbn [Policy.first_nonempty].
    rewrite Hu. cbn [bind_result]. rewrite Ht. reflexivity. }
  split; [reflexivity |]. split; [exact Hfour |].
  rewrite Hfour, Hi. unfold success_response, IndexTs.or_empty.
  destruct (content_value data) as [| | [|] | n | s | items | fields];
    cbn [string_content truthy is_string negb orb];
    try (split; intros X; first [reflexivity | discriminate X]).
  - destruct (n =? 0); cbn [negb];
      split; intros X; first [reflexivity | discriminate X].
  - destruct (String.eqb_spec s "") as [-> | Hs]; cbn [negb];
      split; intros X; reflexivity.
Qed.

Lemma X11_witness :
  snd (FourPath.serve (env_answering 200 "" data_list_and_uri) a_red_circle)
  = snd (IndexTs.serve (env_answering 200 "" data_list_and_uri) a_red_circle).
Proof.
  apply (proj2 (proj2 (X11_four_path_extends_index_ts
                         (env_answering 200 "" data_list_and_uri) a_red_circle
                         (answer 200 "" data_list_and_uri) data_list_and_uri
                         (VStr "https://x/img.png")
                         (VStr "Here it is: data:image/png;base64,AAAA.")
                         eq_refl eq_refl eq_refl eq_refl))).
  reflexivity.
Defined.

(** ** What is written to [console.error] *)

Lemma console_errors_app t t' :
  console_errors (t ++ t') = (console_errors t ++ console_errors t')%list.
Proof.
  induction t as [| [args | args | url init] t IH]; simpl;
    [reflexivity | exact IH | rewrite IH; reflexivity | exact IH].
Qed.

Lemma console_errors_bind {A B} (m : M A) (f : A -> M B) :
  console_errors (fst (bind m f))
  = (console_errors (fst m)
     ++ match snd m with
        | inr a => console_errors (fst (f a))
        | inl _ => []
        end)%list.
Proof.
  destruct m as [t [e | a]]; simpl.
  - rewrite app_nil_r. reflexivity.
  - destruct (f a) as [t' r']. simpl. apply console_errors_app.
Qed.

(** A computation that writes to [console.error] only when it throws. *)
Lemma silent_bind {A B} (m : M A) (f : A -> M B) :
  (forall a, snd m = inr a -> console_errors (fst m) = []) ->
  (forall a b, snd m = inr a -> snd (f a) = inr b ->
               console_errors (fst (f a)) = []) ->
  forall b, snd (bind m f) = inr b -> console_errors (fst (bind m f)) = [].
Proof.
  intros Hm Hf b. rewrite snd_bind, console_errors_bind.
  destruct (snd m) as [e | a]; cbn [bind_result]; [discriminate |].
  intros Hb. rewrite (Hm a eq_refl), (Hf a b eq_refl Hb). reflexivity.
Qed.

Lemma silent_always {A} (m : M A) :
  console_errors (fst m) = [] ->
  forall a, snd m = inr a -> console_errors (fst m) = [].
Proof. auto. Qed.

Lemma calm_bind {A B} (m : M A) (f : A -> M B) :
  console_errors (fst m) = [] ->
  (forall a, console_errors (fst (f a)) = []) ->
  console_errors (fst (bind m f)) = [].
Proof.
  intros Hm Hf. rewrite console_errors_bind, Hm.
  destruct (snd m); [reflexivity | apply Hf].
Qed.

Ltac calm_steps :=
  repeat first
    [ reflexivity
    | apply calm_bind; [| intros ?]
    | match goal with
      | |- console_errors (fst (if ?b then _ else _)) = [] => destruct b
      | |- console_errors (fst (match ?x with _ => _ end)) = [] => destruct x
      end ].

Lemma calm_find_image data : console_errors (fst (FourPath.find_image data)) = [].
Proof.
  unfold FourPath.find_image, FourPath.path1, FourPath.path2, FourPath.path3,
    FourPath.path4.
  calm_steps.
Qed.

Lemma calm_text_content data :
  console_errors (fst (FourPath.text_content data)) = [].
Proof. unfold FourPath.text_content. calm_steps. Qed.

Lemma snd_then_throw {A B} (m : M A) (e : exn) :
  exists e', snd (bind m (fun _ => @throw B e)) = inl e'.
Proof. destruct m as [t [e' | a]]; simpl; eauto. Qed.

Lemma report_no_image_throws data :
  exists e, snd (FourPath.report_no_image data) = inl e.
Proof.
  unfold FourPath.report_no_image.
  rewrite snd_bind. cbn [console_error emit snd bind_result].
  rewrite snd_bind.
  destruct (snd (lift (dot "choices" data))) as [e | choices];
    cbn [bind_result]; [eauto |].
  rewrite snd_bind.
  match goal with
  | |- exists e, bind_result ?X _ = _ => destruct X as [e | []]
  end; cbn [bind_result]; [eauto |].
  rewrite snd_bind.
  destruct (snd (lift (message_of data))) as [e | message];
    cbn [bind_result]; [eauto |].
  apply snd_then_throw.
Qed.

Lemma silent_four_path_respond data resp :
  snd (FourPath.respond data) = inr resp ->
  console_errors (fst (FourPath.respond data)) = [].
Proof.
  unfold FourPath.respond. apply silent_bind; [reflexivity |].
  intros _ resp1 _. apply silent_bind.
  { intros ? _. apply calm_find_image. }
  intros imageUrl resp2 _. apply silent_bind.
  { intros ? _. apply calm_text_content. }
  intros textContent resp3 _.
  destruct (negb (truthy imageUrl)).
  - destruct (report_no_image_throws data) as [e ->]. discriminate.
  - intros _. reflexivity.
Qed.

Lemma silent_index_ts_respond data :
  console_errors (fst (IndexTs.respond data)) = [].
Proof. unfold IndexTs.respond. calm_steps. Qed.

Lemma silent_check_status r x :
  snd (check_status r) = inr x -> console_errors (fst (check_status r)) = [].
Proof.
  unfold check_status.
  destruct (negb (ok r)).
  - destruct (status r =? 429); [reflexivity |].
    destruct (status r =? 402); [reflexivity |].
    destruct (text_body r) as [e | body]; [discriminate |].
    discriminate.
  - intros _. calm_steps.
Qed.

Lemma silent_call_gateway env req x :
  (method req =? "OPTIONS")%string = false ->
  snd (call_gateway env req) = inr x ->
  console_errors (fst (call_gateway env req)) = [].
Proof.
  intros Hm. destruct (forwards env req) eqn:Hf.
  - rewrite (call_gateway_forwarded _ _ Hf).
    apply silent_bind; [reflexivity |]. intros _ x1 _.
    apply silent_bind; [reflexivity |]. intros _ x2 _.
    apply silent_bind; [intros ? _; unfold do_fetch; calm_steps |].
    intros r x3 _. apply silent_check_status.
  - destruct (call_gateway_refused _ _ Hf Hm) as [e ->]. discriminate.
Qed.

Lemma early_status env req early :
  (method req =? "OPTIONS")%string = false ->
  snd (call_gateway env req) = inr (inl early) ->
  early = rate_limit_response \/ early = payment_response.
Proof.
  intros Hm He.
  destruct (call_gateway_outcomes env req Hm)
    as [[e H] | [H | [H | [r [data [_ [_ [_ H]]]]]]]];
    rewrite H in He; try discriminate; injection He as <-; auto.
Qed.

(** X12.  Every answer with status 500 is reported: the last
    [console.error] of the run holds the error that was caught, and the
    body holds that error's message.  The answers with another status (the
    success, the preflight answer, and the rate-limit and payment failures)
    leave nothing on [console.error]. *)
Theorem X12_console_error_iff_status_500 serve env req :
  In serve revisions ->
  (res_status (snd (serve env req)) <> 500 ->
   console_errors (fst (serve env req)) = [])
  /\ (res_status (snd (serve env req)) = 500 ->
      exists earlier e,
        console_errors (fst (serve env req))
        = (earlier ++ [[LStr "Error in generate-image function:"; LExn e]])%list
        /\ res_body (snd (serve env req)) = Failure (error_message e) false).
Proof.
  intros Hs.
  assert (Hbody : exists body : M Response,
             serve env req = with_catch req body
             /\ ((method req =? "OPTIONS")%string = false ->
                 forall resp, snd body = inr resp ->
                 console_errors (fst body) = [] /\ res_status resp <> 500)).
  { destruct Hs as [<- | [<- | []]].
    - exists (FourPath.try_body env req). split; [reflexivity |].
      intros Hm resp. unfold FourPath.try_body. intros Hr. split.
      + revert resp Hr. apply silent_bind.
        * intros x. apply (silent_call_gateway _ _ _ Hm).
        * intros [early | data] b _; [reflexivity |].
          apply silent_four_path_respond.
      + rewrite snd_bind in Hr.
        destruct (snd (call_gateway env req)) as [e | [early | data]] eqn:Hc;
          cbn [bind_result] in Hr; [discriminate | |].
        * injection Hr as <-.
          destruct (early_status _ _ _ Hm Hc) as [-> | ->]; discriminate.
        * rewrite respond_snd in Hr.
          destruct (Policy.first_nonempty Policy.strategies data)
            as [e | [v |]]; cbn [bind_result] in Hr; try discriminate;
            destruct (content_of data); cbn [bind_result] in Hr;
            try discriminate.
          destruct (truthy v); [| discriminate].
          injection Hr as <-. discriminate.
    - exists (IndexTs.try_body env req). split; [reflexivity |].
      intros Hm resp. unfold IndexTs.try_body. intros Hr. split.
      + revert resp Hr. apply silent_bind.
        * intros x. apply (silent_call_gateway _ _ _ Hm).
        * intros [early | data] b _ _; [reflexivity |].
          apply silent_index_ts_respond.
      + rewrite snd_bind in Hr.
        destruct (snd (call_gateway env req)) as [e | [early | data]] eqn:Hc;
          cbn [bind_result] in Hr; [discriminate | |].
        * injection Hr as <-.
          destruct (early_status _ _ _ Hm Hc) as [-> | ->]; discriminate.
        * rewrite index_ts_respond_snd in Hr.
          destruct (images_url data); cbn [bind_result] in Hr;
            try discriminate.
          destruct (content_of data); cbn [bind_result] in Hr;
            try discriminate.
          destruct (truthy v); [| discriminate].
          injection Hr as <-. discriminate. }
  destruct Hbody as [body [-> Hok]]. unfold with_catch.
  destruct (method req =? "OPTIONS")%string.
  { split; [reflexivity | discriminate]. }
  specialize (Hok eq_refl).
  destruct body as [t [e | resp]]; cbn [fst snd] in *.
  - split; [intros Hne; exfalso; apply Hne; reflexivity |].
    intros _. exists (console_errors t), e.
    rewrite console_errors_app. split; reflexivity.
  - destruct (Hok resp eq_refl) as [Hsilent Hstatus].
    split; [intros _; exact Hsilent | intros H500; contradiction].
Qed.

Lemma X12_witness :
  console_errors
    (fst (FourPath.serve (env_answering 429 "slow down" VNull) a_red_circle))
  = []
  /\ exists earlier e,
       console_errors
         (fst (FourPath.serve (env_answering 200 "" data_text_only) a_red_circle))
       = (earlier ++ [[LStr "Error in generate-image function:"; LExn e]])%list
       /\ res_body
            (snd (FourPath.serve (env_answering 200 "" data_text_only)
                    a_red_circle))
          = Failure (error_message e) false.
Proof.
  split.
  - apply (proj1 (X12_console_error_iff_status_500 FourPath.serve
                    (env_answering 429 "slow down" VNull) a_red_circle
                    (or_introl eq_refl))).
    discriminate.
  - apply (proj2 (X12_console_error_iff_status_500 FourPath.serve
                    (env_answering 200 "" data_text_only) a_red_circle
                    (or_introl eq_refl))).
    reflexivity.
Defined.

(** ** The client *)

Lemma invocations_app t t' :
  Client.invocations (t ++ t')
  = (Client.invocations t ++ Client.invocations t')%list.
Proof.
  induction t as [| ev t IH]; simpl; [reflexivity |].
  destruct ev; simpl; rewrite ?IH; reflexivity.
Qed.

Lemma insertions_app t t' :
  Client.insertions (t ++ t')
  = (Client.insertions t ++ Client.insertions t')%list.
Proof.
  induction t as [| ev t IH]; simpl; [reflexivity |].
  destruct ev; simpl; rewrite ?IH; reflexivity.
Qed.

(** Case analysis on every outcome the client's run depends on. *)
Ltac client_cases :=
  repeat match goal with
         | |- context [match ?x with _ => _ end] =>
             lazymatch x with
             | context [match _ with _ => _ end] => fail
             | _ => destruct x eqn:?
             end
         end;
  cbn.

(** X13.  [generateImage] calls the function at most once: not at all when
    the prompt is blank or nobody is signed in, and exactly once otherwise,
    with the prompt as typed (not trimmed) and, in edit mode only, the
    image being edited as [editImageBase64]. *)
Theorem X13_one_invocation w g :
  Client.invocations (fst (Client.generateImage w g))
  = if negb (Client.trim w (Client.prompt g) =? "")%string
       && truthy (Client.user g)
    then [("generate-image",
           VObj [("body",
                  VObj (("prompt", VStr (Client.prompt g))
                        :: if truthy (Client.editImage g)
                           then [("editImageBase64",
                                  field "imageUrl" (Client.editImage g))]
                           else []))])]
    else [].
Proof.
  change (VObj (("prompt", VStr (Client.prompt g))
                :: if truthy (Client.editImage g)
                   then [("editImageBase64",
                          field "imageUrl" (Client.editImage g))]
                   else []))
    with (Client.request_body g).
  unfold Client.generateImage, Client.generate_try, Client.generate_catch,
    Client.try_catch_finally, Client.message_or, Client.cbind, Client.clift,
    Client.effect_of, Client.cthrow, Client.cret, dot.
  cbn [truthy].
  destruct (Client.trim w (Client.prompt g) =? "")%string; cbn [negb andb];
    [reflexivity |].
  destruct (truthy (Client.user g)); cbn [negb]; [| reflexivity].
  client_cases; reflexivity.
Qed.

Lemma truthy_field_not_nullish name v :
  truthy (field name v) = true -> nullish v = false.
Proof. destruct v; simpl; congruence. Qed.

Ltac client_unfold :=
  unfold Client.generateImage, Client.generate_try, Client.generate_catch,
    Client.deleteImage, Client.try_catch_finally, Client.message_or,
    Client.cbind, Client.clift, Client.effect_of, Client.cthrow, Client.cret,
    dot;
  cbn [truthy].

(** X14.  [generateImage] writes to the record store only after the
    function call came back without an error and with a truthy [success];
    it then inserts one row, into [generated_images], that holds the id of
    the signed-in user, the prompt as typed and the [imageUrl] of the
    answer. *)
Theorem X14_insert_only_after_success w g table row :
  In (table, row) (Client.insertions (fst (Client.generateImage w g))) ->
  exists data error,
    Client.invoke w "generate-image" (VObj [("body", Client.request_body g)])
    = inr (data, error)
    /\ truthy error = false
    /\ truthy (field "success" data) = true
    /\ truthy (Client.user g) = true
    /\ Client.insertions (fst (Client.generateImage w g))
       = [("generated_images", Client.row_for g (field "imageUrl" data))].
Proof.
  client_unfold.
  destruct (Client.trim w (Client.prompt g) =? "")%string; cbn [negb];
    [intros [] |].
  destruct (truthy (Client.user g)) eqn:Huser; cbn [negb]; [| intros []].
  destruct (Client.invoke w "generate-image"
              (VObj [("body", Client.request_body g)]))
    as [e | [data error]] eqn:Hinvoke.
  { client_cases; intros []. }
  destruct (truthy error) eqn:Herror.
  { client_cases; intros []. }
  destruct (nullish data) eqn:Hnull; [intros [] |].
  destruct (truthy (field "success" data)) eqn:Hsuccess; cbn [negb];
    [| client_cases; intros []].
  intros _. exists data, error. repeat split; try assumption.
  client_cases; reflexivity.
Qed.

Lemma X14_witness :
  exists data error,
    Client.invoke (Client.backend_answering (Client.generated "https://x/i.png")
                     VNull VNull)
      "generate-image"
      (VObj [("body",
              Client.request_body (Client.typing "a cat" Client.signed_in VNull))])
    = inr (data, error)
    /\ truthy error = false
    /\ truthy (field "success" data) = true
    /\ truthy (Client.user (Client.typing "a cat" Client.signed_in VNull)) = true
    /\ Client.insertions
         (fst (Client.generateImage
                 (Client.backend_answering (Client.generated "https://x/i.png")
                    VNull VNull)
                 (Client.typing "a cat" Client.signed_in VNull)))
       = [("generated_images",
           Client.row_for (Client.typing "a cat" Client.signed_in VNull)
             (field "imageUrl" data))].
Proof.
  apply (X14_insert_only_after_success
           (Client.backend_answering (Client.generated "https://x/i.png")
              VNull VNull)
           (Client.typing "a cat" Client.signed_in VNull)
           "generated_images"
           (Client.row_for (Client.typing "a cat" Client.signed_in VNull)
              (VStr "https://x/i.png"))).
  simpl. left. reflexivity.
Defined.

(** X15.  Once the prompt and the user are accepted, [generateImage] raises
    the generating flag first and lowers it last, once each, whatever the
    function call and the store do, also when they reject and when the
    [catch] block itself throws; when the prompt or the user is refused the
    flag is not touched. *)
Theorem X15_generating_flag_is_balanced w g :
  Client.generating_flags (fst (Client.generateImage w g))
  = (if negb (Client.trim w (Client.prompt g) =? "")%string
        && truthy (Client.user g)
     then [true; false] else [])
  /\ (negb (Client.trim w (Client.prompt g) =? "")%string
      && truthy (Client.user g) = true ->
      hd (Client.SetIsGenerating false) (fst (Client.generateImage w g))
      = Client.SetIsGenerating true
      /\ last (fst (Client.generateImage w g)) (Client.SetIsGenerating true)
         = Client.SetIsGenerating false).
Proof.
  client_unfold.
  destruct (Client.trim w (Client.prompt g) =? "")%string; cbn [negb andb];
    [split; [reflexivity | discriminate] |].
  destruct (truthy (Client.user g)); cbn [negb];
    [| split; [reflexivity | discriminate]].
  client_cases; repeat split; reflexivity.
Qed.

Lemma X15_witness :
  last (fst (Client.generateImage
               (Client.backend_answering VNull (VStr "boom") VNull)
               (Client.typing "a cat" Client.signed_in VNull)))
       (Client.SetIsGenerating true)
  = Client.SetIsGenerating false.
Proof.
  exact (proj2 (proj2 (X15_generating_flag_is_balanced
                         (Client.backend_answering VNull (VStr "boom") VNull)
                         (Client.typing "a cat" Client.signed_in VNull))
                  eq_refl)).
Defined.

(** X16.  When the function call succeeds, an error the store reports for
    the insert is only logged: the run is the same as for a successful
    insert but for that log entry, and the user still gets the success
    toast that says the image was saved, the callback is called and the
    prompt is cleared. *)
Theorem X16_save_failure_is_silent w g data error saveError :
  negb (Client.trim w (Client.prompt g) =? "")%string = true ->
  truthy (Client.user g) = true ->
  Client.invoke w "generate-image" (VObj [("body", Client.request_body g)])
  = inr (data, error) ->
  truthy error = false ->
  truthy (field "success" data) = true ->
  Client.insert w "generated_images"
    (Client.row_for g (field "imageUrl" data)) = inr saveError ->
  Client.generateImage w g
  = ([ Client.SetIsGenerating true;
       Client.Invoke "generate-image" (VObj [("body", Client.request_body g)]);
       Client.SetGeneratedImage (field "imageUrl" data);
       Client.SetLastPrompt (Client.prompt g);
       Client.Insert "generated_images"
         (Client.row_for g (field "imageUrl" data)) ]
     ++ (if truthy saveError
         then [Client.LogError "Error saving image:" (Thrown saveError)]
         else [])
     ++ (if Client.onImageGenerated g
         then [Client.OnImageGenerated (field "imageUrl" data) (Client.prompt g)]
         else [])
     ++ [ Client.Toast "Muvaffaqiyat!"
            (Client.Shown (VStr "Rasm yaratildi va saqlandi")) false;
          Client.SetPrompt "" ]
     ++ (if Client.onClearEdit g then [Client.OnClearEdit] else [])
     ++ [Client.SetIsGenerating false],
     inr tt)%list.
Proof.
  intros Hprompt Huser Hinvoke Herror Hsuccess Hinsert.
  pose proof (truthy_field_not_nullish _ _ Hsuccess) as Hnull.
  client_unfold. fold (Client.row_for g (field "imageUrl" data)).
  rewrite Hprompt, Huser, Hinvoke, Herror, Hnull, Hsuccess. cbn [negb].
  fold (Client.row_for g (field "imageUrl" data)). rewrite Hinsert.
  destruct (truthy saveError), (Client.onImageGenerated g),
    (Client.onClearEdit g); reflexivity.
Qed.

Lemma X16_witness :
  In (Client.Toast "Muvaffaqiyat!"
        (Client.Shown (VStr "Rasm yaratildi va saqlandi")) false)
     (fst (Client.generateImage
             (Client.backend_answering (Client.generated "https://x/i.png")
                VNull (VObj [("message", VStr "row-level security")]))
             (Client.typing "a cat" Client.signed_in VNull))).
Proof.
  rewrite (X16_save_failure_is_silent
             (Client.backend_answering (Client.generated "https://x/i.png")
                VNull (VObj [("message", VStr "row-level security")]))
             (Client.typing "a cat" Client.signed_in VNull)
             (Client.generated "https://x/i.png") VNull
             (VObj [("message", VStr "row-level security")])
             eq_refl eq_refl eq_refl eq_refl eq_refl eq_refl).
  simpl. tauto.
Defined.

(** X17.  What the error toast of [generateImage] shows.  When the function
    call reports an error, its [message], or the fallback text when it has
    none.  When the call reports no error and the answer is not a success,
    the text of the thrown error: the answer's [error] when it is a
    non-empty string, the fallback text of the thrown error when [error]
    is falsy, and the string conversion of [error] when it is truthy and
    not a string; in the last case the toast shows its own fallback text
    when that conversion is the empty string.  In all cases nothing is
    inserted and the prompt is kept. *)
Theorem X17_error_toast w g data error :
  negb (Client.trim w (Client.prompt g) =? "")%string = true ->
  truthy (Client.user g) = true ->
  Client.invoke w "generate-image" (VObj [("body", Client.request_body g)])
  = inr (data, error) ->
  (truthy error = true ->
   Client.generateImage w g
   = ([ Client.SetIsGenerating true;
        Client.Invoke "generate-image" (VObj [("body", Client.request_body g)]);
        Client.LogError "Error generating image:" (Thrown error);
        Client.Toast "Xatolik"
          (Client.Shown
             (if truthy (field "message" error)
              then field "message" error
              else VStr "Rasm yaratishda xatolik yuz berdi")) true;
        Client.SetIsGenerating false ],
      inr tt))
  /\ (truthy error = false -> nullish data = false ->
      truthy (field "success" data) = false ->
      forall text,
        (field "error" data = VStr text /\ text <> ""
         \/ truthy (field "error" data) = false
            /\ text = "Rasm yaratishda xatolik") ->
        Client.generateImage w g
        = ([ Client.SetIsGenerating true;
             Client.Invoke "generate-image"
               (VObj [("body", Client.request_body g)]);
             Client.LogError "Error generating image:" (Error text);
             Client.Toast "Xatolik" (Client.Shown (VStr text)) true;
             Client.SetIsGenerating false ],
           inr tt))
  /\ (truthy error = false -> nullish data = false ->
      truthy (field "success" data) = false ->
      truthy (field "error" data) = true ->
      is_string (field "error" data) = false ->
      Client.generateImage w g
      = ([ Client.SetIsGenerating true;
           Client.Invoke "generate-image"
             (VObj [("body", Client.request_body g)]);
           Client.LogError "Error generating image:"
             (Error (Client.string_of_other w (field "error" data)));
           Client.Toast "Xatolik"
             (Client.Shown
                (VStr
                   (if (Client.string_of_other w (field "error" data) =? "")%string
                    then "Rasm yaratishda xatolik yuz berdi"
                    else Client.string_of_other w (field "error" data))))
             true;
           Client.SetIsGenerating false ],
         inr tt)).
Proof.
  intros Hprompt Huser Hinvoke. split; [| split].
  - intros Herror. pose proof (truthy_not_nullish _ Herror) as Hnull.
    client_unfold. rewrite Hprompt, Huser, Hinvoke, Herror, Hnull. reflexivity.
  - intros Herror Hnull Hsuccess text Htext.
    client_unfold. rewrite Hprompt, Huser, Hinvoke, Herror, Hnull, Hsuccess.
    cbn [negb]. unfold Client.or_else, Client.js_string.
    destruct Htext as [[-> Hne] | [-> ->]].
    + cbn [truthy]. destruct (String.eqb_spec text ""); [contradiction |].
      cbn [negb]. destruct (String.eqb_spec text ""); [contradiction |].
      reflexivity.
    + reflexivity.
  - intros Herror Hnull Hsuccess Htruthy Hstring.
    client_unfold. rewrite Hprompt, Huser, Hinvoke, Herror, Hnull, Hsuccess.
    cbn [negb]. unfold Client.or_else, Client.js_string. rewrite Htruthy.
    destruct (field "error" data) eqn:Hfield; try discriminate Hstring;
      cbn [truthy];
      destruct (Client.string_of_other w _ =? "")%string; reflexivity.
Qed.

Lemma X17_witness :
  Client.generateImage
    (Client.backend_answering
       (VObj [("error", VStr "No image was generated"); ("success", VBool false)])
       VNull VNull)
    (Client.typing "a cat" Client.signed_in VNull)
  = ([ Client.SetIsGenerating true;
       Client.Invoke "generate-image"
         (VObj [("body",
                 Client.request_body
                   (Client.typing "a cat" Client.signed_in VNull))]);
       Client.LogError "Error generating image:" (Error "No image was generated");
       Client.Toast "Xatolik" (Client.Shown (VStr "No image was generated")) true;
       Client.SetIsGenerating false ],
     inr tt)
  /\ Client.generateImage
       (Client.backend_answering
          (VObj [ ("error", VObj [("code", VNum 7)]);
                  ("success", VBool false) ])
          VNull VNull)
       (Client.typing "a cat" Client.signed_in VNull)
     = ([ Client.SetIsGenerating true;
          Client.Invoke "generate-image"
            (VObj [("body",
                    Client.request_body
                      (Client.typing "a cat" Client.signed_in VNull))]);
          Client.LogError "Error generating image:" (Error "[object Object]");
          Client.Toast "Xatolik" (Client.Shown (VStr "[object Object]")) true;
          Client.SetIsGenerating false ],
        inr tt).
Proof.
  split.
  - apply (proj1 (proj2 (X17_error_toast
                           (Client.backend_answering
                              (VObj [ ("error", VStr "No image was generated");
                                      ("success", VBool false) ])
                              VNull VNull)
                           (Client.typing "a cat" Client.signed_in VNull)
                           (VObj [ ("error", VStr "No image was generated");
                                   ("success", VBool false) ])
                           VNull eq_refl eq_refl eq_refl))
             eq_refl eq_refl eq_refl "No image was generated").
    left. split; [reflexivity | discriminate].
  - exact (proj2 (proj2 (X17_error_toast
                           (Client.backend_answering
                              (VObj [ ("error", VObj [("code", VNum 7)]);
                                      ("success", VBool false) ])
                              VNull VNull)
                           (Client.typing "a cat" Client.signed_in VNull)
                           (VObj [ ("error", VObj [("code", VNum 7)]);
                                   ("success", VBool false) ])
                           VNull eq_refl eq_refl eq_refl))
             eq_refl eq_refl eq_refl eq_refl eq_refl).
Defined.

(** X18.  The client and the handler together.  A prompt the client accepts
    (not blank) passes the handler's prompt check: with the credential
    configured, the body the client builds is forwarded to the provider,
    with the prompt as typed; in edit mode the messages carry the image
    being edited when its [imageUrl] is non-empty, and the plain prompt
    otherwise. *)
Theorem X18_accepted_prompt_is_forwarded serve w g env :
  In serve revisions ->
  Client.trim w "" = "" ->
  negb (Client.trim w (Client.prompt g) =? "")%string = true ->
  configured (LOVABLE_API_KEY env) = true ->
  forwards env (Client.as_request g) = true
  /\ sent_messages (fst (serve env (Client.as_request g)))
     = [ if truthy (Client.editImage g)
            && truthy (field "imageUrl" (Client.editImage g))
         then edit_payload (VStr (Client.prompt g))
                (field "imageUrl" (Client.editImage g))
         else plain_payload (VStr (Client.prompt g)) ].
Proof.
  intros Hs Htrim Hprompt Hkey.
  assert (Hne : (Client.prompt g =? "")%string = false).
  { destruct (String.eqb_spec (Client.prompt g) "") as [He | Hne];
      [| reflexivity].
    rewrite He, Htrim in Hprompt. discriminate. }
  assert (Hf : forwards env (Client.as_request g) = true).
  { unfold forwards, has_body, prompt_of, Client.as_request,
      Client.request_body.
    cbn. rewrite Hkey, Hne. reflexivity. }
  split; [exact Hf |].
  rewrite (revisions_sent _ _ _ Hs), Hf.
  unfold prompt_of, edit_image_of, Client.as_request, Client.request_body,
    build_messages.
  cbn.
  destruct (truthy (Client.editImage g)); cbn.
  - destruct (truthy (field "imageUrl" (Client.editImage g))); reflexivity.
  - reflexivity.
Qed.

Lemma X18_witness :
  sent_messages
    (fst (FourPath.serve (env_answering 200 "" data_uri_only)
            (Client.as_request
               (Client.typing "make it blue" Client.signed_in
                  (Client.generated "https://x/i.png")))))
  = [edit_payload (VStr "make it blue") (VStr "https://x/i.png")].
Proof.
  exact (proj2 (X18_accepted_prompt_is_forwarded FourPath.serve
                  (Client.backend_answering VNull VNull VNull)
                  (Client.typing "make it blue" Client.signed_in
                     (Client.generated "https://x/i.png"))
                  (env_answering 200 "" data_uri_only)
                  (or_introl eq_refl) eq_refl eq_refl eq_refl)).
Defined.

Lemma without_filter id images :
  forallb (fun img => negb (nullish img)) images = true ->
  Client.without id images
  = inr (filter (fun img => negb (is_the_string id (field "id" img))) images).
Proof.
  induction images as [| img images IH]; simpl; [reflexivity |].
  intros H. apply andb_true_iff in H as [Himg H].
  apply negb_true_iff in Himg. unfold dot. rewrite Himg. cbn [bind_result].
  rewrite (IH H). cbn [bind_result].
  destruct (is_the_string id (field "id" img)); reflexivity.
Qed.

Lemma is_the_string_spec s v : is_the_string s v = true <-> v = VStr s.
Proof.
  destruct v; simpl; try (split; [discriminate | discriminate]).
  split.
  - intros H. apply String.eqb_eq in H. congruence.
  - intros H. injection H as ->. apply String.eqb_refl.
Qed.

(** X19.  When the store reports an error for the delete, or the call is
    rejected, [deleteImage] leaves the images on display as they are: it
    logs the error, shows the error toast and clears the deleting mark. *)
Theorem X19_refused_delete_keeps_the_list w images id e :
  Client.delete w "generated_images" id = inl e
  \/ (exists error,
        Client.delete w "generated_images" id = inr error
        /\ truthy error = true /\ e = Thrown error) ->
  Client.deleteImage w images id
  = ([ Client.SetDeletingId (Some id);
       Client.Delete "generated_images" id;
       Client.LogError "Error deleting image:" e;
       Client.Toast "Xatolik"
         (Client.Shown (VStr "Rasmni o'chirishda xatolik yuz berdi")) true;
       Client.SetDeletingId None ],
     inr tt)
  /\ Client.image_lists (fst (Client.deleteImage w images id)) = [].
Proof.
  intros H. assert (Hrun : Client.deleteImage w images id
    = ([ Client.SetDeletingId (Some id);
         Client.Delete "generated_images" id;
         Client.LogError "Error deleting image:" e;
         Client.Toast "Xatolik"
           (Client.Shown (VStr "Rasmni o'chirishda xatolik yuz berdi")) true;
         Client.SetDeletingId None ],
       inr tt)).
  { client_unfold. destruct H as [-> | [error [-> [-> ->]]]]; reflexivity. }
  split; [exact Hrun | rewrite Hrun; reflexivity].
Qed.

Lemma X19_witness :
  Client.image_lists
    (fst (Client.deleteImage
            (Client.backend_answering VNull VNull
               (VObj [("message", VStr "not the owner")]))
            [Client.stored "a"; Client.stored "b"] "a"))
  = [].
Proof.
  apply (X19_refused_delete_keeps_the_list
           (Client.backend_answering VNull VNull
              (VObj [("message", VStr "not the owner")]))
           [Client.stored "a"; Client.stored "b"] "a"
           (Thrown (VObj [("message", VStr "not the owner")]))).
  right. exists (VObj [("message", VStr "not the owner")]).
  repeat split.
Defined.

(** X20.  When the store reports no error, [deleteImage] sets the images on
    display once, to the images it held without those whose [id] is the
    deleted one: no image with that id is left, every other image stays,
    and their order is kept. *)
Theorem X20_delete_removes_exactly_that_id w images id error :
  Client.delete w "generated_images" id = inr error ->
  truthy error = false ->
  forallb (fun img => negb (nullish img)) images = true ->
  exists kept,
    Client.deleteImage w images id
    = ([ Client.SetDeletingId (Some id);
         Client.Delete "generated_images" id;
         Client.SetImages kept;
         Client.Toast "Muvaffaqiyat!" (Client.Shown (VStr "Rasm o'chirildi")) false;
         Client.SetDeletingId None ],
       inr tt)
    /\ kept = filter (fun img => negb (is_the_string id (field "id" img))) images
    /\ (forall img, In img kept <-> In img images /\ field "id" img <> VStr id).
Proof.
  intros Hdelete Herror Himages.
  exists (filter (fun img => negb (is_the_string id (field "id" img))) images).
  split; [| split; [reflexivity |]].
  - client_unfold. rewrite Hdelete, Herror, (without_filter _ _ Himages).
    reflexivity.
  - intros img. rewrite filter_In, negb_true_iff.
    split; intros [Hin Hid]; split; try exact Hin.
    + intros Heq. apply is_the_string_spec in Heq. congruence.
    + destruct (is_the_string id (field "id" img)) eqn:Hs; [| reflexivity].
      apply is_the_string_spec in Hs. contradiction.
Qed.

Lemma X20_witness :
  exists kept,
    Client.deleteImage (Client.backend_answering VNull VNull VNull)
      [Client.stored "a"; Client.stored "b"; Client.stored "a"] "a"
    = ([ Client.SetDeletingId (Some "a");
         Client.Delete "generated_images" "a";
         Client.SetImages kept;
         Client.Toast "Muvaffaqiyat!" (Client.Shown (VStr "Rasm o'chirildi")) false;
         Client.SetDeletingId None ],
       inr tt)
    /\ kept
       = filter (fun img => negb (is_the_string "a" (field "id" img)))
           [Client.stored "a"; Client.stored "b"; Client.stored "a"]
    /\ (forall img,
          In img kept
          <-> In img [Client.stored "a"; Client.stored "b"; Client.stored "a"]
              /\ field "id" img <> VStr "a").
Proof.
  exact (X20_delete_removes_exactly_that_id
           (Client.backend_answering VNull VNull VNull)
           [Client.stored "a"; Client.stored "b"; Client.stored "a"] "a" VNull
           eq_refl eq_refl eq_refl).
Defined.
